(** * PersonaSync: the AI coach client service (services/ai_coach_api.ts)

    A shallow embedding of the AI coach service layer of the mobile client,
    and of the coaching core it talks to, with the properties the
    specification states about them. *)

From Stdlib Require Import Bool List String Ascii ZArith QArith Lia.
From Stdlib Require Import Floats DecimalString.
Import ListNotations.

Local Open Scope string_scope.

(** ** Enumerations shared with the service *)

Inductive MotivationTrigger : Type :=
| low_performance
| high_cancel_rate
| user_request
| streak_broken
| goal_achieved.

Inductive StudyCategory : Type :=
| lesson | project | reading | homework | personal | other.

Inductive AdviceType : Type :=
| daily | weekly | alternative.

Definition MotivationTrigger_text (t : MotivationTrigger) : string :=
  match t with
  | low_performance => "low_performance"
  | high_cancel_rate => "high_cancel_rate"
  | user_request => "user_request"
  | streak_broken => "streak_broken"
  | goal_achieved => "goal_achieved"
  end.

Definition AdviceType_text (t : AdviceType) : string :=
  match t with
  | daily => "daily"
  | weekly => "weekly"
  | alternative => "alternative"
  end.

(** ** Motivation trigger detection

    A TypeScript [number] is a binary64 value, and the function is embedded
    on them, operation for operation: the sum, the two quotients and the
    comparisons are those of binary64, with 0.5 and 1.0 the values they
    name and 0.3 the binary64 value nearest to three tenths. *)

Definition detectMotivationTrigger
    (cancelledToday completedToday minutesToday dailyTargetMinutes : float)
  : option MotivationTrigger :=
  let total := (cancelledToday + completedToday)%float in
  let cancelRate :=
    if (0 <? total)%float then (cancelledToday / total)%float else 0%float in
  let progressRate :=
    if (0 <? dailyTargetMinutes)%float
    then (minutesToday / dailyTargetMinutes)%float else 0%float in
  if (0.5 <? cancelRate)%float && (2 <=? total)%float
  then Some high_cancel_rate
  else if (1 <=? progressRate)%float then Some goal_achieved
  else if (progressRate <? 0x1.3333333333333p-2)%float
          && (0 <? minutesToday)%float
  then Some low_performance
  else None.

(** Exact rationals, in which the specification's rates are quotients:
    their comparisons, and a natural number as a rational. *)
Module Num.

Definition gtb (x y : Q) : bool := negb (Qle_bool x y).
Definition geb (x y : Q) : bool := Qle_bool y x.
Definition ltb (x y : Q) : bool := negb (Qle_bool y x).

Definition of_nat (n : nat) : Q := inject_Z (Z.of_nat n).

End Num.

(** The classification as the specification words it, on natural numbers:
    the cancel rate is taken when the total is at least one, the progress
    rate when the target is positive, and the three rules apply in
    priority order. *)
Definition spec_cancelRate (cancelled completed : nat) : Q :=
  if (1 <=? cancelled + completed)%nat
  then (Num.of_nat cancelled / Num.of_nat (cancelled + completed))%Q
  else 0%Q.

Definition spec_progressRate (minutesToday dailyTarget : nat) : Q :=
  if (0 <? dailyTarget)%nat
  then (Num.of_nat minutesToday / Num.of_nat dailyTarget)%Q
  else 0%Q.

Definition spec_trigger (cancelled completed minutesToday dailyTarget : nat)
  : option MotivationTrigger :=
  if Num.gtb (spec_cancelRate cancelled completed) 0.5
     && (2 <=? cancelled + completed)%nat
  then Some high_cancel_rate
  else if Num.geb (spec_progressRate minutesToday dailyTarget) 1.0
  then Some goal_achieved
  else if Num.ltb (spec_progressRate minutesToday dailyTarget) 0.3
          && (0 <? minutesToday)%nat
  then Some low_performance
  else None.

(** The same decision without quotients, in integer arithmetic. *)
Definition trigger_by_counts (cancelled completed minutesToday dailyTarget : nat)
  : option MotivationTrigger :=
  let total := (cancelled + completed)%nat in
  if (total <? 2 * cancelled)%nat && (2 <=? total)%nat
  then Some high_cancel_rate
  else if (0 <? dailyTarget)%nat && (dailyTarget <=? minutesToday)%nat
  then Some goal_achieved
  else if ((dailyTarget =? 0)%nat || (10 * minutesToday <? 3 * dailyTarget)%nat)
          && (0 <? minutesToday)%nat
  then Some low_performance
  else None.

(** A natural number as the binary64 value a caller passes for it, and
    the two parts of the function's decision: the first test, on the
    session counts, and the other two, on the minutes. *)
Module F64.

Definition of_Z (z : Z) : float := PrimFloat.of_uint63 (Uint63.of_Z z).

Definition of_nat (n : nat) : float := of_Z (Z.of_nat n).

Definition cancel_rule (cancelledToday completedToday : float) : bool :=
  let total := (cancelledToday + completedToday)%float in
  let cancelRate :=
    if (0 <? total)%float then (cancelledToday / total)%float else 0%float in
  (0.5 <? cancelRate)%float && (2 <=? total)%float.

Definition progress_rule (minutesToday dailyTargetMinutes : float)
  : option MotivationTrigger :=
  let progressRate :=
    if (0 <? dailyTargetMinutes)%float
    then (minutesToday / dailyTargetMinutes)%float else 0%float in
  if (1 <=? progressRate)%float then Some goal_achieved
  else if (progressRate <? 0x1.3333333333333p-2)%float
          && (0 <? minutesToday)%float
  then Some low_performance
  else None.

End F64.

(** Inputs beyond any day: a target of 3000000000000007 minutes, of which
    900000000000002 are done.  Both are below 2^53, so each is a binary64
    value. *)
Definition large_minutes : nat := Z.to_nat 900000000000002.
Definition large_target : nat := Z.to_nat 3000000000000007.

(** ** JSON documents and request objects

    [json] is a parsed JSON document: what [response.json()] yields and
    what the text made by [JSON.stringify] denotes.  An object keeps its
    members in order. *)

#[local] Set Warnings "-register-all".

Inductive json : Type :=
| JNull
| JBool (b : bool)
| JNum (q : Q)
| JStr (s : string)
| JArr (items : list json)
| JObj (members : list (string * json)).

Fixpoint assoc {A : Type} (key : string) (l : list (string * A)) : option A :=
  match l with
  | [] => None
  | (k, v) :: rest => if String.eqb k key then Some v else assoc key rest
  end.

(** [v.key] on a parsed document; [None] is [undefined]. *)
Definition member (key : string) (v : json) : option json :=
  match v with
  | JObj members => assoc key members
  | _ => None
  end.

(** JavaScript truthiness of a parsed document. *)
Definition truthy (v : json) : bool :=
  match v with
  | JNull => false
  | JBool b => b
  | JNum q => negb (Qeq_bool q 0)
  | JStr s => negb (String.eqb s EmptyString)
  | JArr _ => true
  | JObj _ => true
  end.

(** [v || fallback], where [v] may be [undefined]. *)
Definition or_else (v : option json) (fallback : json) : json :=
  match v with
  | Some x => if truthy x then x else fallback
  | None => fallback
  end.

(** An object under construction: own properties in insertion order; the
    value [None] is a property that is present and holds [undefined]. *)
Definition jsobject : Type := list (string * option json).

(** Defining a property replaces the value of an existing key in place and
    appends a new key. *)
Fixpoint define_property {A : Type} (key : string) (v : A) (o : list (string * A))
  : list (string * A) :=
  match o with
  | [] => [(key, v)]
  | (k, x) :: rest =>
      if String.eqb k key then (k, v) :: rest
      else (k, x) :: define_property key v rest
  end.

(** [{...target, ...source}]: every own property of [source] is defined on
    [target], in order, whatever its value. *)
Definition spread {A : Type} (target source : list (string * A)) : list (string * A) :=
  fold_left (fun o kv => define_property (fst kv) (snd kv) o) source target.

(** [JSON.stringify] of an object: a property holding [undefined] is left out. *)
Definition JSON_stringify (o : jsobject) : json :=
  JObj (flat_map (fun kv => match snd kv with
                            | Some v => [(fst kv, v)]
                            | None => []
                            end) o).

(** An optional property of a request object: not there, there and
    [undefined], or there with a value. *)
Inductive Optional (A : Type) : Type :=
| Absent
| Undefined
| Given (a : A).
Arguments Absent {A}.
Arguments Undefined {A}.
Arguments Given {A} a.

Definition optional_property {A : Type} (key : string) (enc : A -> json) (o : Optional A)
  : jsobject :=
  match o with
  | Absent => []
  | Undefined => [(key, None)]
  | Given a => [(key, Some (enc a))]
  end.

(** ** Request types *)

Record DailyAdviceRequest : Type := {
  extra_context : Optional string
}.

Record WeeklyReportRequest : Type := {
  days : Optional Q
}.

Record MotivationRequest : Type := {
  trigger : Optional MotivationTrigger;
  user_note : Optional string
}.

Record FeedbackRequest : Type := {
  technique : string;
  liked : bool;
  rejection_reason : Optional string;
  advice_type : Optional AdviceType
}.

Definition JTrigger (t : MotivationTrigger) : json := JStr (MotivationTrigger_text t).
Definition JAdviceType (t : AdviceType) : json := JStr (AdviceType_text t).

Definition DailyAdviceRequest_object (r : DailyAdviceRequest) : jsobject :=
  optional_property "extra_context" JStr (extra_context r).

Definition WeeklyReportRequest_object (r : WeeklyReportRequest) : jsobject :=
  optional_property "days" JNum (days r).

Definition MotivationRequest_object (r : MotivationRequest) : jsobject :=
  (optional_property "trigger" JTrigger (trigger r)
   ++ optional_property "user_note" JStr (user_note r))%list.

Definition FeedbackRequest_object (r : FeedbackRequest) : jsobject :=
  ([("technique", Some (JStr (technique r))); ("liked", Some (JBool (liked r)))]
   ++ optional_property "rejection_reason" JStr (rejection_reason r)
   ++ optional_property "advice_type" JAdviceType (advice_type r))%list.

(** ** Error classes *)

Inductive CoachErrorClass : Type :=
| AICoachError_class
| AICoachAuthError_class
| AICoachRateLimitError_class
| AICoachUnavailableError_class.

Definition CoachErrorClass_name (c : CoachErrorClass) : string :=
  match c with
  | AICoachError_class => "AICoachError"
  | AICoachAuthError_class => "AICoachAuthError"
  | AICoachRateLimitError_class => "AICoachRateLimitError"
  | AICoachUnavailableError_class => "AICoachUnavailableError"
  end.

(** An instance of [AICoachError] or of one of its subclasses.  [message]
    is what [Error] keeps, a string; [userMessage] is the constructor's
    argument as given. *)
Record AICoachError : Type := {
  class : CoachErrorClass;
  message : string;
  statusCode : Z;
  userMessage : json
}.

Definition new_AICoachError (message : string) (statusCode : Z) (userMessage : json)
  : AICoachError :=
  {| class := AICoachError_class; message := message;
     statusCode := statusCode; userMessage := userMessage |}.

Definition new_AICoachAuthError : AICoachError :=
  {| class := AICoachAuthError_class;
     message := "Token geçersiz veya süresi dolmuş";
     statusCode := 401;
     userMessage := JStr "Oturumunuz sona erdi. Lütfen tekrar giriş yapın." |}.

Definition new_AICoachRateLimitError : AICoachError :=
  {| class := AICoachRateLimitError_class;
     message := "AI koç rate limit";
     statusCode := 429;
     userMessage := JStr "AI koç şu an yoğun. Birkaç saniye sonra tekrar deneyin." |}.

Definition new_AICoachUnavailableError : AICoachError :=
  {| class := AICoachUnavailableError_class;
     message := "AI koç servisi kullanılamıyor";
     statusCode := 503;
     userMessage := JStr "AI koç şu an kullanılamıyor. Daha sonra tekrar deneyin." |}.

(** A value that can be thrown or reject a promise. *)
Inductive Thrown : Type :=
| CoachError (e : AICoachError)
| OtherError (name message : string)
| NotAnError (v : json).

(** [error instanceof AICoachAuthError]: the class has no subclass. *)
Definition isAuthError (error : Thrown) : bool :=
  match error with
  | CoachError e =>
      match class e with
      | AICoachAuthError_class => true
      | _ => false
      end
  | _ => false
  end.

Definition getAIErrorMessage (error : Thrown) : json :=
  match error with
  | CoachError e => userMessage e
  | OtherError _ _ => JStr "Beklenmeyen bir hata oluştu. Lütfen tekrar deneyin."
  | NotAnError _ => JStr "Bir hata oluştu."
  end.

(** The coach screen's handler: an authentication error raises the
    session-expired alert, whose button logs the user out. *)
Inductive UiAction : Type :=
| SessionExpiredAlert.

Definition handleAuthError (error : Thrown) : bool * list UiAction :=
  if isAuthError error then (true, [SessionExpiredAlert]) else (false, []).

(** ** HTTP exchange *)

Record RequestInit : Type := {
  init_method : option string;
  init_headers : option (list (string * string));
  init_body : option json
}.

Record HttpRequest : Type := {
  request_url : string;
  request_init : RequestInit
}.

(** A response body is JSON text, given by the document it denotes, or
    text on which [response.json()] fails with the parser's complaint. *)
Inductive Body : Type :=
| JsonText (doc : json)
| NotJson (complaint : string).

Record Response : Type := {
  status : Z;
  body : Body
}.

(** [response.ok]: the status is in the range 200-299. *)
Definition Response_ok (r : Response) : bool :=
  (200 <=? status r)%Z && (status r <=? 299)%Z.

Inductive FetchOutcome : Type :=
| Resolved (r : Response)
| Rejected (reason : Thrown).

(** ** Asynchronous computations

    The world holds the requests sent so far, how the network answers the
    next one, and the clock.  A computation takes a world to a settled
    promise and the world after it. *)

Record World : Type := {
  sent : list HttpRequest;
  answer : list HttpRequest -> HttpRequest -> FetchOutcome;
  clock : string
}.

Inductive Settled (A : Type) : Type :=
| Fulfilled (a : A)
| RejectedWith (e : Thrown).
Arguments Fulfilled {A} a.
Arguments RejectedWith {A} e.

Definition Async (A : Type) : Type := World -> Settled A * World.

Definition ret {A : Type} (a : A) : Async A := fun w => (Fulfilled a, w).

Definition throw {A : Type} (e : Thrown) : Async A := fun w => (RejectedWith e, w).

(** [await c] followed by the rest of the function body. *)
Definition bind {A B : Type} (c : Async A) (k : A -> Async B) : Async B :=
  fun w =>
    match c w with
    | (Fulfilled a, w') => k a w'
    | (RejectedWith e, w') => (RejectedWith e, w')
    end.

(** [try { c } catch (e) { handler e }], for what is thrown or awaited
    inside the block. *)
Definition try_catch {A : Type} (c : Async A) (handler : Thrown -> Async A) : Async A :=
  fun w =>
    match c w with
    | (Fulfilled a, w') => (Fulfilled a, w')
    | (RejectedWith e, w') => handler e w'
    end.

(** Awaiting a promise, or returning it from an [async] function: the
    computation settles as the promise does. *)
Definition adopt {A : Type} (p : Settled A) : Async A := fun w => (p, w).

Declare Scope async_scope.
Delimit Scope async_scope with async.
Notation "x <- c ;; k" := (bind c (fun x => k))
  (at level 100, c at next level, right associativity) : async_scope.

(** [fetch(url, init)]: one request leaves, and the network answers it. *)
Definition fetch (url : string) (init : RequestInit) : Async Response :=
  fun w =>
    let request := {| request_url := url; request_init := init |} in
    let w' := {| sent := sent w ++ [request]; answer := answer w; clock := clock w |} in
    match answer w (sent w) request with
    | Resolved r => (Fulfilled r, w')
    | Rejected reason => (RejectedWith reason, w')
    end.

(** [response.json()]: a promise of the parsed body. *)
Definition Response_json (r : Response) : Settled json :=
  match body r with
  | JsonText doc => Fulfilled doc
  | NotJson complaint => RejectedWith (OtherError "SyntaxError" complaint)
  end.

(** [new Date().toISOString()]. *)
Definition Date_now_toISOString : Async string := fun w => (Fulfilled (clock w), w).

(** ** The client service *)

Module Client.

Section Service.

(** [API_BASE_URL] comes from the build environment (services/api.ts);
    [Number_toString] is the engine's rendering of a number as text. *)
Variable API_BASE_URL : string.
Variable Number_toString : Q -> string.

Local Open Scope async_scope.

(** String conversion of a parsed document, as a template literal and
    the [Error] constructor apply it. *)
Fixpoint ToString (v : json) : string :=
  match v with
  | JNull => "null"
  | JBool true => "true"
  | JBool false => "false"
  | JNum q => Number_toString q
  | JStr s => s
  | JArr items =>
      String.concat ","
        (map (fun x => match x with JNull => EmptyString | _ => ToString x end) items)
  | JObj _ => "[object Object]"
  end.

(** [Error.prototype.toString]. *)
Definition Error_toString (name message : string) : string :=
  if String.eqb name EmptyString then message
  else if String.eqb message EmptyString then name
  else name ++ ": " ++ message.

Definition Thrown_toString (e : Thrown) : string :=
  match e with
  | CoachError e => Error_toString (CoachErrorClass_name (class e)) (message e)
  | OtherError name message => Error_toString name message
  | NotAnError v => ToString v
  end.

Definition defaultHeaders (token : string) : list (string * string) :=
  [("Content-Type", "application/json"); ("Authorization", "Bearer " ++ token)].

(** The [init] handed to [fetch]: the caller's options with the merged
    headers. *)
Definition fetch_init (token : string) (options : RequestInit) : RequestInit :=
  {| init_method := init_method options;
     init_headers :=
       Some (spread (defaultHeaders token)
               (match init_headers options with Some h => h | None => [] end));
     init_body := init_body options |}.

Definition aiCoachFetch (endpoint token : string) (options : RequestInit)
  : Async json :=
  let url := API_BASE_URL ++ "/api/ai" ++ endpoint in
  response <-
    try_catch
      (fetch url (fetch_init token options))
      (fun networkError =>
         throw (CoachError
                  (new_AICoachError
                     ("Network hatası: " ++ Thrown_toString networkError)
                     0
                     (JStr "İnternet bağlantınızı kontrol edin.")))) ;;
  if Response_ok response then adopt (Response_json response)
  else
    errorDetail <-
      try_catch
        (errorBody <- adopt (Response_json response) ;;
         ret (or_else (member "detail" errorBody) (JStr "Bilinmeyen hata")))
        (fun _ => ret (JStr "Bilinmeyen hata")) ;;
    match status response with
    | 401%Z => throw (CoachError new_AICoachAuthError)
    | 429%Z => throw (CoachError new_AICoachRateLimitError)
    | 400%Z =>
        throw (CoachError
                 (new_AICoachError (ToString errorDetail) 400 errorDetail))
    | 502%Z =>
        throw (CoachError
                 (new_AICoachError
                    "Gemini parse hatası"
                    502
                    (JStr "AI koç geçici bir sorun yaşıyor. Lütfen tekrar deneyin.")))
    | 503%Z => throw (CoachError new_AICoachUnavailableError)
    | _ =>
        throw (CoachError
                 (new_AICoachError
                    ("HTTP " ++ Number_toString (inject_Z (status response))
                     ++ ": " ++ ToString errorDetail)
                    (status response)
                    (JStr "Bir hata oluştu. Lütfen tekrar deneyin.")))
    end.

(** The one request a call of [aiCoachFetch] hands to [fetch]. *)
Definition aiCoachRequest (endpoint token : string) (options : RequestInit)
  : HttpRequest :=
  {| request_url := API_BASE_URL ++ "/api/ai" ++ endpoint;
     request_init := fetch_init token options |}.

Definition post (document : json) : RequestInit :=
  {| init_method := Some "POST"; init_headers := None; init_body := Some document |}.

(** A request argument left out takes the parameter's default. *)
Definition getDailyAdvice (token : string) (request : option DailyAdviceRequest)
  : Async json :=
  let request :=
    match request with
    | Some r => r
    | None => {| extra_context := Absent |}
    end in
  aiCoachFetch "/daily-advice" token
    (post (JSON_stringify (DailyAdviceRequest_object request))).

Definition getWeeklyReport (token : string) (request : option WeeklyReportRequest)
  : Async json :=
  let request :=
    match request with
    | Some r => r
    | None => {| days := Given 7%Q |}
    end in
  aiCoachFetch "/weekly-report" token
    (post (JSON_stringify (WeeklyReportRequest_object request))).

Definition getMotivation (token : string) (request : option MotivationRequest)
  : Async json :=
  let request :=
    match request with
    | Some r => r
    | None => {| trigger := Given user_request; user_note := Absent |}
    end in
  aiCoachFetch "/motivation" token
    (post (JSON_stringify (MotivationRequest_object request))).

Definition sendFeedback_body (request : FeedbackRequest) : json :=
  JSON_stringify
    (spread [("advice_type", Some (JStr "daily"))]
            (FeedbackRequest_object request)).

Definition sendFeedback (token : string) (request : FeedbackRequest) : Async json :=
  aiCoachFetch "/feedback" token (post (sendFeedback_body request)).

Definition getSessionSummary (token : string) (sessionId : Q) : Async json :=
  aiCoachFetch "/session-summary" token
    (post (JSON_stringify [("session_id", Some (JNum sessionId))])).

Definition unhealthy (checked_at : string) : json :=
  JObj [("status", JStr "unhealthy");
        ("model", JNull);
        ("error", JStr "Servise ulaşılamıyor");
        ("checked_at", JStr checked_at)].

(** The [try] block awaits [fetch] and returns the promise of
    [response.json()] without awaiting it; the function's own promise
    then settles as the returned one does. *)
Definition checkAIHealth : Async json :=
  let url := API_BASE_URL ++ "/api/ai/health" in
  returned <-
    try_catch
      (response <-
         fetch url {| init_method := Some "GET"; init_headers := None;
                      init_body := None |} ;;
       ret (Response_json response))
      (fun _ =>
         checked_at <- Date_now_toISOString ;;
         ret (Fulfilled (unhealthy checked_at))) ;;
  adopt returned.

Definition healthRequest : HttpRequest :=
  {| request_url := API_BASE_URL ++ "/api/ai/health";
     request_init := {| init_method := Some "GET"; init_headers := None;
                        init_body := None |} |}.

(** The five coach operations, as a caller may invoke them. *)
Inductive Operation : Type :=
| Call_getDailyAdvice (token : string) (request : option DailyAdviceRequest)
| Call_getWeeklyReport (token : string) (request : option WeeklyReportRequest)
| Call_getMotivation (token : string) (request : option MotivationRequest)
| Call_sendFeedback (token : string) (request : FeedbackRequest)
| Call_getSessionSummary (token : string) (sessionId : Q).

Definition invoke (op : Operation) : Async json :=
  match op with
  | Call_getDailyAdvice token request => getDailyAdvice token request
  | Call_getWeeklyReport token request => getWeeklyReport token request
  | Call_getMotivation token request => getMotivation token request
  | Call_sendFeedback token request => sendFeedback token request
  | Call_getSessionSummary token sessionId => getSessionSummary token sessionId
  end.

(** For the statements below: what [errorDetail] holds once the body of
    a failed response has been read, the error the [switch] then throws,
    and the world after one more request. *)
Definition errorDetail_of (r : Response) : json :=
  match body r with
  | JsonText doc => or_else (member "detail" doc) (JStr "Bilinmeyen hata")
  | NotJson _ => JStr "Bilinmeyen hata"
  end.

Definition error_for (r : Response) : AICoachError :=
  let errorDetail := errorDetail_of r in
  if (status r =? 401)%Z then new_AICoachAuthError
  else if (status r =? 429)%Z then new_AICoachRateLimitError
  else if (status r =? 400)%Z
  then new_AICoachError (ToString errorDetail) 400 errorDetail
  else if (status r =? 502)%Z
  then new_AICoachError "Gemini parse hatası" 502
         (JStr "AI koç geçici bir sorun yaşıyor. Lütfen tekrar deneyin.")
  else if (status r =? 503)%Z then new_AICoachUnavailableError
  else new_AICoachError
         ("HTTP " ++ Number_toString (inject_Z (status r)) ++ ": "
          ++ ToString errorDetail)
         (status r)
         (JStr "Bir hata oluştu. Lütfen tekrar deneyin.").

Definition after_request (w : World) (request : HttpRequest) : World :=
  {| sent := (sent w ++ [request])%list; answer := answer w; clock := clock w |}.

End Service.

End Client.

Import Client.

(** The shape of an [AIHealthStatus]: a status of healthy or unhealthy, a
    model and an error that are text or null, and a timestamp. *)
Definition text_or_null (v : option json) : bool :=
  match v with
  | Some (JStr _) => true
  | Some JNull => true
  | _ => false
  end.

Definition is_AIHealthStatus (v : json) : bool :=
  match member "status" v with
  | Some (JStr s) => String.eqb s "healthy" || String.eqb s "unhealthy"
  | _ => false
  end
  && text_or_null (member "model" v)
  && text_or_null (member "error" v)
  && match member "checked_at" v with
     | Some (JStr _) => true
     | _ => false
     end.

(** ** The coaching core

    The service behind the client, the AI Coaching Orchestration Service of
    the specification, is not among these sources: the client holds only
    its response types and the calls to its endpoints.  Its components are
    modelled from the specification (sections 3 to 7). *)

Module Core.

(** Modelled from the spec: the error taxonomy of section 7. *)
Inductive Failure : Type :=
| InvalidRequest
| DataUnavailable
| Unavailable
| RateLimited
| SchemaViolation
| UpstreamError.

(** Modelled from the spec: the status code each failure is surfaced
    with (section 6); a missing user or session is a not-found. *)
Definition status_of_failure (f : Failure) : Z :=
  match f with
  | InvalidRequest => 400
  | DataUnavailable => 404
  | RateLimited => 429
  | SchemaViolation => 502
  | UpstreamError => 502
  | Unavailable => 503
  end.

(** Modelled from the spec: the five kinds of artifact (section 3). *)
Inductive ArtifactKind : Type :=
| DailyAdvice_kind
| WeeklyReport_kind
| Motivation_kind
| AlternativeTechnique_kind
| SessionSummary_kind.

(** Modelled from the spec: the model tiers of the Gateway (section 4.3). *)
Inductive Tier : Type :=
| Fast
| Heavy.

(** Modelled from the spec: the tier per artifact (section 4.3), the
    heavier one for the weekly report. *)
Definition tier_of (k : ArtifactKind) : Tier :=
  match k with
  | WeeklyReport_kind => Heavy
  | _ => Fast
  end.

(** Modelled from the spec: what the external model does with one
    request (the failure conditions of section 4.3). *)
Inductive ModelReply : Type :=
| Text (raw : string)
| TransportFailure
| TimedOut
| QuotaSignal
| Malformed.

(** Modelled from the spec: the identity of a user, supplied per call. *)
Definition UserId : Type := nat.

(** The artifact-specific fields of the two artifacts used below, as the
    client's response types declare them. *)
Record AlternativeTechnique : Type := {
  technique : string;
  why_different : string;
  why_suits_you : string;
  steps : list string;
  try_suggestion : string
}.

Record WeeklyReport : Type := {
  week_summary : string;
  strengths : list string;
  improvements : list string;
  highlight : string;
  next_week_focus : string;
  technique_recommendation : string;
  technique_reason : string;
  motivational_closing : string
}.

(** Modelled from the spec: every artifact carries the generating model
    and a generation timestamp (section 3). *)
Record Generated (A : Type) : Type := {
  artifact : A;
  model_used : string;
  generated_at : string
}.
Arguments artifact {A} g.
Arguments model_used {A} g.
Arguments generated_at {A} g.

(** Modelled from the spec: the FeedbackRecord of section 3, with the
    identity the recorder assigns. *)
Record FeedbackRecord : Type := {
  record_id : nat;
  record_user : UserId;
  record_technique : string;
  record_liked : bool;
  record_rejection_reason : option string;
  record_advice_type : AdviceType;
  record_created_at : string
}.

(** The response to a feedback, as the client's FeedbackResponse type
    declares it. *)
Record FeedbackResponse : Type := {
  success : bool;
  message : string;
  feedback_id : nat;
  alternative : option (Generated AlternativeTechnique)
}.

(** Modelled from the spec: the state a request runs against, namely the
    calls the Gateway has made, the feedback records persisted, and the
    clock. *)
Record State : Type := {
  gateway_calls : list (string * Tier);
  feedback_store : list FeedbackRecord;
  now : string
}.

(** Modelled from the spec: the tagged result of an operation, an
    artifact or a failure kind (section 9), and operations as functions of
    the state. *)
Inductive Result (A : Type) : Type :=
| Done (a : A)
| Failed (f : Failure).
Arguments Done {A} a.
Arguments Failed {A} f.

Definition Op (A : Type) : Type := State -> Result A * State.

Definition ret {A : Type} (a : A) : Op A := fun s => (Done a, s).

Definition fail {A : Type} (f : Failure) : Op A := fun s => (Failed f, s).

Definition bind {A B : Type} (c : Op A) (k : A -> Op B) : Op B :=
  fun s =>
    match c s with
    | (Done a, s') => k a s'
    | (Failed f, s') => (Failed f, s')
    end.

(** Modelled from the spec: a step whose failure is isolated (section
    7); it yields no value instead of failing its parent. *)
Definition attempt {A : Type} (c : Op A) : Op (option A) :=
  fun s =>
    match c s with
    | (Done a, s') => (Done (Some a), s')
    | (Failed _, s') => (Done None, s')
    end.

Declare Scope core_scope.
Delimit Scope core_scope with core.
Notation "x <- c ;; k" := (bind c (fun x => k))
  (at level 100, c at next level, right associativity) : core_scope.

(** Modelled from the spec: the fields a validator reads (section 4.4):
    a text field is present, a string, and not empty. *)
Definition text_field (key : string) (doc : json) : option string :=
  match member key doc with
  | Some (JStr s) => if String.eqb s EmptyString then None else Some s
  | _ => None
  end.

Fixpoint all_text (items : list json) : option (list string) :=
  match items with
  | [] => Some []
  | JStr s :: rest =>
      match all_text rest with
      | Some l => Some (s :: l)
      | None => None
      end
  | _ :: _ => None
  end.

(** Modelled from the spec: a list field is present, every item is text,
    and there is at least one item. *)
Definition text_list (key : string) (doc : json) : option (list string) :=
  match member key doc with
  | Some (JArr items) =>
      match all_text items with
      | Some (x :: l) => Some (x :: l)
      | _ => None
      end
  | _ => None
  end.

Section Components.

Variables UserContext StatsSnapshot : Type.

(** The collaborators outside the core: the statistics and profile
    provider, the renderer of prompts, the generative model, the
    locator of a payload in the model's text, the name of the model
    behind a tier, case folding of text, and the confirmation shown
    after a feedback. *)
Variable provide : UserId -> Z -> option (UserContext * StatsSnapshot).
Variable render :
  ArtifactKind -> UserContext -> StatsSnapshot ->
  option string -> option string -> string.
Variable model : list (string * Tier) -> string -> Tier -> ModelReply.
Variable locate : string -> option json.
Variable model_name : Tier -> string.
Variable fold_case : string -> string.
Variable confirmation : bool -> string.

Local Open Scope core_scope.

(** Modelled from the spec: comparison of two names, case ignored. *)
Definition same_ignoring_case (a b : string) : bool :=
  String.eqb (fold_case a) (fold_case b).

(** Modelled from the spec: the Context Assembler (section 4.1).  A
    window outside 3 to 30 days is rejected with [InvalidRequest]; a
    user the provider has nothing for is [DataUnavailable]. *)
Definition assemble (user : UserId) (window : Z) : Op (UserContext * StatsSnapshot) :=
  if (window <? 3)%Z || (30 <? window)%Z then fail InvalidRequest
  else
    match provide user window with
    | Some found => ret found
    | None => fail DataUnavailable
    end.

(** Modelled from the spec: the Generative Model Gateway (section 4.3
    and the timeout rule of section 5).  One call, no retry. *)
Definition send (prompt : string) (tier : Tier) : Op string :=
  fun s =>
    let s' := {| gateway_calls := (gateway_calls s ++ [(prompt, tier)])%list;
                 feedback_store := feedback_store s;
                 now := now s |} in
    match model (gateway_calls s) prompt tier with
    | Text raw =>
        if String.eqb raw EmptyString then (Failed UpstreamError, s') else (Done raw, s')
    | TransportFailure => (Failed Unavailable, s')
    | TimedOut => (Failed Unavailable, s')
    | QuotaSignal => (Failed RateLimited, s')
    | Malformed => (Failed UpstreamError, s')
    end.

(** Modelled from the spec: the Response Parser/Validator (section
    4.4).  A payload that cannot be located, or that fails the
    artifact's rules, is a [SchemaViolation]. *)
Definition parse {A : Type} (validate : json -> option A) (raw : string) : Op A :=
  match locate raw with
  | Some doc =>
      match validate doc with
      | Some a => ret a
      | None => fail SchemaViolation
      end
  | None => fail SchemaViolation
  end.

(** Modelled from the spec: the rules for an AlternativeTechnique; the
    technique must differ from the excluded one, case ignored. *)
Definition validate_alternative (excluded : string) (doc : json)
  : option AlternativeTechnique :=
  match text_field "technique" doc,
        text_field "why_different" doc,
        text_field "why_suits_you" doc,
        text_list "steps" doc,
        text_field "try_suggestion" doc with
  | Some t, Some d, Some u, Some st, Some y =>
      if same_ignoring_case t excluded then None
      else Some {| technique := t; why_different := d; why_suits_you := u;
                   steps := st; try_suggestion := y |}
  | _, _, _, _, _ => None
  end.

(** Modelled from the spec: the rules for a WeeklyReport. *)
Definition validate_weekly (doc : json) : option WeeklyReport :=
  match text_field "week_summary" doc,
        text_list "strengths" doc,
        text_list "improvements" doc,
        text_field "highlight" doc,
        text_field "next_week_focus" doc,
        text_field "technique_recommendation" doc,
        text_field "technique_reason" doc,
        text_field "motivational_closing" doc with
  | Some a, Some b, Some c, Some d, Some e, Some f, Some g, Some h =>
      Some {| week_summary := a; strengths := b; improvements := c;
              highlight := d; next_week_focus := e;
              technique_recommendation := f; technique_reason := g;
              motivational_closing := h |}
  | _, _, _, _, _, _, _, _ => None
  end.

(** Modelled from the spec: the generating model and the generation time
    are attached to a validated artifact (section 3). *)
Definition stamp {A : Type} (kind : ArtifactKind) (a : A) : Op (Generated A) :=
  fun s =>
    (Done {| artifact := a; model_used := model_name (tier_of kind);
             generated_at := now s |}, s).

(** Modelled from the spec: the Coaching Orchestrator's pipeline
    (section 4.5): Context Assembler, Prompt Builder, Gateway, Parser,
    in that order. *)
Definition generate {A : Type} (kind : ArtifactKind) (user : UserId) (window : Z)
    (extra excluded : option string) (validate : json -> option A)
  : Op (Generated A) :=
  found <- assemble user window ;;
  let prompt := render kind (fst found) (snd found) extra excluded in
  raw <- send prompt (tier_of kind) ;;
  a <- parse validate raw ;;
  stamp kind a.

(** Modelled from the spec: the default statistics window, seven days. *)
Definition default_window : Z := 7.

(** Modelled from the spec: the orchestrator operation getWeeklyReport
    (section 4.5): a user and a number of days, seven when none is given. *)
Definition getWeeklyReport (user : UserId) (days : option Z)
  : Op (Generated WeeklyReport) :=
  let days := match days with Some d => d | None => default_window end in
  generate WeeklyReport_kind user days None None validate_weekly.

(** Modelled from the spec: the orchestrator operation
    getAlternativeTechnique (section 4.5): the rejected technique is the one
    to exclude, and the rejection reason is the extra context. *)
Definition getAlternativeTechnique (user : UserId) (rejected : string)
    (rejection_reason : option string)
  : Op (Generated AlternativeTechnique) :=
  generate AlternativeTechnique_kind user default_window
           rejection_reason (Some rejected) (validate_alternative rejected).

(** Modelled from the spec: the persistence sink behind the Feedback
    Recorder.  It appends the record under a fresh identity, and keeps no
    rejection reason when the technique was liked. *)
Definition persist (user : UserId) (technique : string) (liked : bool)
    (rejection_reason : option string) (advice_type : AdviceType)
  : Op FeedbackRecord :=
  fun s =>
    let r := {| record_id := S (List.length (feedback_store s));
                record_user := user;
                record_technique := technique;
                record_liked := liked;
                record_rejection_reason :=
                  if liked then None else rejection_reason;
                record_advice_type := advice_type;
                record_created_at := now s |} in
    (Done r, {| gateway_calls := gateway_calls s;
                feedback_store := (feedback_store s ++ [r])%list;
                now := now s |}).

(** Modelled from the spec: the Feedback Recorder (section 4.6).  A
    dislike asks for an alternative that excludes the rejected
    technique; a failure of that step leaves the alternative empty. *)
Definition record (user : UserId) (technique : string) (liked : bool)
    (rejection_reason : option string) (advice_type : option AdviceType)
  : Op FeedbackResponse :=
  let advice_type := match advice_type with Some t => t | None => daily end in
  stored <- persist user technique liked rejection_reason advice_type ;;
  alt <- (if liked then ret None
          else attempt (getAlternativeTechnique user technique rejection_reason)) ;;
  ret {| success := true;
         message := confirmation liked;
         feedback_id := record_id stored;
         alternative := alt |}.

(** Modelled from the spec: the status a result is surfaced with at the
    HTTP boundary (section 6). *)
Definition status_of {A : Type} (r : Result A) : Z :=
  match r with
  | Done _ => 200
  | Failed f => status_of_failure f
  end.

End Components.

End Core.

(** ** Agreement of the function with the integer form

    The function's decision on binary64 values is compared with the
    decision in integer arithmetic on every pair of inputs below a bound. *)

Definition MotivationTrigger_eqb (a b : MotivationTrigger) : bool :=
  match a, b with
  | low_performance, low_performance => true
  | high_cancel_rate, high_cancel_rate => true
  | user_request, user_request => true
  | streak_broken, streak_broken => true
  | goal_achieved, goal_achieved => true
  | _, _ => false
  end.

Definition same_trigger (a b : option MotivationTrigger) : bool :=
  match a, b with
  | Some x, Some y => MotivationTrigger_eqb x y
  | None, None => true
  | _, _ => false
  end.

Definition counts_cancel (c k : Z) : bool :=
  (c + k <? 2 * c)%Z && (2 <=? c + k)%Z.

Definition counts_progress (m d : Z) : option MotivationTrigger :=
  if (0 <? d)%Z && (d <=? m)%Z then Some goal_achieved
  else if ((d =? 0)%Z || (10 * m <? 3 * d)%Z) && (0 <? m)%Z
  then Some low_performance
  else None.

Definition zrange (n : nat) : list Z := map Z.of_nat (seq 0 n).

Definition cancel_agrees_below (n : nat) : bool :=
  let range := zrange n in
  forallb (fun c =>
    forallb (fun k =>
      Bool.eqb (F64.cancel_rule (F64.of_Z c) (F64.of_Z k)) (counts_cancel c k))
      range)
    range.

Definition progress_agrees_below (n : nat) : bool :=
  let range := zrange n in
  forallb (fun m =>
    forallb (fun d =>
      same_trigger (F64.progress_rule (F64.of_Z m) (F64.of_Z d))
                   (counts_progress m d))
      range)
    range.

(** ** Concrete worlds and collaborators

    Instances on which the statements below are exercised. *)

Module Sample.

Definition base_url : string := "https://personasync.example".

(** A rendering of numbers as text: the decimal digits of the whole part. *)
Definition number_text (q : Q) : string :=
  DecimalString.NilZero.string_of_int (Z.to_int (Qnum q / Zpos (Qden q))).

Definition weekly_options : RequestInit :=
  post (JSON_stringify (WeeklyReportRequest_object {| days := Given 45%Q |})).

Definition replying (r : Response) : World :=
  {| sent := []; answer := fun _ _ => Resolved r;
     clock := "2025-01-15T09:30:00.000Z" |}.

Definition offline : World :=
  {| sent := [];
     answer := fun _ _ => Rejected (OtherError "TypeError" "Network request failed");
     clock := "2025-01-15T09:30:00.000Z" |}.

Definition days_out_of_range : Response :=
  {| status := 400;
     body := JsonText (JObj [("detail", JStr "days must be between 3 and 30")]) |}.

Definition schema_violation : Response :=
  {| status := 502;
     body := JsonText (JObj [("detail", JStr "model output: {technique: 42}")]) |}.

Definition proxy_error_page : Response :=
  {| status := 502; body := NotJson "Unexpected token < in JSON at position 0" |}.

(** Case folding of the letters A to Z. *)
Definition lower_ascii (a : ascii) : ascii :=
  let n := nat_of_ascii a in
  if (65 <=? n)%nat && (n <=? 90)%nat then ascii_of_nat (n + 32) else a.

Fixpoint lower (s : string) : string :=
  match s with
  | EmptyString => EmptyString
  | String a rest => String (lower_ascii a) (lower rest)
  end.

Definition provide (user : Core.UserId) (window : Z) : option (unit * unit) :=
  Some (tt, tt).

Definition render (kind : Core.ArtifactKind) (context stats : unit)
    (extra excluded : option string) : string :=
  match excluded with
  | Some t => "Suggest a study technique other than " ++ t
  | None => "Coach the user"
  end.

(** A model that suggests the rejected technique again, in capitals. *)
Definition stubborn_reply : string :=
  "Here you go: {technique: POMODORO 25/5, ...}".

Definition stubborn_payload : json :=
  JObj [("technique", JStr "POMODORO 25/5");
        ("why_different", JStr "It is not.");
        ("why_suits_you", JStr "You know it already.");
        ("steps", JArr [JStr "Work 25 minutes"; JStr "Rest 5 minutes"]);
        ("try_suggestion", JStr "Start now.")].

Definition stubborn_model (calls : list (string * Core.Tier)) (prompt : string)
    (tier : Core.Tier) : Core.ModelReply :=
  Core.Text stubborn_reply.

Definition unreachable_model (calls : list (string * Core.Tier)) (prompt : string)
    (tier : Core.Tier) : Core.ModelReply :=
  Core.TransportFailure.

Definition locate (raw : string) : option json :=
  if String.eqb raw stubborn_reply then Some stubborn_payload else None.

Definition model_name (tier : Core.Tier) : string :=
  match tier with
  | Core.Fast => "fast-tier"
  | Core.Heavy => "heavy-tier"
  end.

Definition confirmation (liked : bool) : string :=
  if liked then "Thanks for the feedback." else "Thanks, here is another idea.".

Definition fresh : Core.State :=
  {| Core.gateway_calls := []; Core.feedback_store := [];
     Core.now := "2025-01-15T09:30:00.000Z" |}.

End Sample.

(** ** What an operation sends

    The endpoint and the token of each coach operation, for the statements
    about its request. *)

Definition operation_endpoint (op : Operation) : string :=
  match op with
  | Call_getDailyAdvice _ _ => "/daily-advice"
  | Call_getWeeklyReport _ _ => "/weekly-report"
  | Call_getMotivation _ _ => "/motivation"
  | Call_sendFeedback _ _ => "/feedback"
  | Call_getSessionSummary _ _ => "/session-summary"
  end.

Definition operation_token (op : Operation) : string :=
  match op with
  | Call_getDailyAdvice token _ => token
  | Call_getWeeklyReport token _ => token
  | Call_getMotivation token _ => token
  | Call_sendFeedback token _ => token
  | Call_getSessionSummary token _ => token
  end.

(** The five texts [aiCoachFetch] can show for a failed response whose
    status is not 400. *)
Definition fixed_user_messages : list json :=
  [JStr "Oturumunuz sona erdi. Lütfen tekrar giriş yapın.";
   JStr "AI koç şu an yoğun. Birkaç saniye sonra tekrar deneyin.";
   JStr "AI koç geçici bir sorun yaşıyor. Lütfen tekrar deneyin.";
   JStr "AI koç şu an kullanılamıyor. Daha sonra tekrar deneyin.";
   JStr "Bir hata oluştu. Lütfen tekrar deneyin."].

(** ** The account service (services/api.ts) *)

(** [v.key] where [v] may be anything a body parses to: reading a property
    of [null] throws a TypeError with the engine's complaint. *)
Definition read_property (null_complaint : string) (key : string) (v : json)
  : Settled (option json) :=
  match v with
  | JNull => RejectedWith (OtherError "TypeError" null_complaint)
  | _ => Fulfilled (member key v)
  end.

Module Api.

Record UserRegister : Type := {
  register_email : string;
  register_password : string;
  full_name : string
}.

Record UserLogin : Type := {
  email : string;
  password : string
}.

Record ProfileUpdate : Type := {
  age : Q;
  occupation : string;
  goal : string;
  daily_study_target : Q
}.

Definition UserRegister_object (d : UserRegister) : jsobject :=
  [("email", Some (JStr (register_email d)));
   ("password", Some (JStr (register_password d)));
   ("full_name", Some (JStr (full_name d)))].

Definition UserLogin_object (d : UserLogin) : jsobject :=
  [("email", Some (JStr (email d))); ("password", Some (JStr (password d)))].

Definition ProfileUpdate_object (d : ProfileUpdate) : jsobject :=
  [("age", Some (JNum (age d)));
   ("occupation", Some (JStr (occupation d)));
   ("goal", Some (JStr (goal d)));
   ("daily_study_target", Some (JNum (daily_study_target d)))].

Section Service.

(** [API_BASE_URL] is the environment's value, which the module refuses
    when it is not set; [Number_toString] renders a number as text, and
    [null_complaint] is the engine's message for a property read on null. *)
Variable API_BASE_URL : string.
Variable Number_toString : Q -> string.
Variable null_complaint : string.

Local Open Scope async_scope.

(** [new Error(value)]: the message is the value as text. *)
Definition new_Error (value : json) : Thrown :=
  OtherError "Error" (ToString Number_toString value).

(** The block each function runs on a response that is not ok: the body is
    parsed, its detail read, and an [Error] thrown with the detail or the
    function's own fallback text. *)
Definition throw_detail {A : Type} (response : Response) (fallback : string) : Async A :=
  error <- adopt (Response_json response) ;;
  detail <- adopt (read_property null_complaint "detail" error) ;;
  throw (new_Error (or_else detail (JStr fallback))).

Definition registerUser (data : UserRegister) : Async json :=
  response <-
    fetch (API_BASE_URL ++ "/api/auth/register")
          {| init_method := Some "POST";
             init_headers := Some [("Content-Type", "application/json")];
             init_body := Some (JSON_stringify (UserRegister_object data)) |} ;;
  if negb (Response_ok response) then throw_detail response "Kayıt başarısız"
  else adopt (Response_json response).

Definition loginUser (data : UserLogin) : Async json :=
  response <-
    fetch (API_BASE_URL ++ "/api/auth/login")
          {| init_method := Some "POST";
             init_headers := Some [("Content-Type", "application/json")];
             init_body := Some (JSON_stringify (UserLogin_object data)) |} ;;
  if negb (Response_ok response) then throw_detail response "Giriş başarısız"
  else adopt (Response_json response).

Definition updateProfile (userId : Q) (data : ProfileUpdate) (token : string)
  : Async json :=
  response <-
    fetch (API_BASE_URL ++ "/api/users/" ++ Number_toString userId ++ "/profile")
          {| init_method := Some "PUT";
             init_headers := Some [("Content-Type", "application/json");
                                   ("Authorization", "Bearer " ++ token)];
             init_body := Some (JSON_stringify (ProfileUpdate_object data)) |} ;;
  if negb (Response_ok response)
  then throw_detail response "Profil güncelleme başarısız"
  else adopt (Response_json response).

Definition getUser (userId : Q) (token : string) : Async json :=
  response <-
    fetch (API_BASE_URL ++ "/api/users/" ++ Number_toString userId)
          {| init_method := Some "GET";
             init_headers := Some [("Authorization", "Bearer " ++ token)];
             init_body := None |} ;;
  if negb (Response_ok response)
  then throw_detail response "Kullanıcı bilgisi alınamadı"
  else adopt (Response_json response).

(** The four functions, as a caller may invoke them, and the fallback
    text of each. *)
Inductive Call : Type :=
| Call_registerUser (data : UserRegister)
| Call_loginUser (data : UserLogin)
| Call_updateProfile (userId : Q) (data : ProfileUpdate) (token : string)
| Call_getUser (userId : Q) (token : string).

Definition run (c : Call) : Async json :=
  match c with
  | Call_registerUser data => registerUser data
  | Call_loginUser data => loginUser data
  | Call_updateProfile userId data token => updateProfile userId data token
  | Call_getUser userId token => getUser userId token
  end.

Definition fallback_of (c : Call) : string :=
  match c with
  | Call_registerUser _ => "Kayıt başarısız"
  | Call_loginUser _ => "Giriş başarısız"
  | Call_updateProfile _ _ _ => "Profil güncelleme başarısız"
  | Call_getUser _ _ => "Kullanıcı bilgisi alınamadı"
  end.

Definition token_of (c : Call) : option string :=
  match c with
  | Call_registerUser _ => None
  | Call_loginUser _ => None
  | Call_updateProfile _ _ token => Some token
  | Call_getUser _ token => Some token
  end.

End Service.

End Api.

(** ** The coach screen

    The state of the screen and the handlers that call the coach service.
    A state variable that holds [null] is the document [JNull].  A handler
    runs with the state of the render it was made in, and its updates are
    applied in the order it makes them. *)

(** [sendFeedback] on the request object as a caller builds it at run
    time, a property of which may hold [undefined]. *)
Definition sendFeedback_object (API_BASE_URL : string) (Number_toString : Q -> string)
    (token : string) (request : jsobject) : Async json :=
  aiCoachFetch API_BASE_URL Number_toString "/feedback" token
    (post (JSON_stringify (spread [("advice_type", Some (JStr "daily"))] request))).

Module CoachScreen.

Inductive FeedbackState : Type :=
| liked_feedback
| disliked_feedback.

(** The alerts a handler raises: the session-expired alert, whose button
    logs the user out, and the error alert with its text. *)
Inductive Alert : Type :=
| SessionExpired
| ErrorAlert (message : json).

Record Screen : Type := {
  advice : json;
  adviceLoading : bool;
  adviceError : json;
  feedbackState : option FeedbackState;
  feedbackLoading : bool;
  alternative : json;
  motivation : json;
  motivationLoading : bool;
  motivationError : json;
  motivationVisible : bool;
  report : json;
  reportLoading : bool;
  reportError : json;
  reportVisible : bool;
  refreshing : bool;
  alerts : list Alert
}.

Definition setAdvice (v : json) (s : Screen) : Screen :=
  {| advice := v;
     adviceLoading := adviceLoading s;
     adviceError := adviceError s;
     feedbackState := feedbackState s;
     feedbackLoading := feedbackLoading s;
     alternative := alternative s;
     motivation := motivation s;
     motivationLoading := motivationLoading s;
     motivationError := motivationError s;
     motivationVisible := motivationVisible s;
     report := report s;
     reportLoading := reportLoading s;
     reportError := reportError s;
     reportVisible := reportVisible s;
     refreshing := refreshing s;
     alerts := alerts s |}.

Definition setAdviceLoading (v : bool) (s : Screen) : Screen :=
  {| advice := advice s;
     adviceLoading := v;
     adviceError := adviceError s;
     feedbackState := feedbackState s;
     feedbackLoading := feedbackLoading s;
     alternative := alternative s;
     motivation := motivation s;
     motivationLoading := motivationLoading s;
     motivationError := motivationError s;
     motivationVisible := motivationVisible s;
     report := report s;
     reportLoading := reportLoading s;
     reportError := reportError s;
     reportVisible := reportVisible s;
     refreshing := refreshing s;
     alerts := alerts s |}.

Definition setAdviceError (v : json) (s : Screen) : Screen :=
  {| advice := advice s;
     adviceLoading := adviceLoading s;
     adviceError := v;
     feedbackState := feedbackState s;
     feedbackLoading := feedbackLoading s;
     alternative := alternative s;
     motivation := motivation s;
     motivationLoading := motivationLoading s;
     motivationError := motivationError s;
     motivationVisible := motivationVisible s;
     report := report s;
     reportLoading := reportLoading s;
     reportError := reportError s;
     reportVisible := reportVisible s;
     refreshing := refreshing s;
     alerts := alerts s |}.

Definition setFeedbackState (v : option FeedbackState) (s : Screen) : Screen :=
  {| advice := advice s;
     adviceLoading := adviceLoading s;
     adviceError := adviceError s;
     feedbackState := v;
     feedbackLoading := feedbackLoading s;
     alternative := alternative s;
     motivation := motivation s;
     motivationLoading := motivationLoading s;
     motivationError := motivationError s;
     motivationVisible := motivationVisible s;
     report := report s;
     reportLoading := reportLoading s;
     reportError := reportError s;
     reportVisible := reportVisible s;
     refreshing := refreshing s;
     alerts := alerts s |}.

Definition setFeedbackLoading (v : bool) (s : Screen) : Screen :=
  {| advice := advice s;
     adviceLoading := adviceLoading s;
     adviceError := adviceError s;
     feedbackState := feedbackState s;
     feedbackLoading := v;
     alternative := alternative s;
     motivation := motivation s;
     motivationLoading := motivationLoading s;
     motivationError := motivationError s;
     motivationVisible := motivationVisible s;
     report := report s;
     reportLoading := reportLoading s;
     reportError := reportError s;
     reportVisible := reportVisible s;
     refreshing := refreshing s;
     alerts := alerts s |}.

Definition setAlternative (v : json) (s : Screen) : Screen :=
  {| advice := advice s;
     adviceLoading := adviceLoading s;
     adviceError := adviceError s;
     feedbackState := feedbackState s;
     feedbackLoading := feedbackLoading s;
     alternative := v;
     motivation := motivation s;
     motivationLoading := motivationLoading s;
     motivationError := motivationError s;
     motivationVisible := motivationVisible s;
     report := report s;
     reportLoading := reportLoading s;
     reportError := reportError s;
     reportVisible := reportVisible s;
     refreshing := refreshing s;
     alerts := alerts s |}.

Definition setMotivation (v : json) (s : Screen) : Screen :=
  {| advice := advice s;
     adviceLoading := adviceLoading s;
     adviceError := adviceError s;
     feedbackState := feedbackState s;
     feedbackLoading := feedbackLoading s;
     alternative := alternative s;
     motivation := v;
     motivationLoading := motivationLoading s;
     motivationError := motivationError s;
     motivationVisible := motivationVisible s;
     report := report s;
     reportLoading := reportLoading s;
     reportError := reportError s;
     reportVisible := reportVisible s;
     refreshing := refreshing s;
     alerts := alerts s |}.

Definition setMotivationLoading (v : bool) (s : Screen) : Screen :=
  {| advice := advice s;
     adviceLoading := adviceLoading s;
     adviceError := adviceError s;
     feedbackState := feedbackState s;
     feedbackLoading := feedbackLoading s;
     alternative := alternative s;
     motivation := motivation s;
     motivationLoading := v;
     motivationError := motivationError s;
     motivationVisible := motivationVisible s;
     report := report s;
     reportLoading := reportLoading s;
     reportError := reportError s;
     reportVisible := reportVisible s;
     refreshing := refreshing s;
     alerts := alerts s |}.

Definition setMotivationError (v : json) (s : Screen) : Screen :=
  {| advice := advice s;
     adviceLoading := adviceLoading s;
     adviceError := adviceError s;
     feedbackState := feedbackState s;
     feedbackLoading := feedbackLoading s;
     alternative := alternative s;
     motivation := motivation s;
     motivationLoading := motivationLoading s;
     motivationError := v;
     motivationVisible := motivationVisible s;
     report := report s;
     reportLoading := reportLoading s;
     reportError := reportError s;
     reportVisible := reportVisible s;
     refreshing := refreshing s;
     alerts := alerts s |}.

Definition setMotivationVisible (v : bool) (s : Screen) : Screen :=
  {| advice := advice s;
     adviceLoading := adviceLoading s;
     adviceError := adviceError s;
     feedbackState := feedbackState s;
     feedbackLoading := feedbackLoading s;
     alternative := alternative s;
     motivation := motivation s;
     motivationLoading := motivationLoading s;
     motivationError := motivationError s;
     motivationVisible := v;
     report := report s;
     reportLoading := reportLoading s;
     reportError := reportError s;
     reportVisible := reportVisible s;
     refreshing := refreshing s;
     alerts := alerts s |}.

Definition setReport (v : json) (s : Screen) : Screen :=
  {| advice := advice s;
     adviceLoading := adviceLoading s;
     adviceError := adviceError s;
     feedbackState := feedbackState s;
     feedbackLoading := feedbackLoading s;
     alternative := alternative s;
     motivation := motivation s;
     motivationLoading := motivationLoading s;
     motivationError := motivationError s;
     motivationVisible := motivationVisible s;
     report := v;
     reportLoading := reportLoading s;
     reportError := reportError s;
     reportVisible := reportVisible s;
     refreshing := refreshing s;
     alerts := alerts s |}.

Definition setReportLoading (v : bool) (s : Screen) : Screen :=
  {| advice := advice s;
     adviceLoading := adviceLoading s;
     adviceError := adviceError s;
     feedbackState := feedbackState s;
     feedbackLoading := feedbackLoading s;
     alternative := alternative s;
     motivation := motivation s;
     motivationLoading := motivationLoading s;
     motivationError := motivationError s;
     motivationVisible := motivationVisible s;
     report := report s;
     reportLoading := v;
     reportError := reportError s;
     reportVisible := reportVisible s;
     refreshing := refreshing s;
     alerts := alerts s |}.

Definition setReportError (v : json) (s : Screen) : Screen :=
  {| advice := advice s;
     adviceLoading := adviceLoading s;
     adviceError := adviceError s;
     feedbackState := feedbackState s;
     feedbackLoading := feedbackLoading s;
     alternative := alternative s;
     motivation := motivation s;
     motivationLoading := motivationLoading s;
     motivationError := motivationError s;
     motivationVisible := motivationVisible s;
     report := report s;
     reportLoading := reportLoading s;
     reportError := v;
     reportVisible := reportVisible s;
     refreshing := refreshing s;
     alerts := alerts s |}.

Definition setReportVisible (v : bool) (s : Screen) : Screen :=
  {| advice := advice s;
     adviceLoading := adviceLoading s;
     adviceError := adviceError s;
     feedbackState := feedbackState s;
     feedbackLoading := feedbackLoading s;
     alternative := alternative s;
     motivation := motivation s;
     motivationLoading := motivationLoading s;
     motivationError := motivationError s;
     motivationVisible := motivationVisible s;
     report := report s;
     reportLoading := reportLoading s;
     reportError := reportError s;
     reportVisible := v;
     refreshing := refreshing s;
     alerts := alerts s |}.

Definition setRefreshing (v : bool) (s : Screen) : Screen :=
  {| advice := advice s;
     adviceLoading := adviceLoading s;
     adviceError := adviceError s;
     feedbackState := feedbackState s;
     feedbackLoading := feedbackLoading s;
     alternative := alternative s;
     motivation := motivation s;
     motivationLoading := motivationLoading s;
     motivationError := motivationError s;
     motivationVisible := motivationVisible s;
     report := report s;
     reportLoading := reportLoading s;
     reportError := reportError s;
     reportVisible := reportVisible s;
     refreshing := v;
     alerts := alerts s |}.

Definition setAlerts (v : list Alert) (s : Screen) : Screen :=
  {| advice := advice s;
     adviceLoading := adviceLoading s;
     adviceError := adviceError s;
     feedbackState := feedbackState s;
     feedbackLoading := feedbackLoading s;
     alternative := alternative s;
     motivation := motivation s;
     motivationLoading := motivationLoading s;
     motivationError := motivationError s;
     motivationVisible := motivationVisible s;
     report := report s;
     reportLoading := reportLoading s;
     reportError := reportError s;
     reportVisible := reportVisible s;
     refreshing := refreshing s;
     alerts := v |}.

(** The screen as it is first rendered. *)
Definition initial : Screen :=
  {| advice := JNull; adviceLoading := false; adviceError := JNull;
     feedbackState := None; feedbackLoading := false; alternative := JNull;
     motivation := JNull; motivationLoading := false; motivationError := JNull;
     motivationVisible := false;
     report := JNull; reportLoading := false; reportError := JNull;
     reportVisible := false;
     refreshing := false; alerts := [] |}.

(** A handler acts on the screen and on the world, and ends normally or
    by throwing. *)
Definition Handler (A : Type) : Type := Screen -> World -> Settled A * Screen * World.

Definition ret {A : Type} (a : A) : Handler A := fun s w => (Fulfilled a, s, w).

Definition bind {A B : Type} (c : Handler A) (k : A -> Handler B) : Handler B :=
  fun s w =>
    match c s w with
    | (Fulfilled a, s', w') => k a s' w'
    | (RejectedWith e, s', w') => (RejectedWith e, s', w')
    end.

(** A state setter. *)
Definition update (f : Screen -> Screen) : Handler unit :=
  fun s w => (Fulfilled tt, f s, w).

(** [await] of a call to the service. *)
Definition await {A : Type} (c : Async A) : Handler A :=
  fun s w => let (result, w') := c w in (result, s, w').

Definition try_catch {A : Type} (c : Handler A) (handler : Thrown -> Handler A)
  : Handler A :=
  fun s w =>
    match c s w with
    | (Fulfilled a, s', w') => (Fulfilled a, s', w')
    | (RejectedWith e, s', w') => handler e s' w'
    end.

(** [try { c } finally { cleanup }]. *)
Definition try_finally {A : Type} (c : Handler A) (cleanup : Handler unit) : Handler A :=
  fun s w =>
    match c s w with
    | (result, s', w') =>
        match cleanup s' w' with
        | (Fulfilled _, s'', w'') => (result, s'', w'')
        | (RejectedWith e, s'', w'') => (RejectedWith e, s'', w'')
        end
    end.

Declare Scope handler_scope.
Delimit Scope handler_scope with handler.
Notation "x <- c ;; k" := (bind c (fun x => k))
  (at level 100, c at next level, right associativity) : handler_scope.
Notation "c ;;; k" := (bind c (fun _ => k))
  (at level 100, right associativity) : handler_scope.

(** [!token], for a token that is a string or null. *)
Definition usable (token : option string) : option string :=
  match token with
  | Some t => if String.eqb t EmptyString then None else Some t
  | None => None
  end.

Section Handlers.

Variable API_BASE_URL : string.
Variable Number_toString : Q -> string.
Variable null_complaint : string.

Local Open Scope handler_scope.

(** The screen's [handleAuthError]: the session-expired alert for an
    authentication error. *)
Definition handleAuthError (error : Thrown) : Handler bool :=
  if isAuthError error
  then update (fun s => setAlerts (alerts s ++ [SessionExpired])%list s) ;;; ret true
  else ret false.

Definition alert_error (message : json) : Handler unit :=
  update (fun s => setAlerts (alerts s ++ [ErrorAlert message])%list s).

Definition loadDailyAdvice (token : option string) : Handler unit :=
  match usable token with
  | None => ret tt
  | Some token =>
      update (setAdviceLoading true) ;;;
      update (setAdviceError JNull) ;;;
      update (setFeedbackState None) ;;;
      update (setAlternative JNull) ;;;
      try_finally
        (try_catch
           (data <- await (getDailyAdvice API_BASE_URL Number_toString token None) ;;
            update (setAdvice data))
           (fun e =>
              handled <- handleAuthError e ;;
              if handled then ret tt
              else update (setAdviceError (getAIErrorMessage e))))
        (update (setAdviceLoading false))
  end.

(** The focus effect: a first advice is loaded when there is none, none is
    loading and no error is shown. *)
Definition onFocus (token : option string) : Handler unit :=
  fun s =>
    if negb (truthy (advice s)) && negb (adviceLoading s) && negb (truthy (adviceError s))
    then loadDailyAdvice token s
    else ret tt s.

Definition handleFeedback (token : option string) (liked : bool) : Handler unit :=
  fun s =>
    match usable token, truthy (advice s), feedbackState s with
    | Some token, true, None =>
        (update (setFeedbackLoading true) ;;;
         try_finally
           (try_catch
              (result <-
                 await (sendFeedback_object API_BASE_URL Number_toString token
                          [("technique", member "technique" (advice s));
                           ("liked", Some (JBool liked));
                           ("advice_type", Some (JStr "daily"))]) ;;
               update (setFeedbackState
                         (Some (if liked then liked_feedback else disliked_feedback))) ;;;
               if negb liked
               then
                 found <- await (adopt (read_property null_complaint "alternative" result)) ;;
                 match found with
                 | Some a => if truthy a then update (setAlternative a) else ret tt
                 | None => ret tt
                 end
               else ret tt)
              (fun e =>
                 handled <- handleAuthError e ;;
                 if handled then ret tt else alert_error (getAIErrorMessage e)))
           (update (setFeedbackLoading false))) s
    | _, _, _ => ret tt s
    end.

Definition loadMotivation (token : option string) (cause : option MotivationTrigger)
    (note : option string) : Handler unit :=
  let cause := match cause with Some t => t | None => user_request end in
  match usable token with
  | None => ret tt
  | Some token =>
      update (setMotivationLoading true) ;;;
      update (setMotivationError JNull) ;;;
      update (setMotivationVisible true) ;;;
      update (setMotivation JNull) ;;;
      try_finally
        (try_catch
           (data <-
              await (getMotivation API_BASE_URL Number_toString token
                       (Some {| trigger := Given cause;
                                user_note := match note with
                                             | Some n => Given n
                                             | None => Undefined
                                             end |})) ;;
            update (setMotivation data))
           (fun e =>
              handled <- handleAuthError e ;;
              if handled then ret tt
              else update (setMotivationError (getAIErrorMessage e))))
        (update (setMotivationLoading false))
  end.

Definition loadWeeklyReport (token : option string) : Handler unit :=
  match usable token with
  | None => ret tt
  | Some token =>
      update (setReportLoading true) ;;;
      update (setReportError JNull) ;;;
      update (setReportVisible true) ;;;
      update (setReport JNull) ;;;
      try_finally
        (try_catch
           (data <-
              await (getWeeklyReport API_BASE_URL Number_toString token
                       (Some {| days := Given 7%Q |})) ;;
            update (setReport data))
           (fun e =>
              handled <- handleAuthError e ;;
              if handled then ret tt
              else update (setReportError (getAIErrorMessage e))))
        (update (setReportLoading false))
  end.

Definition onRefresh (token : option string) : Handler unit :=
  update (setRefreshing true) ;;;
  update (setAdvice JNull) ;;;
  update (setMotivation JNull) ;;;
  update (setMotivationVisible false) ;;;
  update (setReport JNull) ;;;
  update (setReportVisible false) ;;;
  loadDailyAdvice token ;;;
  update (setRefreshing false).

End Handlers.

(** The document a 2xx answer carries, if the answer is one. *)
Definition document_of (o : FetchOutcome) : option json :=
  match o with
  | Resolved r =>
      if Response_ok r
      then match body r with
           | JsonText doc => Some doc
           | NotJson _ => None
           end
      else None
  | Rejected _ => None
  end.

End CoachScreen.

(** ** The daily bar chart of the weekly report card *)

Module WeeklyReportCard.

(** [Math.max(a, b)]. *)
Definition Math_max (a b : Q) : Q := if Num.ltb a b then b else a.

(** [array.slice(-n)]: the last [n] elements. *)
Definition slice_last {A : Type} (n : nat) (l : list A) : list A :=
  skipn (List.length l - n) l.

(** One bar of the chart: the text above it, its height in percent of the
    track, its colour flag and the day name below. *)
Record Bar : Type := {
  bar_key : string;
  bar_value : string;
  bar_height : Q;
  bar_isToday : bool;
  bar_dayName : string
}.

Section Chart.

(** [getDay] is the weekday of [new Date(dateStr)], with [None] for NaN;
    [today] is the date part of the clock's ISO text, and
    [Number_toString] renders a number as text. *)
Variable getDay : string -> option Z.
Variable today : string.
Variable Number_toString : Q -> string.

Definition dayLabels (day : option Z) : option string :=
  match day with
  | Some 0%Z => Some "Paz"
  | Some 1%Z => Some "Pzt"
  | Some 2%Z => Some "Sal"
  | Some 3%Z => Some "Çar"
  | Some 4%Z => Some "Per"
  | Some 5%Z => Some "Cum"
  | Some 6%Z => Some "Cmt"
  | _ => None
  end.

(** [Math.max(...entries.map(([, v]) => v), 1)]. *)
Definition maxMinutes (entries : list (string * Q)) : Q :=
  fold_right Math_max 1%Q (map snd entries).

(** The chart of a daily breakdown, given as the entries of the object in
    their order; [None] is the null the component returns without entries. *)
Definition DailyBarChart (data : list (string * Q)) : option (list Bar) :=
  let entries := slice_last 7 data in
  match entries with
  | [] => None
  | _ :: _ =>
      let maxMinutes := maxMinutes entries in
      Some (map (fun entry : string * Q =>
                   let (dateStr, minutes) := entry in
                   let heightPct := (minutes / maxMinutes)%Q in
                   {| bar_key := dateStr;
                      bar_value := if Num.gtb minutes 0
                                   then Number_toString minutes else EmptyString;
                      bar_height := Math_max (heightPct * 100)%Q 4%Q;
                      bar_isToday := String.eqb dateStr today;
                      bar_dayName := match dayLabels (getDay dateStr) with
                                     | Some name => name
                                     | None => "–"
                                     end |})
                entries)
  end.

End Chart.

End WeeklyReportCard.

(** ** The redirect of the root layout *)

Module RootLayout.

(** [segments[0] === name]. *)
Definition first_segment_is (name : string) (segments : list string) : bool :=
  match segments with
  | first :: _ => String.eqb first name
  | [] => false
  end.

(** The effect of [RootLayoutNav]: the route it replaces the current one
    with, if any. *)
Definition redirect (isLoading isAuthenticated : bool) (user : json)
    (segments : list string) : option string :=
  if isLoading then None
  else
    let inAuthGroup := first_segment_is "(auth)" segments in
    let inCompleteProfile := first_segment_is "complete-profile" segments in
    if negb isAuthenticated
    then if negb inAuthGroup then Some "/login" else None
    else if truthy user
            && negb (match member "is_profile_complete" user with
                     | Some complete => truthy complete
                     | None => false
                     end)
    then if negb inCompleteProfile then Some "/complete-profile" else None
    else if inAuthGroup || inCompleteProfile then Some "/(tabs)" else None.

(** The segments the router reports at the three routes, by the layout of
    the app directory: login.tsx lies in the group (auth). *)
Definition segments_at (route : string) : list string :=
  if String.eqb route "/login" then ["(auth)"; "login"]
  else if String.eqb route "/complete-profile" then ["complete-profile"]
  else if String.eqb route "/(tabs)" then ["(tabs)"]
  else [].

End RootLayout.

(** ** The session context (AuthContext) *)

Module Auth.

(** The calls the context makes on AsyncStorage. *)
Inductive StorageCall : Type :=
| GetItem (key : string)
| SetItem (key value : string)
| MultiRemove (keys : list string).

(** The device: the stored items, the calls made so far, and whether a
    call fails, which may depend on the calls before it. *)
Record Device : Type := {
  items : list (string * string);
  calls : list StorageCall;
  failure : list StorageCall -> StorageCall -> option Thrown
}.

(** The state of the provider. *)
Record Session : Type := {
  user : json;
  token : option string;
  isLoading : bool
}.

Definition setUser (v : json) (s : Session) : Session :=
  {| user := v; token := token s; isLoading := isLoading s |}.

Definition setToken (v : option string) (s : Session) : Session :=
  {| user := user s; token := v; isLoading := isLoading s |}.

Definition setIsLoading (v : bool) (s : Session) : Session :=
  {| user := user s; token := token s; isLoading := v |}.

(** The provider as it is first rendered. *)
Definition initial : Session := {| user := JNull; token := None; isLoading := true |}.

(** [!!token && !!user]. *)
Definition isAuthenticated (s : Session) : bool :=
  match token s with
  | Some t => negb (String.eqb t EmptyString)
  | None => false
  end && truthy (user s).

Definition TOKEN : string := "@personasync_token".
Definition USER : string := "@personasync_user".

(** An asynchronous function of the provider acts on its state and on the
    device. *)
Definition Action (A : Type) : Type := Session -> Device -> Settled A * Session * Device.

Definition ret {A : Type} (a : A) : Action A := fun s d => (Fulfilled a, s, d).

Definition bind {A B : Type} (c : Action A) (k : A -> Action B) : Action B :=
  fun s d =>
    match c s d with
    | (Fulfilled a, s', d') => k a s' d'
    | (RejectedWith e, s', d') => (RejectedWith e, s', d')
    end.

Definition throw {A : Type} (e : Thrown) : Action A := fun s d => (RejectedWith e, s, d).

Definition update (f : Session -> Session) : Action unit :=
  fun s d => (Fulfilled tt, f s, d).

Definition try_catch {A : Type} (c : Action A) (handler : Thrown -> Action A) : Action A :=
  fun s d =>
    match c s d with
    | (Fulfilled a, s', d') => (Fulfilled a, s', d')
    | (RejectedWith e, s', d') => handler e s' d'
    end.

Definition try_finally {A : Type} (c : Action A) (cleanup : Action unit) : Action A :=
  fun s d =>
    match c s d with
    | (result, s', d') =>
        match cleanup s' d' with
        | (Fulfilled _, s'', d'') => (result, s'', d'')
        | (RejectedWith e, s'', d'') => (RejectedWith e, s'', d'')
        end
    end.

Declare Scope action_scope.
Delimit Scope action_scope with action.
Notation "x <- c ;; k" := (bind c (fun x => k))
  (at level 100, c at next level, right associativity) : action_scope.
Notation "c ;;; k" := (bind c (fun _ => k))
  (at level 100, right associativity) : action_scope.

(** A call on the storage: it is recorded, and either fails, leaving the
    items as they are, or takes effect. *)
Definition storage {A : Type} (call : StorageCall)
    (effect : list (string * string) -> A * list (string * string)) : Action A :=
  fun s d =>
    let d' := fun stored =>
                {| items := stored; calls := (calls d ++ [call])%list;
                   failure := failure d |} in
    match failure d (calls d) call with
    | Some e => (RejectedWith e, s, d' (items d))
    | None => let (a, stored) := effect (items d) in (Fulfilled a, s, d' stored)
    end.

Definition getItem (key : string) : Action (option string) :=
  storage (GetItem key) (fun stored => (assoc key stored, stored)).

Definition setItem (key value : string) : Action unit :=
  storage (SetItem key value) (fun stored => (tt, define_property key value stored)).

Definition multiRemove (keys : list string) : Action unit :=
  storage (MultiRemove keys)
    (fun stored =>
       (tt, filter (fun kv => negb (existsb (String.eqb (fst kv)) keys)) stored)).

(** Truthiness of a value that is a string or null. *)
Definition present (v : option string) : bool :=
  match v with
  | Some text => negb (String.eqb text EmptyString)
  | None => false
  end.

Section Provider.

(** [JSON_text] is the text [JSON.stringify] makes of a document and
    [JSON_parse] what [JSON.parse] makes of a text, a document or the
    SyntaxError it throws. *)
Variable JSON_text : json -> string.
Variable JSON_parse : string -> Settled json.

Local Open Scope action_scope.

Definition loadStoredAuth : Action unit :=
  try_finally
    (try_catch
       (storedToken <- getItem TOKEN ;;
        storedUser <- getItem USER ;;
        if present storedToken && present storedUser
        then
          update (setToken storedToken) ;;;
          parsed <- (fun s d =>
                       (JSON_parse (match storedUser with
                                    | Some text => text
                                    | None => EmptyString
                                    end), s, d)) ;;
          update (setUser parsed)
        else ret tt)
       (fun error => ret tt))
    (update (setIsLoading false)).

Definition login (access_token : string) (userData : json) : Action unit :=
  try_catch
    (setItem TOKEN access_token ;;;
     setItem USER (JSON_text userData) ;;;
     update (setToken (Some access_token)) ;;;
     update (setUser userData))
    (fun error => throw error).

Definition logout : Action unit :=
  try_catch
    (multiRemove [TOKEN; USER] ;;;
     update (setToken None) ;;;
     update (setUser JNull))
    (fun error => ret tt).

End Provider.

(** A device on which no call fails. *)
Definition reliable (d : Device) : Prop :=
  forall before call, failure d before call = None.

End Auth.

(** ** The Pomodoro timer

    The state of the timer screen and the functions that change it.  The
    counters and durations are integers.  A function made in an earlier
    render reads the state of that render: where the source does, the
    function takes that state, [seen], beside the state it updates. *)

Module Pomodoro.

Inductive TimerMode : Type :=
| WORK
| SHORT_BREAK
| LONG_BREAK.

Record Timer : Type := {
  minutes : Z;
  seconds : Z;
  milliseconds : Z;
  isActive : bool;
  mode : TimerMode;
  isInteractionLocked : bool;
  completedPomodoros : Z;
  currentStreak : Z;
  workDuration : Z;
  shortBreakDuration : Z;
  breaksEnabled : bool;
  longBreakDuration : Z;
  longBreakInterval : Z;
  longBreaksEnabled : bool;
  autoStart : bool
}.

Definition setMinutes (v : Z) (s : Timer) : Timer :=
  {| minutes := v;
     seconds := seconds s;
     milliseconds := milliseconds s;
     isActive := isActive s;
     mode := mode s;
     isInteractionLocked := isInteractionLocked s;
     completedPomodoros := completedPomodoros s;
     currentStreak := currentStreak s;
     workDuration := workDuration s;
     shortBreakDuration := shortBreakDuration s;
     breaksEnabled := breaksEnabled s;
     longBreakDuration := longBreakDuration s;
     longBreakInterval := longBreakInterval s;
     longBreaksEnabled := longBreaksEnabled s;
     autoStart := autoStart s |}.

Definition setSeconds (v : Z) (s : Timer) : Timer :=
  {| minutes := minutes s;
     seconds := v;
     milliseconds := milliseconds s;
     isActive := isActive s;
     mode := mode s;
     isInteractionLocked := isInteractionLocked s;
     completedPomodoros := completedPomodoros s;
     currentStreak := currentStreak s;
     workDuration := workDuration s;
     shortBreakDuration := shortBreakDuration s;
     breaksEnabled := breaksEnabled s;
     longBreakDuration := longBreakDuration s;
     longBreakInterval := longBreakInterval s;
     longBreaksEnabled := longBreaksEnabled s;
     autoStart := autoStart s |}.

Definition setMilliseconds (v : Z) (s : Timer) : Timer :=
  {| minutes := minutes s;
     seconds := seconds s;
     milliseconds := v;
     isActive := isActive s;
     mode := mode s;
     isInteractionLocked := isInteractionLocked s;
     completedPomodoros := completedPomodoros s;
     currentStreak := currentStreak s;
     workDuration := workDuration s;
     shortBreakDuration := shortBreakDuration s;
     breaksEnabled := breaksEnabled s;
     longBreakDuration := longBreakDuration s;
     longBreakInterval := longBreakInterval s;
     longBreaksEnabled := longBreaksEnabled s;
     autoStart := autoStart s |}.

Definition setIsActive (v : bool) (s : Timer) : Timer :=
  {| minutes := minutes s;
     seconds := seconds s;
     milliseconds := milliseconds s;
     isActive := v;
     mode := mode s;
     isInteractionLocked := isInteractionLocked s;
     completedPomodoros := completedPomodoros s;
     currentStreak := currentStreak s;
     workDuration := workDuration s;
     shortBreakDuration := shortBreakDuration s;
     breaksEnabled := breaksEnabled s;
     longBreakDuration := longBreakDuration s;
     longBreakInterval := longBreakInterval s;
     longBreaksEnabled := longBreaksEnabled s;
     autoStart := autoStart s |}.

Definition setMode (v : TimerMode) (s : Timer) : Timer :=
  {| minutes := minutes s;
     seconds := seconds s;
     milliseconds := milliseconds s;
     isActive := isActive s;
     mode := v;
     isInteractionLocked := isInteractionLocked s;
     completedPomodoros := completedPomodoros s;
     currentStreak := currentStreak s;
     workDuration := workDuration s;
     shortBreakDuration := shortBreakDuration s;
     breaksEnabled := breaksEnabled s;
     longBreakDuration := longBreakDuration s;
     longBreakInterval := longBreakInterval s;
     longBreaksEnabled := longBreaksEnabled s;
     autoStart := autoStart s |}.

Definition setIsInteractionLocked (v : bool) (s : Timer) : Timer :=
  {| minutes := minutes s;
     seconds := seconds s;
     milliseconds := milliseconds s;
     isActive := isActive s;
     mode := mode s;
     isInteractionLocked := v;
     completedPomodoros := completedPomodoros s;
     currentStreak := currentStreak s;
     workDuration := workDuration s;
     shortBreakDuration := shortBreakDuration s;
     breaksEnabled := breaksEnabled s;
     longBreakDuration := longBreakDuration s;
     longBreakInterval := longBreakInterval s;
     longBreaksEnabled := longBreaksEnabled s;
     autoStart := autoStart s |}.

Definition setCompletedPomodoros (v : Z) (s : Timer) : Timer :=
  {| minutes := minutes s;
     seconds := seconds s;
     milliseconds := milliseconds s;
     isActive := isActive s;
     mode := mode s;
     isInteractionLocked := isInteractionLocked s;
     completedPomodoros := v;
     currentStreak := currentStreak s;
     workDuration := workDuration s;
     shortBreakDuration := shortBreakDuration s;
     breaksEnabled := breaksEnabled s;
     longBreakDuration := longBreakDuration s;
     longBreakInterval := longBreakInterval s;
     longBreaksEnabled := longBreaksEnabled s;
     autoStart := autoStart s |}.

Definition setCurrentStreak (v : Z) (s : Timer) : Timer :=
  {| minutes := minutes s;
     seconds := seconds s;
     milliseconds := milliseconds s;
     isActive := isActive s;
     mode := mode s;
     isInteractionLocked := isInteractionLocked s;
     completedPomodoros := completedPomodoros s;
     currentStreak := v;
     workDuration := workDuration s;
     shortBreakDuration := shortBreakDuration s;
     breaksEnabled := breaksEnabled s;
     longBreakDuration := longBreakDuration s;
     longBreakInterval := longBreakInterval s;
     longBreaksEnabled := longBreaksEnabled s;
     autoStart := autoStart s |}.

Definition setWorkDuration (v : Z) (s : Timer) : Timer :=
  {| minutes := minutes s;
     seconds := seconds s;
     milliseconds := milliseconds s;
     isActive := isActive s;
     mode := mode s;
     isInteractionLocked := isInteractionLocked s;
     completedPomodoros := completedPomodoros s;
     currentStreak := currentStreak s;
     workDuration := v;
     shortBreakDuration := shortBreakDuration s;
     breaksEnabled := breaksEnabled s;
     longBreakDuration := longBreakDuration s;
     longBreakInterval := longBreakInterval s;
     longBreaksEnabled := longBreaksEnabled s;
     autoStart := autoStart s |}.

Definition setShortBreakDuration (v : Z) (s : Timer) : Timer :=
  {| minutes := minutes s;
     seconds := seconds s;
     milliseconds := milliseconds s;
     isActive := isActive s;
     mode := mode s;
     isInteractionLocked := isInteractionLocked s;
     completedPomodoros := completedPomodoros s;
     currentStreak := currentStreak s;
     workDuration := workDuration s;
     shortBreakDuration := v;
     breaksEnabled := breaksEnabled s;
     longBreakDuration := longBreakDuration s;
     longBreakInterval := longBreakInterval s;
     longBreaksEnabled := longBreaksEnabled s;
     autoStart := autoStart s |}.

Definition setBreaksEnabled (v : bool) (s : Timer) : Timer :=
  {| minutes := minutes s;
     seconds := seconds s;
     milliseconds := milliseconds s;
     isActive := isActive s;
     mode := mode s;
     isInteractionLocked := isInteractionLocked s;
     completedPomodoros := completedPomodoros s;
     currentStreak := currentStreak s;
     workDuration := workDuration s;
     shortBreakDuration := shortBreakDuration s;
     breaksEnabled := v;
     longBreakDuration := longBreakDuration s;
     longBreakInterval := longBreakInterval s;
     longBreaksEnabled := longBreaksEnabled s;
     autoStart := autoStart s |}.

Definition setLongBreakDuration (v : Z) (s : Timer) : Timer :=
  {| minutes := minutes s;
     seconds := seconds s;
     milliseconds := milliseconds s;
     isActive := isActive s;
     mode := mode s;
     isInteractionLocked := isInteractionLocked s;
     completedPomodoros := completedPomodoros s;
     currentStreak := currentStreak s;
     workDuration := workDuration s;
     shortBreakDuration := shortBreakDuration s;
     breaksEnabled := breaksEnabled s;
     longBreakDuration := v;
     longBreakInterval := longBreakInterval s;
     longBreaksEnabled := longBreaksEnabled s;
     autoStart := autoStart s |}.

Definition setLongBreakInterval (v : Z) (s : Timer) : Timer :=
  {| minutes := minutes s;
     seconds := seconds s;
     milliseconds := milliseconds s;
     isActive := isActive s;
     mode := mode s;
     isInteractionLocked := isInteractionLocked s;
     completedPomodoros := completedPomodoros s;
     currentStreak := currentStreak s;
     workDuration := workDuration s;
     shortBreakDuration := shortBreakDuration s;
     breaksEnabled := breaksEnabled s;
     longBreakDuration := longBreakDuration s;
     longBreakInterval := v;
     longBreaksEnabled := longBreaksEnabled s;
     autoStart := autoStart s |}.

Definition setLongBreaksEnabled (v : bool) (s : Timer) : Timer :=
  {| minutes := minutes s;
     seconds := seconds s;
     milliseconds := milliseconds s;
     isActive := isActive s;
     mode := mode s;
     isInteractionLocked := isInteractionLocked s;
     completedPomodoros := completedPomodoros s;
     currentStreak := currentStreak s;
     workDuration := workDuration s;
     shortBreakDuration := shortBreakDuration s;
     breaksEnabled := breaksEnabled s;
     longBreakDuration := longBreakDuration s;
     longBreakInterval := longBreakInterval s;
     longBreaksEnabled := v;
     autoStart := autoStart s |}.

Definition setAutoStart (v : bool) (s : Timer) : Timer :=
  {| minutes := minutes s;
     seconds := seconds s;
     milliseconds := milliseconds s;
     isActive := isActive s;
     mode := mode s;
     isInteractionLocked := isInteractionLocked s;
     completedPomodoros := completedPomodoros s;
     currentStreak := currentStreak s;
     workDuration := workDuration s;
     shortBreakDuration := shortBreakDuration s;
     breaksEnabled := breaksEnabled s;
     longBreakDuration := longBreakDuration s;
     longBreakInterval := longBreakInterval s;
     longBreaksEnabled := longBreaksEnabled s;
     autoStart := v |}.

(** The screen as it is first rendered. *)
Definition initial : Timer :=
  {| minutes := 25; seconds := 0; milliseconds := 0; isActive := false;
     mode := WORK; isInteractionLocked := false;
     completedPomodoros := 0; currentStreak := 0;
     workDuration := 25; shortBreakDuration := 5; breaksEnabled := true;
     longBreakDuration := 20; longBreakInterval := 4; longBreaksEnabled := true;
     autoStart := true |}.

Definition switchToMode (seen : Timer) (newMode : TimerMode) (s : Timer) : Timer :=
  let newDuration :=
    match newMode with
    | WORK => workDuration seen
    | SHORT_BREAK => shortBreakDuration seen
    | LONG_BREAK => longBreakDuration seen
    end in
  setMilliseconds 0 (setSeconds 0 (setMinutes newDuration (setMode newMode s))).

Definition resetTimer (seen : Timer) (s : Timer) : Timer :=
  setMilliseconds 0
    (setSeconds 0 (setMinutes (workDuration seen) (setMode WORK (setIsActive false s)))).

(** [a % b === 0] on integers; the remainder by zero is NaN. *)
Definition divides (b a : Z) : bool :=
  if (b =? 0)%Z then false else (Z.rem a b =? 0)%Z.

(** [handleTimerComplete]: the state it leaves, and whether it has set the
    timeout that starts the timer again after 100 ms. *)
Definition handleTimerComplete (seen : Timer) (s : Timer) : Timer * bool :=
  let s1 :=
    match mode seen with
    | WORK =>
        let s0 := setCurrentStreak (currentStreak s + 1)
                    (setCompletedPomodoros (completedPomodoros s + 1) s) in
        if breaksEnabled seen
        then
          let isLongBreak :=
            longBreaksEnabled seen
            && divides (longBreakInterval seen) (completedPomodoros seen + 1) in
          if isLongBreak then switchToMode seen LONG_BREAK s0
          else switchToMode seen SHORT_BREAK s0
        else resetTimer seen s0
    | _ => switchToMode seen WORK s
    end in
  if autoStart seen then (s1, true) else (setIsActive false s1, false).

(** The callback of the interval, which runs every 100 ms while the timer
    is active. *)
Definition tick (seen : Timer) (s : Timer) : Timer * bool :=
  if (milliseconds seen >? 0)%Z then (setMilliseconds (milliseconds s - 1) s, false)
  else if (seconds seen >? 0)%Z
  then (setMilliseconds 9 (setSeconds (seconds s - 1) s), false)
  else if (minutes seen >? 0)%Z
  then (setMilliseconds 9 (setSeconds 59 (setMinutes (minutes s - 1) s)), false)
  else handleTimerComplete seen s.

(** The tenths of a second left on the display. *)
Definition remaining (s : Timer) : Z :=
  (600 * minutes s + 10 * seconds s + milliseconds s)%Z.

(** The display shows a time: tenths from 0 to 9, seconds from 0 to 59. *)
Definition shows_a_time (s : Timer) : Prop :=
  (0 <= milliseconds s <= 9)%Z /\ (0 <= seconds s <= 59)%Z /\ (0 <= minutes s)%Z.

(** [n] runs of the interval's callback, each made in the render before it. *)
Fixpoint ticks (n : nat) (s : Timer) : Timer :=
  match n with
  | O => s
  | S k => ticks k (fst (tick s s))
  end.

End Pomodoro.

(** ** Concrete screens and answers

    Instances on which the statements about the coach screen are
    exercised. *)

Module Example.

Definition token_text : string := "eyJhbGciOiJIUzI1NiJ9.e30.c2ln".

Definition token : option string := Some token_text.

Definition null_complaint : string :=
  "Cannot read properties of null (reading 'alternative')".

Definition advice_document : json :=
  JObj [("technique", JStr "Pomodoro 25/5");
        ("why_this_works", JStr "Short sprints fit your evening sessions.");
        ("steps", JArr [JStr "Work 25 minutes"; JStr "Rest 5 minutes"]);
        ("generated_at", JStr "2025-01-15T09:30:00.000Z")].

(** The coach screen with an advice on it and no feedback given. *)
Definition with_advice : CoachScreen.Screen :=
  CoachScreen.setAdvice advice_document CoachScreen.initial.

Definition alternative_document : json :=
  JObj [("technique", JStr "Feynman technique");
        ("why_different", JStr "It replaces timing by explaining.");
        ("steps", JArr [JStr "Explain the topic aloud"])].

Definition feedback_saved : Response :=
  {| status := 200;
     body := JsonText (JObj [("success", JBool true);
                             ("message", JStr "Geri bildirim kaydedildi");
                             ("alternative", alternative_document)]) |}.

Definition advice_ready : Response :=
  {| status := 200; body := JsonText advice_document |}.

Definition unauthorized : Response :=
  {| status := 401;
     body := JsonText (JObj [("detail", JStr "Token has expired")]) |}.

Definition unavailable : Response :=
  {| status := 503;
     body := JsonText (JObj [("detail", JStr "AI servisi kullanılamıyor")]) |}.

End Example.

(** ** Concrete devices, documents and texts

    Instances on which the statements about the session context are
    exercised. *)

Module ExampleSession.

Definition quote : string := String (Ascii.ascii_of_nat 34) EmptyString.

Definition user_document : json :=
  JObj [("id", JNum 7); ("is_profile_complete", JBool true)].

(** The text of [user_document]. *)
Definition user_text : string :=
  "{" ++ quote ++ "id" ++ quote ++ ":7,"
  ++ quote ++ "is_profile_complete" ++ quote ++ ":true}".

(** A printer and a parser that know the example user only. *)
Definition JSON_text (d : json) : string := user_text.

Definition JSON_parse (text : string) : Settled json :=
  if String.eqb text user_text then Fulfilled user_document
  else RejectedWith (OtherError "SyntaxError" "JSON Parse error: Unexpected end of input").

Definition empty_device : Auth.Device :=
  {| Auth.items := []; Auth.calls := []; Auth.failure := fun _ _ => None |}.

(** A device on which the user can not be written. *)
Definition full_device : Auth.Device :=
  {| Auth.items := [(Auth.TOKEN, "old-token"); (Auth.USER, user_text)];
     Auth.calls := [];
     Auth.failure := fun _ call =>
       match call with
       | Auth.SetItem key _ =>
           if String.eqb key Auth.USER
           then Some (OtherError "Error" "database or disk is full") else None
       | _ => None
       end |}.

(** A device whose stored user was cut off. *)
Definition corrupt_device : Auth.Device :=
  {| Auth.items := [(Auth.TOKEN, Example.token_text); (Auth.USER, "{")];
     Auth.calls := []; Auth.failure := fun _ _ => None |}.

End ExampleSession.
(** ** Properties of the trigger detection *)

Module NumFacts.

Lemma gtb_lt x y : Num.gtb x y = true <-> (y < x)%Q.
Proof.
  unfold Num.gtb. rewrite negb_true_iff, <- not_true_iff_false, Qle_bool_iff.
  split; [apply Qnot_le_lt | apply Qlt_not_le].
Qed.

Lemma geb_le x y : Num.geb x y = true <-> (y <= x)%Q.
Proof. unfold Num.geb. apply Qle_bool_iff. Qed.

Lemma ltb_lt x y : Num.ltb x y = true <-> (x < y)%Q.
Proof. unfold Num.ltb. apply (gtb_lt y x). Qed.

Lemma div_le_iff (x y t : Q) : (0 < t)%Q -> ((x / t <= y)%Q <-> (x <= y * t)%Q).
Proof.
  intro Ht.
  assert (Hne : ~ (t == 0)%Q) by (intro E; rewrite E in Ht; discriminate).
  rewrite <- (Qmult_le_r (x / t) y t Ht).
  unfold Qdiv. rewrite <- Qmult_assoc, (Qmult_comm (/ t) t), Qmult_inv_r by exact Hne.
  rewrite Qmult_1_r. reflexivity.
Qed.

Lemma div_lt_iff (x y t : Q) : (0 < t)%Q -> ((x / t < y)%Q <-> (x < y * t)%Q).
Proof.
  intro Ht.
  assert (Hne : ~ (t == 0)%Q) by (intro E; rewrite E in Ht; discriminate).
  rewrite <- (Qmult_lt_r (x / t) y t Ht).
  unfold Qdiv. rewrite <- Qmult_assoc, (Qmult_comm (/ t) t), Qmult_inv_r by exact Hne.
  rewrite Qmult_1_r. reflexivity.
Qed.

Lemma lt_div_iff (x y t : Q) : (0 < t)%Q -> ((y < x / t)%Q <-> (y * t < x)%Q).
Proof.
  intro Ht. split; intro H.
  - apply Qnot_le_lt. intro Hle. apply (div_le_iff x y t Ht) in Hle.
    exact (Qlt_not_le _ _ H Hle).
  - apply Qnot_le_lt. intro Hle. apply (div_le_iff x y t Ht) in Hle.
    exact (Qlt_not_le _ _ H Hle).
Qed.

Lemma le_div_iff (x y t : Q) : (0 < t)%Q -> ((y <= x / t)%Q <-> (y * t <= x)%Q).
Proof.
  intro Ht. split; intro H.
  - apply Qnot_lt_le. intro Hlt. apply (div_lt_iff x y t Ht) in Hlt.
    exact (Qlt_not_le _ _ Hlt H).
  - apply Qnot_lt_le. intro Hlt. apply (div_lt_iff x y t Ht) in Hlt.
    exact (Qlt_not_le _ _ Hlt H).
Qed.

Lemma of_nat_pos (n : nat) : (0 < n)%nat -> (0 < Num.of_nat n)%Q.
Proof. intro H. unfold Num.of_nat, Qlt; simpl. lia. Qed.

Lemma of_nat_add (a b : nat) :
  (Num.of_nat a + Num.of_nat b == Num.of_nat (a + b))%Q.
Proof. unfold Num.of_nat. rewrite Nat2Z.inj_add, inject_Z_plus. reflexivity. Qed.

Lemma gtb_of_nat_0 (n : nat) : Num.gtb (Num.of_nat n) 0 = (0 <? n)%nat.
Proof.
  apply eq_true_iff_eq. rewrite gtb_lt, Nat.ltb_lt.
  unfold Num.of_nat, Qlt; simpl. lia.
Qed.

Lemma geb_of_nat_2 (n : nat) : Num.geb (Num.of_nat n) 2 = (2 <=? n)%nat.
Proof.
  apply eq_true_iff_eq. rewrite geb_le, Nat.leb_le.
  unfold Num.of_nat, Qle; simpl. lia.
Qed.

(** [c / t > 0.5] exactly when [2c > t]. *)
Lemma rate_above_half (c t : nat) :
  (0 < t)%nat ->
  Num.gtb (Num.of_nat c / Num.of_nat t) 0.5 = (t <? 2 * c)%nat.
Proof.
  intro Ht. apply eq_true_iff_eq.
  rewrite gtb_lt, Nat.ltb_lt, (lt_div_iff _ _ _ (of_nat_pos t Ht)).
  unfold Num.of_nat, Qlt, Qmult, inject_Z; cbn [Qnum Qden]. lia.
Qed.

(** [m / d >= 1.0] exactly when [m >= d]. *)
Lemma rate_reaches_one (m d : nat) :
  (0 < d)%nat ->
  Num.geb (Num.of_nat m / Num.of_nat d) 1.0 = (d <=? m)%nat.
Proof.
  intro Hd. apply eq_true_iff_eq.
  rewrite geb_le, Nat.leb_le, (le_div_iff _ _ _ (of_nat_pos d Hd)).
  unfold Num.of_nat, Qle, Qmult, inject_Z; cbn [Qnum Qden]. lia.
Qed.

(** [m / d < 0.3] exactly when [10m < 3d]. *)
Lemma rate_below_three_tenths (m d : nat) :
  (0 < d)%nat ->
  Num.ltb (Num.of_nat m / Num.of_nat d) 0.3 = (10 * m <? 3 * d)%nat.
Proof.
  intro Hd. apply eq_true_iff_eq.
  rewrite ltb_lt, Nat.ltb_lt, (div_lt_iff _ _ _ (of_nat_pos d Hd)).
  unfold Num.of_nat, Qlt, Qmult, inject_Z; cbn [Qnum Qden]. lia.
Qed.

End NumFacts.

(** The specification's wording and the integer form decide alike. *)
Lemma spec_trigger_by_counts (c k m d : nat) :
  spec_trigger c k m d = trigger_by_counts c k m d.
Proof.
  unfold spec_trigger, trigger_by_counts, spec_cancelRate, spec_progressRate.
  assert (Hc : Num.gtb (if (1 <=? c + k)%nat
                        then (Num.of_nat c / Num.of_nat (c + k))%Q else 0%Q) 0.5
               && (2 <=? c + k)%nat
               = (c + k <? 2 * c)%nat && (2 <=? c + k)%nat).
  { destruct (Nat.leb_spec 1 (c + k)) as [Ht | Ht].
    - rewrite NumFacts.rate_above_half by lia. reflexivity.
    - replace (2 <=? c + k)%nat with false
        by (symmetry; apply Nat.leb_gt; lia).
      now rewrite !andb_false_r. }
  rewrite Hc. clear Hc.
  destruct ((c + k <? 2 * c)%nat && (2 <=? c + k)%nat); [reflexivity |].
  destruct (Nat.ltb_spec 0 d) as [Hd | Hd].
  - rewrite NumFacts.rate_reaches_one, NumFacts.rate_below_three_tenths by exact Hd.
    replace (d =? 0)%nat with false by (symmetry; apply Nat.eqb_neq; lia).
    reflexivity.
  - replace (d =? 0)%nat with true by (symmetry; apply Nat.eqb_eq; lia).
    reflexivity.
Qed.

(** ** The function and the specification's classification *)

Lemma same_trigger_eq (a b : option MotivationTrigger) :
  same_trigger a b = true -> a = b.
Proof.
  destruct a as [x |], b as [y |]; cbn; try discriminate; try reflexivity.
  destruct x, y; cbn; try discriminate; reflexivity.
Qed.

(** The function is its first test followed by the other two. *)
Lemma detectMotivationTrigger_split (c k m d : float) :
  detectMotivationTrigger c k m d
  = if F64.cancel_rule c k then Some high_cancel_rate else F64.progress_rule m d.
Proof. reflexivity. Qed.

Lemma trigger_by_counts_split (c k m d : nat) :
  trigger_by_counts c k m d
  = if counts_cancel (Z.of_nat c) (Z.of_nat k) then Some high_cancel_rate
    else counts_progress (Z.of_nat m) (Z.of_nat d).
Proof.
  unfold trigger_by_counts, counts_cancel, counts_progress.
  replace (c + k <? 2 * c)%nat with (Z.of_nat c + Z.of_nat k <? 2 * Z.of_nat c)%Z
    by (apply eq_true_iff_eq; rewrite Z.ltb_lt, Nat.ltb_lt; lia).
  replace (2 <=? c + k)%nat with (2 <=? Z.of_nat c + Z.of_nat k)%Z
    by (apply eq_true_iff_eq; rewrite Z.leb_le, Nat.leb_le; lia).
  replace (0 <? d)%nat with (0 <? Z.of_nat d)%Z
    by (apply eq_true_iff_eq; rewrite Z.ltb_lt, Nat.ltb_lt; lia).
  replace (d <=? m)%nat with (Z.of_nat d <=? Z.of_nat m)%Z
    by (apply eq_true_iff_eq; rewrite Z.leb_le, Nat.leb_le; lia).
  replace (d =? 0)%nat with (Z.of_nat d =? 0)%Z
    by (apply eq_true_iff_eq; rewrite Z.eqb_eq, Nat.eqb_eq; lia).
  replace (10 * m <? 3 * d)%nat with (10 * Z.of_nat m <? 3 * Z.of_nat d)%Z
    by (apply eq_true_iff_eq; rewrite Z.ltb_lt, Nat.ltb_lt; lia).
  replace (0 <? m)%nat with (0 <? Z.of_nat m)%Z
    by (apply eq_true_iff_eq; rewrite Z.ltb_lt, Nat.ltb_lt; lia).
  reflexivity.
Qed.

Lemma in_zrange (n x : nat) : (x < n)%nat -> In (Z.of_nat x) (zrange n).
Proof.
  intro H. unfold zrange. apply in_map. apply in_seq. lia.
Qed.

(** A successful check below [n] covers every pair of inputs below [n]. *)
Lemma cancel_agrees_below_sound (n c k : nat) :
  cancel_agrees_below n = true ->
  (c < n)%nat -> (k < n)%nat ->
  F64.cancel_rule (F64.of_nat c) (F64.of_nat k)
  = counts_cancel (Z.of_nat c) (Z.of_nat k).
Proof.
  unfold cancel_agrees_below. cbv zeta. intros G Hc Hk.
  rewrite forallb_forall in G. specialize (G (Z.of_nat c) (in_zrange n c Hc)).
  rewrite forallb_forall in G. specialize (G (Z.of_nat k) (in_zrange n k Hk)).
  apply Bool.eqb_prop in G. exact G.
Qed.

Lemma progress_agrees_below_sound (n m d : nat) :
  progress_agrees_below n = true ->
  (m < n)%nat -> (d < n)%nat ->
  F64.progress_rule (F64.of_nat m) (F64.of_nat d)
  = counts_progress (Z.of_nat m) (Z.of_nat d).
Proof.
  unfold progress_agrees_below. cbv zeta. intros G Hm Hd.
  rewrite forallb_forall in G. specialize (G (Z.of_nat m) (in_zrange n m Hm)).
  rewrite forallb_forall in G. specialize (G (Z.of_nat d) (in_zrange n d Hd)).
  apply same_trigger_eq in G. exact G.
Qed.

Lemma cancel_agrees_day : cancel_agrees_below 1441 = true.
Proof. vm_compute. reflexivity. Qed.

Lemma progress_agrees_day : progress_agrees_below 1441 = true.
Proof. vm_compute. reflexivity. Qed.

(** For session counts and minutes up to 1440, the minutes of a day, the
    function decides as the integer form. *)
Lemma detectMotivationTrigger_by_counts (c k m d : nat) :
  (c < 1441)%nat -> (k < 1441)%nat -> (m < 1441)%nat -> (d < 1441)%nat ->
  detectMotivationTrigger (F64.of_nat c) (F64.of_nat k)
                          (F64.of_nat m) (F64.of_nat d)
  = trigger_by_counts c k m d.
Proof.
  intros Hc Hk Hm Hd.
  rewrite trigger_by_counts_split, detectMotivationTrigger_split.
  rewrite (cancel_agrees_below_sound 1441 c k cancel_agrees_day Hc Hk).
  rewrite (progress_agrees_below_sound 1441 m d progress_agrees_day Hm Hd).
  reflexivity.
Qed.



(** The classification of a day with no session cancelled and one
    completed, when fewer than three tenths of the target are done. *)
Lemma spec_trigger_low_performance (m d : nat) :
  (0 < m)%nat -> (10 * m < 3 * d)%nat ->
  spec_trigger 0 1 m d = Some low_performance.
Proof.
  intros Hm Hd. rewrite spec_trigger_by_counts. unfold trigger_by_counts.
  change (0 + 1 <? 2 * 0)%nat with false. cbn [andb].
  destruct (Nat.ltb_spec 0 d) as [H0 | H0]; [| lia].
  destruct (Nat.leb_spec d m) as [H1 | H1]; [lia |]. cbn [andb].
  destruct (Nat.eqb_spec d 0) as [H2 | H2]; [lia |]. cbn [orb].
  destruct (Nat.ltb_spec (10 * m) (3 * d)) as [H3 | H3]; [| lia].
  destruct (Nat.ltb_spec 0 m) as [H4 | H4]; [reflexivity | lia].
Qed.

Lemma of_nat_to_nat (z : Z) : (0 <= z)%Z -> F64.of_nat (Z.to_nat z) = F64.of_Z z.
Proof. intro H. unfold F64.of_nat. rewrite Z2Nat.id by exact H. reflexivity. Qed.


(** The example in the function's doc comment, (2, 8, 120, 180), has a
    cancel rate of 0.2 and a progress of two thirds: no trigger. *)
Lemma doc_comment_example : detectMotivationTrigger 2 8 120 180 = None.
Proof. vm_compute. reflexivity. Qed.

(** ** Properties of the client service *)

(** Sequencing in [Async]: the laws of [bind], and what [try_catch] does
    with a block that returns or throws at once. *)
Lemma bind_ret_l {A B : Type} (a : A) (k : A -> Async B) (w : World) :
  bind (ret a) k w = k a w.
Proof. reflexivity. Qed.

Lemma bind_ret_r {A : Type} (c : Async A) (w : World) :
  bind c ret w = c w.
Proof. unfold bind, ret. destruct (c w) as [[a | e] w']; reflexivity. Qed.

Lemma bind_assoc {A B C : Type} (c : Async A) (k : A -> Async B)
    (h : B -> Async C) (w : World) :
  bind (bind c k) h w = bind c (fun a => bind (k a) h) w.
Proof. unfold bind. destruct (c w) as [[a | e] w']; reflexivity. Qed.

Lemma try_catch_ret {A : Type} (a : A) (handler : Thrown -> Async A) (w : World) :
  try_catch (ret a) handler w = (Fulfilled a, w).
Proof. reflexivity. Qed.

Lemma try_catch_throw {A : Type} (e : Thrown) (handler : Thrown -> Async A)
    (w : World) :
  try_catch (throw e) handler w = handler e w.
Proof. reflexivity. Qed.

(** A rejected promise awaited inside a [try] block reaches the handler;
    returned from the block without [await], it does not. *)
Lemma await_inside_try {A : Type} (e : Thrown) (handler : Thrown -> Async A)
    (w : World) :
  try_catch (adopt (RejectedWith e)) handler w = handler e w.
Proof. reflexivity. Qed.

Lemma return_without_await {A : Type} (e : Thrown)
    (handler : Thrown -> Async (Settled A)) (w : World) :
  bind (try_catch (ret (RejectedWith e)) handler) adopt w = (RejectedWith e, w).
Proof. reflexivity. Qed.

(** A [switch] on the status is the chain of equality tests it stands for. *)
Lemma switch_on_status {A : Type} (z : Z) (a b c d e f : A) :
  match z with
  | 401%Z => a
  | 429%Z => b
  | 400%Z => c
  | 502%Z => d
  | 503%Z => e
  | _ => f
  end
  = if (z =? 401)%Z then a
    else if (z =? 429)%Z then b
    else if (z =? 400)%Z then c
    else if (z =? 502)%Z then d
    else if (z =? 503)%Z then e
    else f.
Proof.
  destruct z as [| p | p]; try reflexivity.
  do 10 (try (destruct p as [p | p |]; try reflexivity)).
Qed.

Section ClientFacts.

Variable API_BASE_URL : string.
Variable Number_toString : Q -> string.

Local Abbreviation aiCoachFetch := (aiCoachFetch API_BASE_URL Number_toString).
Local Abbreviation aiCoachRequest := (aiCoachRequest API_BASE_URL).
Local Abbreviation invoke := (invoke API_BASE_URL Number_toString).
Local Abbreviation checkAIHealth := (checkAIHealth API_BASE_URL).
Local Abbreviation sendFeedback := (sendFeedback API_BASE_URL Number_toString).
Local Abbreviation error_for := (error_for Number_toString).

(** Every call of [aiCoachFetch] sends its one request and settles by
    the network's answer to it. *)
Lemma aiCoachFetch_run (endpoint token : string) (options : RequestInit) (w : World) :
  aiCoachFetch endpoint token options w
  = (match answer w (sent w) (aiCoachRequest endpoint token options) with
     | Rejected reason =>
         RejectedWith
           (CoachError
              (new_AICoachError
                 ("Network hatası: " ++ Thrown_toString Number_toString reason)
                 0 (JStr "İnternet bağlantınızı kontrol edin.")))
     | Resolved r =>
         if Response_ok r then Response_json r
         else RejectedWith (CoachError (error_for r))
     end,
     after_request w (aiCoachRequest endpoint token options)).
Proof.
  unfold Client.aiCoachFetch, Client.aiCoachRequest, bind, try_catch,
    fetch, throw, adopt, ret, after_request.
  cbn beta iota zeta.
  destruct (answer w (sent w) _) as [r | reason]; [| reflexivity].
  destruct (Response_ok r); [reflexivity |].
  unfold Client.error_for, errorDetail_of, Response_json.
  destruct (body r) as [doc | complaint]; cbn beta iota zeta;
    rewrite switch_on_status;
    repeat match goal with
           | |- context [(?z =? ?k)%Z] => destruct (z =? k)%Z
           end; reflexivity.
Qed.

Lemma statusCode_error_for (r : Response) : statusCode (error_for r) = status r.
Proof.
  unfold Client.error_for.
  repeat match goal with
         | |- context [(?z =? ?k)%Z] =>
             let E := fresh "E" in
             destruct (Z.eqb_spec z k) as [E | E]; [rewrite E; reflexivity |]
         end.
  reflexivity.
Qed.

(** C2. A response that is not 2xx never lets [aiCoachFetch] return: it
    throws an error that carries the response's status code.  Status 401
    gives an AICoachAuthError, 429 an AICoachRateLimitError with the
    try-again-in-a-few-seconds message, 503 an AICoachUnavailableError, and
    400 an AICoachError whose user-facing message is the detail the server
    put in the body, as it is. *)
Theorem aiCoachFetch_classifies_failures
    (endpoint token : string) (options : RequestInit) (w : World) (r : Response) :
  answer w (sent w) (aiCoachRequest endpoint token options) = Resolved r ->
  Response_ok r = false ->
  exists e : AICoachError,
    fst (aiCoachFetch endpoint token options w) = RejectedWith (CoachError e)
    /\ statusCode e = status r
    /\ (status r = 401%Z -> class e = AICoachAuthError_class)
    /\ (status r = 429%Z ->
        class e = AICoachRateLimitError_class
        /\ userMessage e
           = JStr "AI koç şu an yoğun. Birkaç saniye sonra tekrar deneyin.")
    /\ (status r = 503%Z -> class e = AICoachUnavailableError_class)
    /\ (status r = 400%Z ->
        class e = AICoachError_class
        /\ forall doc detail,
             body r = JsonText doc ->
             member "detail" doc = Some detail ->
             truthy detail = true ->
             userMessage e = detail).
Proof.
  intros Hanswer Hok.
  rewrite aiCoachFetch_run, Hanswer, Hok. cbn [fst].
  exists (error_for r).
  split; [reflexivity |].
  split; [apply statusCode_error_for |].
  unfold Client.error_for.
  split; [| split; [| split]]; intro E; rewrite E; cbn [Z.eqb Pos.eqb];
    try reflexivity; try (split; reflexivity).
  split; [reflexivity |].
  intros doc detail Hbody Hmember Htruthy.
  cbn [userMessage new_AICoachError].
  unfold errorDetail_of. rewrite Hbody, Hmember. cbn [or_else].
  rewrite Htruthy. reflexivity.
Qed.

(** A 400 whose body holds no detail, or an empty one, is shown with the
    fallback text. *)
Lemma aiCoachFetch_400_without_detail
    (endpoint token : string) (options : RequestInit) (w : World) (r : Response) :
  answer w (sent w) (aiCoachRequest endpoint token options) = Resolved r ->
  status r = 400%Z ->
  errorDetail_of r = JStr "Bilinmeyen hata" ->
  fst (aiCoachFetch endpoint token options w)
  = RejectedWith (CoachError (new_AICoachError "Bilinmeyen hata" 400
                                               (JStr "Bilinmeyen hata"))).
Proof.
  intros Hanswer Hstatus Hdetail.
  rewrite aiCoachFetch_run, Hanswer.
  unfold Response_ok, Client.error_for. rewrite Hstatus, Hdetail. reflexivity.
Qed.

(** C3. Two 502 responses, whatever their bodies, make [aiCoachFetch]
    throw the same error: its user-facing message is the fixed
    try-again text and does not depend on the body. *)
Theorem bad_gateway_message_ignores_body
    (endpoint1 token1 : string) (options1 : RequestInit) (w1 : World) (r1 : Response)
    (endpoint2 token2 : string) (options2 : RequestInit) (w2 : World) (r2 : Response) :
  answer w1 (sent w1) (aiCoachRequest endpoint1 token1 options1) = Resolved r1 ->
  answer w2 (sent w2) (aiCoachRequest endpoint2 token2 options2) = Resolved r2 ->
  status r1 = 502%Z ->
  status r2 = 502%Z ->
  exists e : AICoachError,
    fst (aiCoachFetch endpoint1 token1 options1 w1) = RejectedWith (CoachError e)
    /\ fst (aiCoachFetch endpoint2 token2 options2 w2) = RejectedWith (CoachError e)
    /\ statusCode e = 502%Z
    /\ userMessage e
       = JStr "AI koç geçici bir sorun yaşıyor. Lütfen tekrar deneyin."
    /\ getAIErrorMessage (CoachError e)
       = JStr "AI koç geçici bir sorun yaşıyor. Lütfen tekrar deneyin.".
Proof.
  intros H1 H2 S1 S2.
  rewrite !aiCoachFetch_run, H1, H2.
  unfold Response_ok, Client.error_for. rewrite S1, S2. cbn.
  eexists. repeat split; reflexivity.
Qed.

(** C7. Every invocation of a coach operation sends exactly one HTTP
    request.  When the network fails, or answers with a status that is not
    2xx, the operation ends with the error thrown for that one answer;
    nothing is sent again. *)
Theorem every_operation_sends_one_request (op : Operation) (w : World) :
  exists request : HttpRequest,
    sent (snd (invoke op w)) = (sent w ++ [request])%list
    /\ match answer w (sent w) request with
       | Rejected _ =>
           exists e : AICoachError,
             fst (invoke op w) = RejectedWith (CoachError e)
             /\ statusCode e = 0%Z
       | Resolved r =>
           if Response_ok r
           then fst (invoke op w) = Response_json r
           else exists e : AICoachError,
               fst (invoke op w) = RejectedWith (CoachError e)
               /\ statusCode e = status r
       end.
Proof.
  destruct op as [token request | token request | token request
                 | token request | token sessionId];
    cbn [Client.invoke];
    unfold getDailyAdvice, getWeeklyReport, getMotivation,
      Client.sendFeedback, getSessionSummary;
    rewrite aiCoachFetch_run;
    (eexists; split; [reflexivity |]);
    cbn [fst];
    (destruct (answer w (sent w) _) as [r | reason];
     [ destruct (Response_ok r);
       [ reflexivity
       | eexists; split; [reflexivity | apply statusCode_error_for] ]
     | eexists; split; reflexivity ]).
Qed.

(** The client checks no range: whatever [days] it is given goes out in
    the body of the one request. *)
Lemma getWeeklyReport_forwards_days (token : string) (d : Q) (w : World) :
  sent (snd (getWeeklyReport API_BASE_URL Number_toString token
               (Some {| days := Given d |}) w))
  = (sent w
     ++ [aiCoachRequest "/weekly-report" token (post (JObj [("days", JNum d)]))])%list.
Proof.
  unfold getWeeklyReport. rewrite aiCoachFetch_run. reflexivity.
Qed.

(** The body [sendFeedback] sends carries the caller's advice type when
    one is given, and 'daily' when the property is not there. *)
Lemma sendFeedback_body_advice_type (request : FeedbackRequest) :
  member "advice_type" (sendFeedback_body request)
  = match advice_type request with
    | Absent => Some (JStr "daily")
    | Given t => Some (JStr (AdviceType_text t))
    | Undefined => None
    end.
Proof.
  destruct request as [tech like reason kind].
  destruct reason, kind; reflexivity.
Qed.

(** C8, at the input where it fails.  A request whose [advice_type]
    property is present and holds [undefined] overrides the default in the
    spread, and [JSON.stringify] then leaves the property out: the one
    request sent has a body with no advice_type member. *)
Theorem sendFeedback_omits_undefined_advice_type
    (token tech : string) (like : bool) (reason : Optional string) (w : World) :
  exists (request : HttpRequest) (doc : json),
    sent (snd (sendFeedback token
                 {| technique := tech; liked := like;
                    rejection_reason := reason; advice_type := Undefined |} w))
    = (sent w ++ [request])%list
    /\ init_body (request_init request) = Some doc
    /\ member "advice_type" doc = None.
Proof.
  unfold Client.sendFeedback. rewrite aiCoachFetch_run.
  eexists. eexists. split; [reflexivity |]. split; [reflexivity |].
  apply (sendFeedback_body_advice_type
           {| technique := tech; liked := like;
              rejection_reason := reason; advice_type := Undefined |}).
Qed.

(** How [checkAIHealth] settles, by the network's answer. *)
Lemma checkAIHealth_run (w : World) :
  checkAIHealth w
  = (match answer w (sent w) (healthRequest API_BASE_URL) with
     | Rejected _ => Fulfilled (unhealthy (clock w))
     | Resolved r => Response_json r
     end,
     after_request w (healthRequest API_BASE_URL)).
Proof.
  unfold Client.checkAIHealth, healthRequest, bind, try_catch, fetch, adopt,
    ret, Date_now_toISOString, after_request.
  cbn beta iota zeta.
  destruct (answer w (sent w) _) as [r | reason]; reflexivity.
Qed.

(** When the service cannot be reached, the health check answers
    unhealthy instead of throwing. *)
Lemma checkAIHealth_unreachable (w : World) (reason : Thrown) :
  answer w (sent w) (healthRequest API_BASE_URL) = Rejected reason ->
  fst (checkAIHealth w) = Fulfilled (unhealthy (clock w))
  /\ is_AIHealthStatus (unhealthy (clock w)) = true.
Proof.
  intro H. rewrite checkAIHealth_run, H. split; reflexivity.
Qed.

(** C9, at the input where it fails.  When the fetch resolves with a
    body that is not JSON, the promise of [response.json()] has already
    left the [try] block when it rejects: [checkAIHealth] rejects with the
    parser's SyntaxError and returns no AIHealthStatus. *)
Theorem checkAIHealth_rejects_on_unparsable_body
    (log : list HttpRequest) (time : string) (code : Z) (complaint : string) :
  fst (checkAIHealth
         {| sent := log;
            answer := fun _ _ => Resolved {| status := code;
                                             body := NotJson complaint |};
            clock := time |})
  = RejectedWith (OtherError "SyntaxError" complaint).
Proof.
  rewrite checkAIHealth_run. reflexivity.
Qed.

(** C10. When [fetch] itself rejects, [aiCoachFetch] throws a plain
    AICoachError with status code 0, not 401; [isAuthError] is false for
    it, and the screen's handler starts no re-authentication. *)
Theorem network_failure_is_not_an_auth_error
    (endpoint token : string) (options : RequestInit) (w : World) (reason : Thrown) :
  answer w (sent w) (aiCoachRequest endpoint token options) = Rejected reason ->
  exists e : AICoachError,
    fst (aiCoachFetch endpoint token options w) = RejectedWith (CoachError e)
    /\ class e = AICoachError_class
    /\ statusCode e = 0%Z
    /\ statusCode e <> 401%Z
    /\ isAuthError (CoachError e) = false
    /\ handleAuthError (CoachError e) = (false, []).
Proof.
  intro H. rewrite aiCoachFetch_run, H. cbn [fst].
  eexists. split; [reflexivity |].
  repeat split. cbn. discriminate.
Qed.

End ClientFacts.

(** ** Properties of the coaching core *)

Module CoreFacts.

Import Core.

Section Facts.

Variables UserContext StatsSnapshot : Type.
Variable provide : UserId -> Z -> option (UserContext * StatsSnapshot).
Variable render :
  ArtifactKind -> UserContext -> StatsSnapshot ->
  option string -> option string -> string.
Variable model : list (string * Tier) -> string -> Tier -> ModelReply.
Variable locate : string -> option json.
Variable model_name : Tier -> string.
Variable fold_case : string -> string.
Variable confirmation : bool -> string.

Local Abbreviation generate :=
  (Core.generate UserContext StatsSnapshot provide render model locate model_name).
Local Abbreviation getWeeklyReport :=
  (Core.getWeeklyReport UserContext StatsSnapshot provide render model locate
     model_name).
Local Abbreviation getAlternativeTechnique :=
  (Core.getAlternativeTechnique UserContext StatsSnapshot provide render model
     locate model_name fold_case).
Local Abbreviation record :=
  (Core.record UserContext StatsSnapshot provide render model locate model_name
     fold_case confirmation).
Local Abbreviation same_ignoring_case := (Core.same_ignoring_case fold_case).
Local Abbreviation validate_alternative := (Core.validate_alternative fold_case).

(** Case analysis along the pipeline: the window check, the provider, the
    model's reply, the located payload and its validation. *)
Ltac walk_pipeline window validate :=
  unfold Core.generate, bind, assemble;
  destruct ((window <? 3)%Z || (30 <? window)%Z) eqn:?;
  [| destruct (provide _ window) as [? |];
     [ cbn [ret]; unfold send;
       destruct (model _ _ _) as [?raw | | | |];
       [ destruct (String.eqb _ EmptyString);
         [| unfold parse;
            destruct (locate _) as [?doc |];
            [ destruct (validate _) eqn:? |] ]
       | | | | ]
     |] ].

(** The Gateway makes its one call and touches nothing else. *)
Lemma send_run (prompt : string) (tier : Tier) (s : State) :
  snd (send model prompt tier s)
  = {| gateway_calls := (gateway_calls s ++ [(prompt, tier)])%list;
       feedback_store := feedback_store s;
       now := now s |}
  /\ fst (send model prompt tier s) <> Failed InvalidRequest.
Proof.
  unfold send.
  destruct (model (gateway_calls s) prompt tier) as [raw | | | |];
    try (split; [reflexivity | discriminate]).
  destruct (String.eqb raw EmptyString); split; try reflexivity; discriminate.
Qed.

(** A window outside 3 to 30 stops the pipeline at the Context Assembler. *)
Lemma generate_rejects_window {A : Type} (kind : ArtifactKind) (user : UserId)
    (window : Z) (extra excluded : option string) (validate : json -> option A)
    (s : State) :
  (window <? 3)%Z || (30 <? window)%Z = true ->
  generate kind user window extra excluded validate s = (Failed InvalidRequest, s).
Proof.
  intro H. unfold Core.generate, bind, assemble. rewrite H. reflexivity.
Qed.

(** Within the window the pipeline never fails with [InvalidRequest]. *)
Lemma generate_accepts_window {A : Type} (kind : ArtifactKind) (user : UserId)
    (window : Z) (extra excluded : option string) (validate : json -> option A)
    (s : State) :
  (window <? 3)%Z || (30 <? window)%Z = false ->
  forall f, fst (generate kind user window extra excluded validate s) = Failed f ->
            f <> InvalidRequest.
Proof.
  intros H f. walk_pipeline window validate;
    cbn [fst fail ret stamp]; try discriminate;
    intro E; inversion E; discriminate.
Qed.

(** The pipeline leaves the feedback store as it found it. *)
Lemma generate_keeps_store {A : Type} (kind : ArtifactKind) (user : UserId)
    (window : Z) (extra excluded : option string) (validate : json -> option A)
    (s : State) :
  feedback_store (snd (generate kind user window extra excluded validate s))
  = feedback_store s.
Proof.
  walk_pipeline window validate; reflexivity.
Qed.

(** What the pipeline returns has passed the validator. *)
Lemma generate_validated {A : Type} (kind : ArtifactKind) (user : UserId)
    (window : Z) (extra excluded : option string) (validate : json -> option A)
    (s s' : State) (g : Generated A) :
  generate kind user window extra excluded validate s = (Done g, s') ->
  exists doc, validate doc = Some (artifact g).
Proof.
  walk_pipeline window validate; try discriminate.
  unfold stamp, ret. intro E. inversion E. eexists. eassumption.
Qed.

(** An accepted alternative differs from the excluded technique. *)
Lemma validate_alternative_differs (excluded : string) (doc : json)
    (a : AlternativeTechnique) :
  validate_alternative excluded doc = Some a ->
  text_field "technique" doc = Some (technique a)
  /\ same_ignoring_case (technique a) excluded = false.
Proof.
  unfold Core.validate_alternative.
  destruct (text_field "technique" doc) as [t |]; [| discriminate].
  destruct (text_field "why_different" doc); [| discriminate].
  destruct (text_field "why_suits_you" doc); [| discriminate].
  destruct (text_list "steps" doc); [| discriminate].
  destruct (text_field "try_suggestion" doc); [| discriminate].
  destruct (same_ignoring_case t excluded) eqn:Hsame; [discriminate |].
  intro E. inversion E. cbn [technique]. split; [reflexivity | exact Hsame].
Qed.

(** A payload that names the excluded technique fails validation. *)
Lemma validate_alternative_rejects (excluded : string) (doc : json) (t : string) :
  text_field "technique" doc = Some t ->
  same_ignoring_case t excluded = true ->
  validate_alternative excluded doc = None.
Proof.
  intros Ht Hsame. unfold Core.validate_alternative. rewrite Ht.
  destruct (text_field "why_different" doc); [| reflexivity].
  destruct (text_field "why_suits_you" doc); [| reflexivity].
  destruct (text_list "steps" doc); [| reflexivity].
  destruct (text_field "try_suggestion" doc); [| reflexivity].
  rewrite Hsame. reflexivity.
Qed.

(** C4. For every [days] from 3 to 30, getWeeklyReport never fails with
    InvalidRequest (status 400); for every other [days] it fails with
    InvalidRequest, and the state is left as it was: no call to the
    generative-model Gateway is made. *)
Theorem getWeeklyReport_validates_days (user : UserId) (days : Z) (s : State) :
  if (3 <=? days)%Z && (days <=? 30)%Z
  then fst (getWeeklyReport user (Some days) s) <> Failed InvalidRequest
       /\ status_of (fst (getWeeklyReport user (Some days) s)) <> 400%Z
  else getWeeklyReport user (Some days) s = (Failed InvalidRequest, s)
       /\ status_of (fst (getWeeklyReport user (Some days) s)) = 400%Z
       /\ gateway_calls (snd (getWeeklyReport user (Some days) s))
          = gateway_calls s.
Proof.
  unfold Core.getWeeklyReport.
  destruct ((3 <=? days)%Z && (days <=? 30)%Z) eqn:Hrange.
  - assert (Hw : (days <? 3)%Z || (30 <? days)%Z = false).
    { apply andb_true_iff in Hrange. destruct Hrange as [H3 H30].
      apply Z.leb_le in H3. apply Z.leb_le in H30.
      apply orb_false_iff. split; apply Z.ltb_ge; lia. }
    pose proof (generate_accepts_window WeeklyReport_kind user days None None
                  validate_weekly s Hw) as Hnot.
    destruct (fst (generate WeeklyReport_kind user days None None
                     validate_weekly s)) as [g | f].
    + split; [discriminate | cbn; discriminate].
    + specialize (Hnot f eq_refl). split.
      * intro E. inversion E. contradiction.
      * destruct f; cbn; try discriminate. contradiction.
  - assert (Hw : (days <? 3)%Z || (30 <? days)%Z = true).
    { apply andb_false_iff in Hrange. apply orb_true_iff.
      destruct Hrange as [H | H]; [left | right];
        apply Z.leb_gt in H; apply Z.ltb_lt; lia. }
    rewrite (generate_rejects_window WeeklyReport_kind user days None None
               validate_weekly s Hw).
    repeat split.
Qed.

(** A request that names no window runs with the default of seven days. *)
Lemma getWeeklyReport_default_window (user : UserId) (s : State) :
  getWeeklyReport user None s = getWeeklyReport user (Some 7%Z) s.
Proof. reflexivity. Qed.

(** C5. An AlternativeTechnique that is returned, by getAlternativeTechnique
    or in the response to a disliked feedback, never names the excluded
    technique, case ignored; and when the model's payload does name it, the
    operation fails with SchemaViolation. *)
Theorem alternative_never_repeats_excluded :
  (forall (user : UserId) (rejected : string) (reason : option string)
          (s s' : State) (g : Generated AlternativeTechnique),
      getAlternativeTechnique user rejected reason s = (Done g, s') ->
      same_ignoring_case (technique (artifact g)) rejected = false)
  /\ (forall (user : UserId) (tech : string) (reason : option string)
             (kind : option AdviceType) (s s' : State) (resp : FeedbackResponse)
             (g : Generated AlternativeTechnique),
         record user tech false reason kind s = (Done resp, s') ->
         alternative resp = Some g ->
         same_ignoring_case (technique (artifact g)) tech = false)
  /\ (forall (user : UserId) (rejected : string) (reason : option string)
             (s : State) (found : UserContext * StatsSnapshot)
             (raw : string) (doc : json) (named : string),
         provide user default_window = Some found ->
         model (gateway_calls s)
               (render AlternativeTechnique_kind (fst found) (snd found)
                       reason (Some rejected))
               Fast = Text raw ->
         raw <> EmptyString ->
         locate raw = Some doc ->
         text_field "technique" doc = Some named ->
         same_ignoring_case named rejected = true ->
         fst (getAlternativeTechnique user rejected reason s)
         = Failed SchemaViolation).
Proof.
  split; [| split].
  - intros user rejected reason s s' g H.
    unfold Core.getAlternativeTechnique in H.
    destruct (generate_validated _ _ _ _ _ _ _ _ _ H) as [doc Hdoc].
    apply (validate_alternative_differs _ _ _ Hdoc).
  - intros user tech reason kind s s' resp g H Halt.
    unfold Core.record, bind, persist, attempt, ret in H.
    cbn beta iota zeta in H.
    match type of H with
    | context [Core.getAlternativeTechnique _ _ _ _ _ _ _ _ ?u ?t ?r ?st] =>
        destruct (Core.getAlternativeTechnique UserContext StatsSnapshot provide
                    render model locate model_name fold_case u t r st)
          as [[g' | f] s1] eqn:Hg
    end.
    + inversion H; subst resp. cbn [alternative] in Halt.
      inversion Halt; subst g'.
      unfold Core.getAlternativeTechnique in Hg.
      destruct (generate_validated _ _ _ _ _ _ _ _ _ Hg) as [doc Hdoc].
      apply (validate_alternative_differs _ _ _ Hdoc).
    + inversion H; subst resp. discriminate.
  - intros user rejected reason s found raw doc named Hp Hm Hraw Hl Ht Hsame.
    unfold Core.getAlternativeTechnique, Core.generate, bind, assemble.
    cbn [default_window Z.ltb Z.compare orb Pos.compare Pos.compare_cont].
    rewrite Hp. cbn [ret tier_of]. unfold send. rewrite Hm.
    apply String.eqb_neq in Hraw. rewrite Hraw.
    unfold parse. rewrite Hl.
    rewrite (validate_alternative_rejects _ _ _ Ht Hsame). reflexivity.
Qed.

(** A disliked feedback always completes: the record is stored, and the
    response reports success, whatever becomes of the alternative. *)
Lemma record_disliked_completes (user : UserId) (tech : string)
    (reason : option string) (kind : option AdviceType) (s : State) :
  exists (resp : FeedbackResponse) (s' : State),
    record user tech false reason kind s = (Done resp, s')
    /\ success resp = true
    /\ feedback_id resp = S (List.length (feedback_store s))
    /\ feedback_store s'
       = (feedback_store s
          ++ [{| record_id := S (List.length (feedback_store s));
                 record_user := user;
                 record_technique := tech;
                 record_liked := false;
                 record_rejection_reason := reason;
                 record_advice_type :=
                   match kind with Some t => t | None => daily end;
                 record_created_at := now s |}])%list
    /\ alternative resp
       = match fst (getAlternativeTechnique user tech reason
                      (snd (persist user tech false reason
                              (match kind with Some t => t | None => daily end)
                              s))) with
         | Done g => Some g
         | Failed _ => None
         end.
Proof.
  unfold Core.record, bind, attempt, ret. cbn beta iota zeta.
  unfold persist at 1. cbn beta iota zeta.
  match goal with
  | |- context [Core.getAlternativeTechnique _ _ _ _ _ _ _ _ ?u ?t ?r ?st] =>
      pose proof (generate_keeps_store AlternativeTechnique_kind u default_window
                    r (Some t) (validate_alternative t) st) as Hstore;
      fold (Core.getAlternativeTechnique UserContext StatsSnapshot provide
              render model locate model_name fold_case u t r) in Hstore;
      destruct (Core.getAlternativeTechnique UserContext StatsSnapshot provide
                  render model locate model_name fold_case u t r st)
        as [[g | f] s1] eqn:Hg
  end;
    cbn [snd feedback_store] in Hstore;
    unfold persist; cbn [snd fst]; rewrite Hg; cbn [fst];
    eexists; eexists; (split; [reflexivity |]);
    cbn [success feedback_id alternative record_id];
    repeat split; exact Hstore.
Qed.

(** C6. When a feedback with liked = false is recorded and the generation
    of the alternative fails, the recording still completes: the response
    has success = true and no alternative, and the feedback record is in the
    store. *)
Theorem feedback_survives_failed_alternative (user : UserId) (tech : string)
    (reason : option string) (kind : option AdviceType) (s : State) (f : Failure) :
  fst (getAlternativeTechnique user tech reason
         (snd (persist user tech false reason
                 (match kind with Some t => t | None => daily end) s)))
  = Failed f ->
  exists (resp : FeedbackResponse) (s' : State),
    record user tech false reason kind s = (Done resp, s')
    /\ success resp = true
    /\ alternative resp = None
    /\ exists r : FeedbackRecord,
         In r (feedback_store s')
         /\ record_id r = feedback_id resp
         /\ record_user r = user
         /\ record_technique r = tech
         /\ record_liked r = false.
Proof.
  intro Hfail.
  destruct (record_disliked_completes user tech reason kind s)
    as (resp & s' & Hrun & Hsuccess & Hid & Hstore & Halt).
  exists resp, s'. split; [exact Hrun |]. split; [exact Hsuccess |].
  split; [rewrite Halt, Hfail; reflexivity |].
  eexists. split.
  - rewrite Hstore. apply in_or_app. right. left. reflexivity.
  - cbn. rewrite Hid. repeat split.
Qed.

End Facts.

End CoreFacts.

(** ** The statements on concrete inputs *)

Lemma aiCoachFetch_classifies_failures_witness :
  exists e : AICoachError,
    fst (aiCoachFetch Sample.base_url Sample.number_text "/weekly-report" "token"
           Sample.weekly_options (Sample.replying Sample.days_out_of_range))
    = RejectedWith (CoachError e)
    /\ statusCode e = 400%Z
    /\ (400%Z = 401%Z -> class e = AICoachAuthError_class)
    /\ (400%Z = 429%Z ->
        class e = AICoachRateLimitError_class
        /\ userMessage e
           = JStr "AI koç şu an yoğun. Birkaç saniye sonra tekrar deneyin.")
    /\ (400%Z = 503%Z -> class e = AICoachUnavailableError_class)
    /\ (400%Z = 400%Z ->
        class e = AICoachError_class
        /\ forall doc detail,
             JsonText (JObj [("detail", JStr "days must be between 3 and 30")])
             = JsonText doc ->
             member "detail" doc = Some detail ->
             truthy detail = true ->
             userMessage e = detail).
Proof.
  apply (aiCoachFetch_classifies_failures Sample.base_url Sample.number_text
           "/weekly-report" "token" Sample.weekly_options
           (Sample.replying Sample.days_out_of_range) Sample.days_out_of_range).
  - reflexivity.
  - reflexivity.
Defined.

Lemma bad_gateway_message_ignores_body_witness :
  exists e : AICoachError,
    fst (aiCoachFetch Sample.base_url Sample.number_text "/daily-advice" "token"
           (post (JObj [])) (Sample.replying Sample.schema_violation))
    = RejectedWith (CoachError e)
    /\ fst (aiCoachFetch Sample.base_url Sample.number_text "/daily-advice" "token"
              (post (JObj [])) (Sample.replying Sample.proxy_error_page))
       = RejectedWith (CoachError e)
    /\ statusCode e = 502%Z
    /\ userMessage e
       = JStr "AI koç geçici bir sorun yaşıyor. Lütfen tekrar deneyin."
    /\ getAIErrorMessage (CoachError e)
       = JStr "AI koç geçici bir sorun yaşıyor. Lütfen tekrar deneyin.".
Proof.
  apply (bad_gateway_message_ignores_body Sample.base_url Sample.number_text
           "/daily-advice" "token" (post (JObj []))
           (Sample.replying Sample.schema_violation) Sample.schema_violation
           "/daily-advice" "token" (post (JObj []))
           (Sample.replying Sample.proxy_error_page) Sample.proxy_error_page).
  - reflexivity.
  - reflexivity.
  - reflexivity.
  - reflexivity.
Defined.

Lemma network_failure_is_not_an_auth_error_witness :
  exists e : AICoachError,
    fst (aiCoachFetch Sample.base_url Sample.number_text "/motivation" "token"
           (post (JObj [])) Sample.offline)
    = RejectedWith (CoachError e)
    /\ class e = AICoachError_class
    /\ statusCode e = 0%Z
    /\ statusCode e <> 401%Z
    /\ isAuthError (CoachError e) = false
    /\ handleAuthError (CoachError e) = (false, []).
Proof.
  apply (network_failure_is_not_an_auth_error Sample.base_url Sample.number_text
           "/motivation" "token" (post (JObj [])) Sample.offline
           (OtherError "TypeError" "Network request failed")).
  reflexivity.
Defined.

(** The model names the rejected technique again, in capitals: the
    alternative is refused with SchemaViolation. *)
Lemma alternative_never_repeats_excluded_witness :
  fst (Core.getAlternativeTechnique unit unit Sample.provide Sample.render
         Sample.stubborn_model Sample.locate Sample.model_name Sample.lower
         1%nat "Pomodoro 25/5" None Sample.fresh)
  = Core.Failed Core.SchemaViolation.
Proof.
  apply (proj2 (proj2 (CoreFacts.alternative_never_repeats_excluded
                         unit unit Sample.provide Sample.render
                         Sample.stubborn_model Sample.locate Sample.model_name
                         Sample.lower Sample.confirmation))
           1%nat "Pomodoro 25/5" None Sample.fresh (tt, tt)
           Sample.stubborn_reply Sample.stubborn_payload "POMODORO 25/5").
  - reflexivity.
  - reflexivity.
  - discriminate.
  - reflexivity.
  - reflexivity.
  - reflexivity.
Defined.

(** The model cannot be reached while a dislike is recorded: the feedback
    is stored and answered with success and no alternative. *)
Lemma feedback_survives_failed_alternative_witness :
  exists (resp : Core.FeedbackResponse) (s' : Core.State),
    Core.record unit unit Sample.provide Sample.render Sample.unreachable_model
      Sample.locate Sample.model_name Sample.lower Sample.confirmation
      1%nat "Pomodoro 25/5" false (Some "25 minutes is too long") None
      Sample.fresh
    = (Core.Done resp, s')
    /\ Core.success resp = true
    /\ Core.alternative resp = None
    /\ exists r : Core.FeedbackRecord,
         In r (Core.feedback_store s')
         /\ Core.record_id r = Core.feedback_id resp
         /\ Core.record_user r = 1%nat
         /\ Core.record_technique r = "Pomodoro 25/5"
         /\ Core.record_liked r = false.
Proof.
  apply (CoreFacts.feedback_survives_failed_alternative unit unit Sample.provide
           Sample.render Sample.unreachable_model Sample.locate Sample.model_name
           Sample.lower Sample.confirmation
           1%nat "Pomodoro 25/5" (Some "25 minutes is too long") None
           Sample.fresh Core.Unavailable).
  reflexivity.
Defined.

(** ** Further properties of the trigger detection *)

(** The tests on the minutes never answer high_cancel_rate. *)
Lemma progress_rule_not_cancel (m d : float) :
  F64.progress_rule m d <> Some high_cancel_rate.
Proof.
  unfold F64.progress_rule. cbv zeta.
  destruct (1 <=? _)%float; [discriminate |].
  destruct (_ && _); discriminate.
Qed.

(** X1. For session counts up to 1440, high_cancel_rate is the answer
    exactly when more sessions were cancelled than completed and there
    were at least two sessions, whatever binary64 values the minutes and
    the target are. *)
Theorem high_cancel_rate_iff (c k : nat) (m d : float) :
  (c <= 1440)%nat -> (k <= 1440)%nat ->
  detectMotivationTrigger (F64.of_nat c) (F64.of_nat k) m d = Some high_cancel_rate
  <-> (k < c)%nat /\ (2 <= c + k)%nat.
Proof.
  intros Hc Hk. rewrite detectMotivationTrigger_split.
  rewrite (cancel_agrees_below_sound 1441 c k cancel_agrees_day) by lia.
  unfold counts_cancel.
  destruct (Z.ltb_spec (Z.of_nat c + Z.of_nat k) (2 * Z.of_nat c)) as [H1 | H1];
    destruct (Z.leb_spec 2 (Z.of_nat c + Z.of_nat k)) as [H2 | H2]; cbn [andb].
  - split; [intros _; lia | reflexivity].
  - split; [intro E; exfalso; exact (progress_rule_not_cancel m d E) | lia].
  - split; [intro E; exfalso; exact (progress_rule_not_cancel m d E) | lia].
  - split; [intro E; exfalso; exact (progress_rule_not_cancel m d E) | lia].
Qed.

(** X2. With a daily target of zero the goal is never reported as
    achieved, whatever binary64 values the other three numbers are; and
    with 1 to 1440 minutes studied the answer is high_cancel_rate or
    low_performance. *)
Theorem zero_target_is_never_achieved (c k : float) (m : nat) :
  (0 < m)%nat -> (m <= 1440)%nat ->
  (forall x : float, detectMotivationTrigger c k x 0 <> Some goal_achieved)
  /\ (detectMotivationTrigger c k (F64.of_nat m) 0 = Some high_cancel_rate
      \/ detectMotivationTrigger c k (F64.of_nat m) 0 = Some low_performance).
Proof.
  intros Hpos Hm. split.
  - intro x. rewrite detectMotivationTrigger_split.
    destruct (F64.cancel_rule c k); [discriminate |].
    unfold F64.progress_rule. cbv zeta.
    change (0 <? 0)%float with false. cbv iota.
    change (1 <=? 0)%float with false. cbv iota.
    destruct (_ && _); discriminate.
  - rewrite detectMotivationTrigger_split.
    destruct (F64.cancel_rule c k); [left; reflexivity | right].
    change 0%float with (F64.of_nat 0).
    rewrite (progress_agrees_below_sound 1441 m 0 progress_agrees_day) by lia.
    unfold counts_progress.
    change (0 <? Z.of_nat 0)%Z with false.
    change (Z.of_nat 0 =? 0)%Z with true. cbn [andb orb].
    destruct (Z.ltb_spec 0 (Z.of_nat m)) as [H | H]; [reflexivity | lia].
Qed.

(** ** Further properties of the client service *)

(** Looking a key up after a property has been defined. *)
Lemma assoc_define_property {A : Type} (key k : string) (v : A) (o : list (string * A)) :
  assoc k (define_property key v o)
  = if String.eqb key k then Some v else assoc k o.
Proof.
  induction o as [| [k0 x] rest IH]; cbn [define_property assoc].
  - destruct (String.eqb key k); reflexivity.
  - destruct (String.eqb_spec k0 key) as [E | E].
    + subst k0. cbn [assoc]. destruct (String.eqb key k); reflexivity.
    + cbn [assoc]. destruct (String.eqb_spec k0 k) as [E' | E'].
      * subst k0. destruct (String.eqb_spec key k) as [E2 | E2];
          [congruence | reflexivity].
      * exact IH.
Qed.

(** Looking a key up in [{...target, ...source}]: the last value [source]
    gives the key, and otherwise the value of [target]. *)
Lemma assoc_spread {A : Type} (k : string) (source target : list (string * A)) :
  assoc k (spread target source)
  = match assoc k (rev source) with
    | Some v => Some v
    | None => assoc k target
    end.
Proof.
  unfold spread. revert target.
  induction source as [| [k0 v0] rest IH]; intro target; cbn [fold_left rev].
  - reflexivity.
  - rewrite IH. cbn [fst snd].
    assert (Happ : forall l : list (string * A),
               assoc k (l ++ [(k0, v0)])
               = match assoc k l with
                 | Some v => Some v
                 | None => if String.eqb k0 k then Some v0 else None
                 end).
    { induction l as [| [k1 v1] l IHl]; cbn [app assoc]; [reflexivity |].
      destruct (String.eqb k1 k); [reflexivity | exact IHl]. }
    rewrite Happ, assoc_define_property.
    destruct (assoc k (rev rest)); [reflexivity |].
    destruct (String.eqb k0 k); reflexivity.
Qed.

Section ClientMore.

Variable API_BASE_URL : string.
Variable Number_toString : Q -> string.

Local Abbreviation aiCoachFetch := (aiCoachFetch API_BASE_URL Number_toString).
Local Abbreviation aiCoachRequest := (aiCoachRequest API_BASE_URL).
Local Abbreviation invoke := (invoke API_BASE_URL Number_toString).
Local Abbreviation checkAIHealth := (checkAIHealth API_BASE_URL).
Local Abbreviation getMotivation := (getMotivation API_BASE_URL Number_toString).
Local Abbreviation getWeeklyReport := (getWeeklyReport API_BASE_URL Number_toString).
Local Abbreviation error_for := (error_for Number_toString).

(** Every operation is one call of [aiCoachFetch] with a POST. *)
Lemma invoke_is_a_post (op : Operation) :
  exists document : json,
    (exists members, document = JObj members)
    /\ forall w, invoke op w
                 = aiCoachFetch (operation_endpoint op) (operation_token op)
                                (post document) w.
Proof.
  destruct op as [token request | token request | token request
                 | token request | token sessionId];
    eexists; (split; [eexists; reflexivity |]); intro w; reflexivity.
Qed.

(** The user-facing text of the error for a failed response is fixed by
    the status, unless the status is 400. *)
Lemma userMessage_error_for (r : Response) :
  status r <> 400%Z ->
  userMessage (error_for r)
  = (if (status r =? 401)%Z
     then JStr "Oturumunuz sona erdi. Lütfen tekrar giriş yapın."
     else if (status r =? 429)%Z
     then JStr "AI koç şu an yoğun. Birkaç saniye sonra tekrar deneyin."
     else if (status r =? 502)%Z
     then JStr "AI koç geçici bir sorun yaşıyor. Lütfen tekrar deneyin."
     else if (status r =? 503)%Z
     then JStr "AI koç şu an kullanılamıyor. Daha sonra tekrar deneyin."
     else JStr "Bir hata oluştu. Lütfen tekrar deneyin.")
  /\ class (error_for r)
     = (if (status r =? 401)%Z then AICoachAuthError_class
        else if (status r =? 429)%Z then AICoachRateLimitError_class
        else if (status r =? 502)%Z then AICoachError_class
        else if (status r =? 503)%Z then AICoachUnavailableError_class
        else AICoachError_class).
Proof.
  intro H. unfold Client.error_for.
  destruct (Z.eqb_spec (status r) 400) as [E | _]; [contradiction |].
  destruct (status r =? 401)%Z; [split; reflexivity |].
  destruct (status r =? 429)%Z; [split; reflexivity |].
  destruct (status r =? 502)%Z; [split; reflexivity |].
  destruct (status r =? 503)%Z; split; reflexivity.
Qed.

(** X3. Two failed responses with the same status, other than 400, show
    the user the same text, one of five fixed texts, whatever their bodies
    say; the errors thrown have the same class. *)
Theorem failure_text_depends_on_status_only
    (endpoint1 token1 : string) (options1 : RequestInit) (w1 : World) (r1 : Response)
    (endpoint2 token2 : string) (options2 : RequestInit) (w2 : World) (r2 : Response) :
  answer w1 (sent w1) (aiCoachRequest endpoint1 token1 options1) = Resolved r1 ->
  answer w2 (sent w2) (aiCoachRequest endpoint2 token2 options2) = Resolved r2 ->
  Response_ok r1 = false ->
  status r1 = status r2 ->
  status r1 <> 400%Z ->
  exists e1 e2 : AICoachError,
    fst (aiCoachFetch endpoint1 token1 options1 w1) = RejectedWith (CoachError e1)
    /\ fst (aiCoachFetch endpoint2 token2 options2 w2) = RejectedWith (CoachError e2)
    /\ getAIErrorMessage (CoachError e1) = getAIErrorMessage (CoachError e2)
    /\ class e1 = class e2
    /\ In (getAIErrorMessage (CoachError e1)) fixed_user_messages.
Proof.
  intros H1 H2 Hok Hsame Hnot.
  assert (Hok2 : Response_ok r2 = false)
    by (unfold Response_ok in *; rewrite <- Hsame; exact Hok).
  assert (Hnot2 : status r2 <> 400%Z) by (rewrite <- Hsame; exact Hnot).
  rewrite !aiCoachFetch_run, H1, H2, Hok, Hok2. cbn [fst].
  exists (error_for r1), (error_for r2).
  split; [reflexivity |]. split; [reflexivity |].
  cbn [getAIErrorMessage].
  destruct (userMessage_error_for r1 Hnot) as [M1 C1].
  destruct (userMessage_error_for r2 Hnot2) as [M2 C2].
  rewrite M1, M2, C1, C2, <- Hsame.
  split; [reflexivity |]. split; [reflexivity |].
  unfold fixed_user_messages.
  destruct (status r1 =? 401)%Z; [left; reflexivity |].
  destruct (status r1 =? 429)%Z; [right; left; reflexivity |].
  destruct (status r1 =? 502)%Z; [right; right; left; reflexivity |].
  destruct (status r1 =? 503)%Z;
    [right; right; right; left; reflexivity
    | right; right; right; right; left; reflexivity].
Qed.

(** X4. An error thrown by a coach operation is an authentication error
    exactly when the one request was answered with status 401. *)
Theorem isAuthError_iff_status_401 (op : Operation) (w : World) (e : Thrown) :
  fst (invoke op w) = RejectedWith e ->
  exists request : HttpRequest,
    sent (snd (invoke op w)) = (sent w ++ [request])%list
    /\ (isAuthError e = true
        <-> exists r : Response,
              answer w (sent w) request = Resolved r /\ status r = 401%Z).
Proof.
  destruct (invoke_is_a_post op) as (document & _ & Hrun).
  rewrite Hrun, aiCoachFetch_run. cbn [fst snd].
  intro H. eexists. split; [reflexivity |].
  destruct (answer w (sent w) _) as [r | reason].
  - destruct (Response_ok r) eqn:Hok.
    + unfold Response_json in H. destruct (body r); inversion H; subst e.
      cbn [isAuthError]. split; [discriminate |].
      intros (r' & E & S). inversion E; subst r'.
      unfold Response_ok in Hok. rewrite S in Hok. discriminate.
    + inversion H; subst e. cbn [isAuthError]. unfold Client.error_for.
      destruct (Z.eqb_spec (status r) 401) as [E | E].
      * split; [intros _; exists r; split; [reflexivity | exact E] | reflexivity].
      * assert (Hc : class
                       (if (status r =? 429)%Z then new_AICoachRateLimitError
                        else if (status r =? 400)%Z
                        then new_AICoachError
                               (ToString Number_toString (errorDetail_of r)) 400
                               (errorDetail_of r)
                        else if (status r =? 502)%Z
                        then new_AICoachError "Gemini parse hatası" 502
                               (JStr "AI koç geçici bir sorun yaşıyor. Lütfen tekrar deneyin.")
                        else if (status r =? 503)%Z then new_AICoachUnavailableError
                        else new_AICoachError
                               ("HTTP " ++ Number_toString (inject_Z (status r))
                                ++ ": " ++ ToString Number_toString (errorDetail_of r))
                               (status r)
                               (JStr "Bir hata oluştu. Lütfen tekrar deneyin."))
                     <> AICoachAuthError_class).
        { destruct (status r =? 429)%Z; [discriminate |].
          destruct (status r =? 400)%Z; [discriminate |].
          destruct (status r =? 502)%Z; [discriminate |].
          destruct (status r =? 503)%Z; discriminate. }
        destruct (class _) eqn:Hclass; try contradiction;
          (split; [discriminate |]);
          intros (r' & E' & S); inversion E'; subst r'; contradiction.
  - inversion H; subst e. cbn. split; [discriminate |].
    intros (r' & E & _). discriminate E.
Qed.

(** X5. The one request of an operation is a POST to the operation's
    endpoint under /api/ai, with a JSON object as body and exactly two
    headers: the JSON content type and the caller's token as bearer. *)
Theorem operation_request_shape (op : Operation) (w : World) :
  exists (request : HttpRequest) (members : list (string * json)),
    sent (snd (invoke op w)) = (sent w ++ [request])%list
    /\ request_url request = API_BASE_URL ++ "/api/ai" ++ operation_endpoint op
    /\ init_method (request_init request) = Some "POST"
    /\ init_headers (request_init request)
       = Some [("Content-Type", "application/json");
               ("Authorization", "Bearer " ++ operation_token op)]
    /\ init_body (request_init request) = Some (JObj members).
Proof.
  destruct (invoke_is_a_post op) as (document & (members & Hdoc) & Hrun).
  rewrite Hrun, aiCoachFetch_run. subst document.
  eexists. exists members. repeat split.
Qed.

(** X6. [checkAIHealth] sends one GET to /api/ai/health, with no header
    and no body, and does not look at the status: whenever the body is a
    JSON document it is returned as it is, also for a failed response whose
    document is no health status. *)
Theorem checkAIHealth_ignores_status (w : World) (r : Response) (doc : json) :
  answer w (sent w) (healthRequest API_BASE_URL) = Resolved r ->
  body r = JsonText doc ->
  fst (checkAIHealth w) = Fulfilled doc
  /\ sent (snd (checkAIHealth w))
     = (sent w
        ++ [{| request_url := API_BASE_URL ++ "/api/ai/health";
               request_init := {| init_method := Some "GET";
                                  init_headers := None;
                                  init_body := None |} |}])%list.
Proof.
  intros Hanswer Hbody. rewrite checkAIHealth_run, Hanswer.
  unfold Response_json. rewrite Hbody. split; reflexivity.
Qed.

(** X7. The headers [aiCoachFetch] sends: a header the caller's options
    give wins over the default of the same name, and the two defaults are
    sent otherwise. *)
Theorem caller_headers_override_defaults
    (endpoint token : string) (options : RequestInit) (w : World) (name : string) :
  exists (request : HttpRequest) (headers : list (string * string)),
    sent (snd (aiCoachFetch endpoint token options w)) = (sent w ++ [request])%list
    /\ init_headers (request_init request) = Some headers
    /\ assoc name headers
       = match assoc name (rev (match init_headers options with
                                | Some given => given
                                | None => []
                                end)) with
         | Some value => Some value
         | None =>
             if String.eqb "Content-Type" name then Some "application/json"
             else if String.eqb "Authorization" name then Some ("Bearer " ++ token)
             else None
         end.
Proof.
  rewrite aiCoachFetch_run. eexists. eexists.
  split; [reflexivity |]. split; [reflexivity |].
  rewrite assoc_spread. reflexivity.
Qed.

(** X8. The default of a request parameter applies only when the whole
    argument is left out: [getMotivation] sends the trigger user_request
    then, but a request object without a trigger goes out without one; and
    [getWeeklyReport] sends 7 days then, but no days for a request object
    without days. *)
Theorem parameter_defaults_need_omitted_argument (token : string) (w : World) :
  (forall request : option MotivationRequest,
      exists (sent_request : HttpRequest) (doc : json),
        sent (snd (getMotivation token request w)) = (sent w ++ [sent_request])%list
        /\ init_body (request_init sent_request) = Some doc
        /\ member "trigger" doc
           = match request with
             | None => Some (JStr "user_request")
             | Some r =>
                 match trigger r with
                 | Given t => Some (JStr (MotivationTrigger_text t))
                 | _ => None
                 end
             end)
  /\ (forall request : option WeeklyReportRequest,
         exists (sent_request : HttpRequest) (doc : json),
           sent (snd (getWeeklyReport token request w))
           = (sent w ++ [sent_request])%list
           /\ init_body (request_init sent_request) = Some doc
           /\ member "days" doc
              = match request with
                | None => Some (JNum 7)
                | Some r =>
                    match days r with
                    | Given d => Some (JNum d)
                    | _ => None
                    end
                end).
Proof.
  split; intro request.
  - unfold Client.getMotivation. rewrite aiCoachFetch_run.
    eexists. eexists. split; [reflexivity |]. split; [reflexivity |].
    destruct request as [[t note] |]; [| reflexivity].
    destruct t, note; reflexivity.
  - unfold Client.getWeeklyReport. rewrite aiCoachFetch_run.
    eexists. eexists. split; [reflexivity |]. split; [reflexivity |].
    destruct request as [[d] |]; [| reflexivity].
    destruct d; reflexivity.
Qed.

(** X9. When the one request of an operation is answered with a 2xx
    status, the operation returns the body's JSON document unchanged; when
    that body is not JSON, as for an empty 204, it rejects with the
    parser's SyntaxError, which is no AICoachError: the user is shown the
    unexpected-error text and no re-authentication starts. *)
Theorem success_returns_the_document (op : Operation) (w : World) :
  exists request : HttpRequest,
    sent (snd (invoke op w)) = (sent w ++ [request])%list
    /\ forall r : Response,
         answer w (sent w) request = Resolved r ->
         Response_ok r = true ->
         match body r with
         | JsonText doc => fst (invoke op w) = Fulfilled doc
         | NotJson complaint =>
             fst (invoke op w) = RejectedWith (OtherError "SyntaxError" complaint)
             /\ getAIErrorMessage (OtherError "SyntaxError" complaint)
                = JStr "Beklenmeyen bir hata oluştu. Lütfen tekrar deneyin."
             /\ handleAuthError (OtherError "SyntaxError" complaint) = (false, [])
         end.
Proof.
  destruct (invoke_is_a_post op) as (document & _ & Hrun).
  rewrite Hrun, aiCoachFetch_run. cbn [fst snd].
  eexists. split; [reflexivity |].
  intros r Hanswer Hok. rewrite Hanswer, Hok. unfold Response_json.
  destruct (body r); [reflexivity | repeat split].
Qed.

End ClientMore.

(** ** Properties of the account service *)

Section ApiFacts.

Variable API_BASE_URL : string.
Variable Number_toString : Q -> string.
Variable null_complaint : string.

Local Abbreviation run := (Api.run API_BASE_URL Number_toString null_complaint).
Local Abbreviation new_Error := (Api.new_Error Number_toString).

(** Each function sends its one request and settles by the answer. *)
Lemma api_run (c : Api.Call) (w : World) :
  exists request : HttpRequest,
    run c w
    = (match answer w (sent w) request with
       | Rejected reason => RejectedWith reason
       | Resolved r =>
           if Response_ok r then Response_json r
           else
             match body r with
             | NotJson complaint => RejectedWith (OtherError "SyntaxError" complaint)
             | JsonText JNull => RejectedWith (OtherError "TypeError" null_complaint)
             | JsonText doc =>
                 RejectedWith
                   (new_Error (or_else (member "detail" doc)
                                       (JStr (Api.fallback_of c))))
             end
       end,
       after_request w request)
    /\ init_headers (request_init request)
       = Some (match c with
               | Api.Call_registerUser _ | Api.Call_loginUser _ =>
                   [("Content-Type", "application/json")]
               | Api.Call_updateProfile _ _ token =>
                   [("Content-Type", "application/json");
                    ("Authorization", "Bearer " ++ token)]
               | Api.Call_getUser _ token =>
                   [("Authorization", "Bearer " ++ token)]
               end).
Proof.
  destruct c as [data | data | userId data token | userId token];
    cbn [Api.run];
    unfold Api.registerUser, Api.loginUser, Api.updateProfile, Api.getUser,
      Api.throw_detail, bind, fetch, adopt, throw, after_request;
    cbn beta iota zeta;
    match goal with
    | |- context [answer w (sent w) ?q] => exists q
    end;
    (split;
     [ destruct (answer w (sent w) _) as [r | reason]; [| reflexivity];
       destruct (Response_ok r); cbn [negb]; [reflexivity |];
       unfold Response_json;
       destruct (body r) as [doc | complaint]; [| reflexivity];
       destruct doc; reflexivity
     | reflexivity ]).
Qed.

(** X10. A function of the account service never returns on a response
    that is not 2xx.  It throws an [Error] whose message is the body's
    detail when there is one, and the function's own fallback text when the
    body is JSON without one; but a body that is not JSON makes it throw the
    parser's SyntaxError, and the body [null] a TypeError: the fallback text
    is not used then. *)
Theorem account_call_failure (c : Api.Call) (w : World) :
  exists request : HttpRequest,
    sent (snd (run c w)) = (sent w ++ [request])%list
    /\ forall r : Response,
         answer w (sent w) request = Resolved r ->
         Response_ok r = false ->
         match body r with
         | NotJson complaint =>
             fst (run c w) = RejectedWith (OtherError "SyntaxError" complaint)
         | JsonText JNull =>
             fst (run c w) = RejectedWith (OtherError "TypeError" null_complaint)
         | JsonText doc =>
             fst (run c w)
             = RejectedWith
                 (OtherError "Error"
                    (ToString Number_toString
                       (match member "detail" doc with
                        | Some detail =>
                            if truthy detail then detail
                            else JStr (Api.fallback_of c)
                        | None => JStr (Api.fallback_of c)
                        end)))
         end.
Proof.
  destruct (api_run c w) as (request & Hrun & _).
  exists request. rewrite Hrun. cbn [fst snd]. split; [reflexivity |].
  intros r Hanswer Hok. rewrite Hanswer, Hok.
  destruct (body r) as [doc | complaint]; [| reflexivity].
  destruct doc; reflexivity.
Qed.

(** X11. Each function of the account service sends exactly one request.
    When [fetch] rejects, the function rejects with the very value [fetch]
    gave: the account service does not wrap a network failure. *)
Theorem account_call_network_failure (c : Api.Call) (w : World) :
  exists request : HttpRequest,
    sent (snd (run c w)) = (sent w ++ [request])%list
    /\ forall reason : Thrown,
         answer w (sent w) request = Rejected reason ->
         fst (run c w) = RejectedWith reason.
Proof.
  destruct (api_run c w) as (request & Hrun & _).
  exists request. rewrite Hrun. cbn [fst snd]. split; [reflexivity |].
  intros reason Hanswer. rewrite Hanswer. reflexivity.
Qed.

(** X12. Registration and login send no Authorization header; the
    profile update and the user lookup send the caller's token as bearer. *)
Theorem account_call_credentials (c : Api.Call) (w : World) :
  exists (request : HttpRequest) (headers : list (string * string)),
    sent (snd (run c w)) = (sent w ++ [request])%list
    /\ init_headers (request_init request) = Some headers
    /\ assoc "Authorization" headers
       = match Api.token_of c with
         | Some token => Some ("Bearer " ++ token)
         | None => None
         end.
Proof.
  destruct (api_run c w) as (request & Hrun & Hheaders).
  exists request. rewrite Hrun, Hheaders. cbn [fst snd].
  eexists. split; [reflexivity |]. split; [reflexivity |].
  destruct c; reflexivity.
Qed.

End ApiFacts.

(** ** Properties of the coach screen *)

Section CoachScreenFacts.

Import CoachScreen.

Variable API_BASE_URL : string.
Variable Number_toString : Q -> string.
Variable null_complaint : string.

Local Abbreviation aiCoachFetch := (aiCoachFetch API_BASE_URL Number_toString).
Local Abbreviation aiCoachRequest := (aiCoachRequest API_BASE_URL).
Local Abbreviation handleFeedback :=
  (CoachScreen.handleFeedback API_BASE_URL Number_toString null_complaint).
Local Abbreviation loadDailyAdvice :=
  (CoachScreen.loadDailyAdvice API_BASE_URL Number_toString).
Local Abbreviation onFocus := (CoachScreen.onFocus API_BASE_URL Number_toString).
Local Abbreviation loadMotivation :=
  (CoachScreen.loadMotivation API_BASE_URL Number_toString).
Local Abbreviation loadWeeklyReport :=
  (CoachScreen.loadWeeklyReport API_BASE_URL Number_toString).
Local Abbreviation onRefresh := (CoachScreen.onRefresh API_BASE_URL Number_toString).

(** The text shown for an error of the coach service is never empty. *)
Lemma errorDetail_of_truthy (r : Response) : truthy (errorDetail_of r) = true.
Proof.
  unfold errorDetail_of, or_else.
  destruct (body r) as [doc | complaint]; [| reflexivity].
  destruct (member "detail" doc) as [x |]; [| reflexivity].
  destruct (truthy x) eqn:Hx; [exact Hx | reflexivity].
Qed.

Lemma userMessage_error_for_truthy (r : Response) :
  truthy (userMessage (error_for Number_toString r)) = true.
Proof.
  unfold error_for.
  destruct (status r =? 401)%Z; [reflexivity |].
  destruct (status r =? 429)%Z; [reflexivity |].
  destruct (status r =? 400)%Z; [apply errorDetail_of_truthy |].
  destruct (status r =? 502)%Z; [reflexivity |].
  destruct (status r =? 503)%Z; reflexivity.
Qed.

Lemma aiCoachFetch_error_text_truthy
    (endpoint token : string) (options : RequestInit) (w : World) (e : Thrown) :
  fst (aiCoachFetch endpoint token options w) = RejectedWith e ->
  truthy (getAIErrorMessage e) = true.
Proof.
  rewrite aiCoachFetch_run. cbn [fst].
  destruct (answer w (sent w) _) as [r | reason].
  - destruct (Response_ok r).
    + unfold Response_json. destruct (body r); intro H; inversion H. reflexivity.
    + intro H; inversion H. apply userMessage_error_for_truthy.
  - intro H; inversion H. reflexivity.
Qed.

(** The request [handleFeedback] sends for the advice on the screen. *)
Lemma handleFeedback_run (token : option string) (liked : bool) (s : Screen)
    (w : World) (t : string) :
  usable token = Some t ->
  truthy (advice s) = true ->
  feedbackState s = None ->
  exists (request : HttpRequest) (doc : json),
    init_body (request_init request) = Some doc
    /\ member "technique" doc = member "technique" (advice s)
    /\ member "liked" doc = Some (JBool liked)
    /\ member "advice_type" doc = Some (JStr "daily")
    /\ (forall w0, fst (aiCoachFetch "/feedback" t (post doc) w0)
                   = match answer w0 (sent w0) request with
                     | Rejected reason =>
                         RejectedWith
                           (CoachError
                              (new_AICoachError
                                 ("Network hatası: "
                                  ++ Thrown_toString Number_toString reason)
                                 0 (JStr "İnternet bağlantınızı kontrol edin.")))
                     | Resolved r =>
                         if Response_ok r then Response_json r
                         else RejectedWith (CoachError (error_for Number_toString r))
                     end)
    /\ handleFeedback token liked s w
       = (Fulfilled tt,
          setFeedbackLoading false
            (match fst (aiCoachFetch "/feedback" t (post doc) w) with
             | Fulfilled result =>
                 let s1 := setFeedbackState
                             (Some (if liked then liked_feedback
                                    else disliked_feedback))
                             (setFeedbackLoading true s) in
                 if liked then s1
                 else
                   match result with
                   | JNull =>
                       setAlerts
                         (alerts s1
                          ++ [ErrorAlert
                                (getAIErrorMessage
                                   (OtherError "TypeError" null_complaint))])%list
                         s1
                   | _ =>
                       match member "alternative" result with
                       | Some a => if truthy a then setAlternative a s1 else s1
                       | None => s1
                       end
                   end
             | RejectedWith e =>
                 let s0 := setFeedbackLoading true s in
                 if isAuthError e
                 then setAlerts (alerts s0 ++ [SessionExpired])%list s0
                 else setAlerts (alerts s0 ++ [ErrorAlert (getAIErrorMessage e)])%list s0
             end),
          after_request w request).
Proof.
  intros Ht Ha Hf.
  exists (aiCoachRequest "/feedback" t
            (post (JSON_stringify
                     (spread [("advice_type", Some (JStr "daily"))]
                        [("technique", member "technique" (advice s));
                         ("liked", Some (JBool liked));
                         ("advice_type", Some (JStr "daily"))])))).
  eexists. split; [reflexivity |].
  split; [destruct (member "technique" (advice s)); reflexivity |].
  split; [destruct (member "technique" (advice s)); reflexivity |].
  split; [destruct (member "technique" (advice s)); reflexivity |].
  split; [intro w0; rewrite aiCoachFetch_run; reflexivity |].
  unfold CoachScreen.handleFeedback. rewrite Ht, Ha, Hf.
  unfold sendFeedback_object, CoachScreen.bind, try_finally, CoachScreen.try_catch,
    update, await, CoachScreen.ret, CoachScreen.handleAuthError, alert_error.
  rewrite aiCoachFetch_run. cbn [fst snd].
  destruct (answer w (sent w) _) as [r | reason].
  - destruct (Response_ok r).
    + unfold Response_json. destruct (body r) as [doc | complaint].
      * destruct liked; [reflexivity |].
        cbn [negb]. unfold adopt, read_property.
        destruct doc; try reflexivity;
          cbn beta iota zeta;
          match goal with
          | |- context [member "alternative" ?d] =>
              destruct (member "alternative" d) as [a |]; [| reflexivity];
              destruct (truthy a); reflexivity
          end.
      * reflexivity.
    + cbn beta iota zeta.
      destruct (isAuthError (CoachError (error_for Number_toString r)));
        reflexivity.
  - reflexivity.
Qed.

(** The guard of [handleFeedback]. *)
Lemma handleFeedback_skips (token : option string) (liked : bool) (s : Screen)
    (w : World) :
  usable token = None \/ truthy (advice s) = false \/ feedbackState s <> None ->
  handleFeedback token liked s w = (Fulfilled tt, s, w).
Proof.
  intro H. unfold CoachScreen.handleFeedback.
  destruct (usable token) as [t |]; [| reflexivity].
  destruct (truthy (advice s)); [| reflexivity].
  destruct (feedbackState s); [reflexivity |].
  destruct H as [H | [H | H]]; [discriminate | discriminate | contradiction].
Qed.

(** X13. A tap on a feedback button does nothing at all, and sends
    nothing, exactly when there is no token, no advice on the screen, or a
    feedback already given for the advice; in every other case a request
    goes out. *)
Theorem handleFeedback_guard (token : option string) (liked : bool) (s : Screen)
    (w : World) :
  handleFeedback token liked s w = (Fulfilled tt, s, w)
  <-> (usable token = None \/ truthy (advice s) = false \/ feedbackState s <> None).
Proof.
  split; [| apply handleFeedback_skips].
  intro H.
  destruct (usable token) as [t |] eqn:Ht; [| left; reflexivity].
  destruct (truthy (advice s)) eqn:Ha; [| right; left; reflexivity].
  destruct (feedbackState s) as [given |] eqn:Hf; [right; right; discriminate |].
  exfalso.
  destruct (handleFeedback_run token liked s w t Ht Ha Hf)
    as (request & doc & _ & _ & _ & _ & _ & Hrun).
  rewrite Hrun in H.
  pose proof (f_equal (fun x => List.length (sent (snd x))) H) as Hsent.
  cbn [snd after_request sent] in Hsent. rewrite List.length_app in Hsent.
  cbn [List.length] in Hsent. lia.
Qed.

(** X14. One feedback per advice: when the feedback request is answered
    with a 2xx JSON document, the screen records the feedback given, and
    every later tap, like or dislike, sends nothing and changes nothing. *)
Theorem one_feedback_per_advice (token : option string) (liked : bool) (s : Screen)
    (w : World) (t : string) :
  usable token = Some t ->
  truthy (advice s) = true ->
  feedbackState s = None ->
  exists request : HttpRequest,
    sent (snd (handleFeedback token liked s w)) = (sent w ++ [request])%list
    /\ forall doc : json,
         document_of (answer w (sent w) request) = Some doc ->
         let s1 := snd (fst (handleFeedback token liked s w)) in
         let w1 := snd (handleFeedback token liked s w) in
         feedbackState s1
         = Some (if liked then liked_feedback else disliked_feedback)
         /\ feedbackLoading s1 = false
         /\ forall again : bool,
              handleFeedback token again s1 w1 = (Fulfilled tt, s1, w1).
Proof.
  intros Ht Ha Hf.
  destruct (handleFeedback_run token liked s w t Ht Ha Hf)
    as (request & body_doc & _ & _ & _ & _ & Hfetch & Hrun).
  exists request. rewrite Hrun. cbn [fst snd]. split; [reflexivity |].
  intros doc Hdoc. rewrite Hfetch.
  unfold document_of in Hdoc.
  destruct (answer w (sent w) request) as [r | reason]; [| discriminate].
  destruct (Response_ok r); [| discriminate].
  unfold Response_json.
  destruct (body r) as [d | complaint]; [| discriminate].
  assert (Hstate :
           feedbackState
             (setFeedbackLoading false
                (let s1 := setFeedbackState
                             (Some (if liked then liked_feedback
                                    else disliked_feedback))
                             (setFeedbackLoading true s) in
                 if liked then s1
                 else
                   match d with
                   | JNull =>
                       setAlerts
                         (alerts s1
                          ++ [ErrorAlert
                                (getAIErrorMessage
                                   (OtherError "TypeError" null_complaint))])%list
                         s1
                   | _ =>
                       match member "alternative" d with
                       | Some a => if truthy a then setAlternative a s1 else s1
                       | None => s1
                       end
                   end))
           = Some (if liked then liked_feedback else disliked_feedback)).
  { cbn zeta. destruct liked; [reflexivity |].
    destruct d; try reflexivity;
      match goal with
      | |- context [member "alternative" ?x] =>
          destruct (member "alternative" x) as [a |]; [| reflexivity];
          destruct (truthy a); reflexivity
      end. }
  split; [exact Hstate |]. split; [reflexivity |].
  intro again. apply handleFeedback_skips. right. right.
  intro E. pose proof (eq_trans (eq_sym Hstate) E) as C. discriminate C.
Qed.

(** X15. A feedback that fails can be given again: when the request is
    not answered with a 2xx JSON document, no feedback is recorded, the
    advice and the alternative stay as they were, the loading flag is
    cleared, and exactly one alert is raised: the session-expired alert for a
    401, the error alert with the user-facing text otherwise. *)
Theorem failed_feedback_can_be_retried (token : option string) (liked : bool)
    (s : Screen) (w : World) (t : string) :
  usable token = Some t ->
  truthy (advice s) = true ->
  feedbackState s = None ->
  exists request : HttpRequest,
    sent (snd (handleFeedback token liked s w)) = (sent w ++ [request])%list
    /\ (document_of (answer w (sent w) request) = None ->
        let s1 := snd (fst (handleFeedback token liked s w)) in
        feedbackState s1 = None
        /\ feedbackLoading s1 = false
        /\ advice s1 = advice s
        /\ alternative s1 = alternative s
        /\ exists raised : Alert,
             alerts s1 = (alerts s ++ [raised])%list
             /\ (raised = SessionExpired
                 <-> exists r, answer w (sent w) request = Resolved r
                               /\ status r = 401%Z)).
Proof.
  intros Ht Ha Hf.
  destruct (handleFeedback_run token liked s w t Ht Ha Hf)
    as (request & body_doc & _ & _ & _ & _ & Hfetch & Hrun).
  exists request. rewrite Hrun. cbn [fst snd]. split; [reflexivity |].
  intro Hdoc. rewrite Hfetch. unfold document_of in Hdoc.
  destruct (answer w (sent w) request) as [r | reason].
  - destruct (Response_ok r) eqn:Hok.
    + unfold Response_json. destruct (body r) as [d | complaint]; [discriminate |].
      cbn. rewrite Hf. repeat split.
      eexists. split; [reflexivity |].
      split; [discriminate |].
      intros (r' & E & S). inversion E; subst r'.
      unfold Response_ok in Hok. rewrite S in Hok. discriminate.
    + cbn [isAuthError]. unfold error_for.
      destruct (Z.eqb_spec (status r) 401) as [E | E].
      * cbn. rewrite Hf. repeat split.
        eexists. split; [reflexivity |].
        split; [intros _; exists r; split; [reflexivity | exact E] | reflexivity].
      * assert (Hclass : forall e, class e <> AICoachAuthError_class ->
                   (match class e with
                    | AICoachAuthError_class => true
                    | _ => false
                    end) = false)
          by (intros e He; destruct (class e); try reflexivity; contradiction).
        rewrite Hclass.
        -- cbn. rewrite Hf. repeat split.
           eexists. split; [reflexivity |].
           split; [discriminate |].
           intros (r' & E' & S). inversion E'; subst r'. contradiction.
        -- destruct (status r =? 429)%Z; [discriminate |].
           destruct (status r =? 400)%Z; [discriminate |].
           destruct (status r =? 502)%Z; [discriminate |].
           destruct (status r =? 503)%Z; discriminate.
  - cbn. rewrite Hf. repeat split.
    eexists. split; [reflexivity |].
    split; [discriminate |].
    intros (r' & E & _). discriminate E.
Qed.

(** X16. The alternative on the screen changes only after a dislike that
    is answered with a 2xx document holding a non-empty alternative: it
    becomes that alternative.  After a like, or any other answer, it stays
    as it was, whatever the server sent. *)
Theorem alternative_only_after_dislike (token : option string) (liked : bool)
    (s : Screen) (w : World) (t : string) :
  usable token = Some t ->
  truthy (advice s) = true ->
  feedbackState s = None ->
  exists request : HttpRequest,
    sent (snd (handleFeedback token liked s w)) = (sent w ++ [request])%list
    /\ alternative (snd (fst (handleFeedback token liked s w)))
       = if liked then alternative s
         else
           match document_of (answer w (sent w) request) with
           | Some doc =>
               match member "alternative" doc with
               | Some a => if truthy a then a else alternative s
               | None => alternative s
               end
           | None => alternative s
           end.
Proof.
  intros Ht Ha Hf.
  destruct (handleFeedback_run token liked s w t Ht Ha Hf)
    as (request & body_doc & _ & _ & _ & _ & Hfetch & Hrun).
  exists request. rewrite Hrun. cbn [fst snd]. split; [reflexivity |].
  rewrite Hfetch. unfold document_of.
  destruct (answer w (sent w) request) as [r | reason].
  - destruct (Response_ok r).
    + unfold Response_json. destruct (body r) as [d | complaint].
      * destruct liked; [reflexivity |].
        destruct d; try reflexivity;
          cbn zeta;
          match goal with
          | |- context [member "alternative" ?x] =>
              destruct (member "alternative" x) as [a |]; [| reflexivity];
              destruct (truthy a); reflexivity
          end.
      * destruct liked; reflexivity.
    + destruct (isAuthError _); destruct liked; reflexivity.
  - destruct liked; reflexivity.
Qed.

(** How [loadDailyAdvice] ends, by the answer to its one request. *)
Lemma loadDailyAdvice_run (token : option string) (s : Screen) (w : World) (t : string) :
  usable token = Some t ->
  exists request : HttpRequest,
    request = aiCoachRequest "/daily-advice" t (post (JObj []))
    /\ loadDailyAdvice token s w
       = (Fulfilled tt,
          (let s0 := setAlternative JNull
                       (setFeedbackState None
                          (setAdviceError JNull (setAdviceLoading true s))) in
           setAdviceLoading false
             (match fst (aiCoachFetch "/daily-advice" t (post (JObj [])) w) with
              | Fulfilled data => setAdvice data s0
              | RejectedWith e =>
                  if isAuthError e
                  then setAlerts (alerts s0 ++ [SessionExpired])%list s0
                  else setAdviceError (getAIErrorMessage e) s0
              end)),
          after_request w request).
Proof.
  intro Ht. eexists. split; [reflexivity |].
  unfold CoachScreen.loadDailyAdvice. rewrite Ht.
  unfold getDailyAdvice, CoachScreen.bind, try_finally, CoachScreen.try_catch,
    update, await, CoachScreen.ret, CoachScreen.handleAuthError.
  change (JSON_stringify (DailyAdviceRequest_object {| extra_context := Absent |}))
    with (JObj []).
  rewrite aiCoachFetch_run. cbn [fst snd].
  destruct (answer w (sent w) _) as [r | reason]; [| reflexivity].
  destruct (Response_ok r).
  - unfold Response_json. destruct (body r); reflexivity.
  - cbn beta iota zeta.
    destruct (isAuthError (CoachError (error_for Number_toString r))); reflexivity.
Qed.


(** X18. No reload loop: when a load of the daily advice fails with
    anything but a 401, the error text it leaves on the screen keeps the
    focus effect from loading again: the effect sends nothing and changes
    nothing. *)
Theorem focus_does_not_reload_after_error (token : option string) (s : Screen)
    (w : World) (t : string) :
  usable token = Some t ->
  exists request : HttpRequest,
    let s1 := snd (fst (loadDailyAdvice token s w)) in
    let w1 := snd (loadDailyAdvice token s w) in
    sent w1 = (sent w ++ [request])%list
    /\ (document_of (answer w (sent w) request) = None ->
        (forall r, answer w (sent w) request = Resolved r -> status r <> 401%Z) ->
        onFocus token s1 w1 = (Fulfilled tt, s1, w1)).
Proof.
  intro Ht.
  destruct (loadDailyAdvice_run token s w t Ht) as (request & Hreq & Hrun).
  exists request. rewrite Hrun. cbn [fst snd]. subst request.
  split; [reflexivity |].
  intros Hdoc Hnot.
  assert (Herr : forall x, truthy (adviceError x) = true ->
             CoachScreen.onFocus API_BASE_URL Number_toString token x
               (after_request w (aiCoachRequest "/daily-advice" t (post (JObj []))))
             = (Fulfilled tt, x,
                after_request w (aiCoachRequest "/daily-advice" t (post (JObj []))))).
  { intros x Hx. unfold CoachScreen.onFocus. rewrite Hx, andb_false_r. reflexivity. }
  apply Herr.
  rewrite aiCoachFetch_run. cbn [fst]. unfold document_of in Hdoc.
  destruct (answer w (sent w) _) as [r | reason]; [| reflexivity].
  destruct (Response_ok r).
  - unfold Response_json. destruct (body r); [discriminate | reflexivity].
  - assert (Hauth : isAuthError (CoachError (error_for Number_toString r)) = false).
    { cbn [isAuthError]. unfold error_for.
      destruct (Z.eqb_spec (status r) 401) as [E | _];
        [exfalso; exact (Hnot r eq_refl E) |].
      destruct (status r =? 429)%Z; [reflexivity |].
      destruct (status r =? 400)%Z; [reflexivity |].
      destruct (status r =? 502)%Z; [reflexivity |].
      destruct (status r =? 503)%Z; reflexivity. }
    rewrite Hauth. cbn. apply userMessage_error_for_truthy.
Qed.

(** X19. After a 401 the focus effect loads again: the load raises the
    session-expired alert but leaves no error text, so with no advice on
    the screen the effect, run on the screen as the load left it, starts
    the same load and sends the same request a second time. *)
Theorem focus_reloads_after_401 (token : option string) (s : Screen) (w : World)
    (t : string) (r : Response) :
  usable token = Some t ->
  truthy (advice s) = false ->
  answer w (sent w) (aiCoachRequest "/daily-advice" t (post (JObj []))) = Resolved r ->
  status r = 401%Z ->
  let s1 := snd (fst (loadDailyAdvice token s w)) in
  let w1 := snd (loadDailyAdvice token s w) in
  alerts s1 = (alerts s ++ [SessionExpired])%list
  /\ adviceError s1 = JNull
  /\ onFocus token s1 w1 = loadDailyAdvice token s1 w1
  /\ sent (snd (onFocus token s1 w1))
     = (sent w ++ [aiCoachRequest "/daily-advice" t (post (JObj []));
                   aiCoachRequest "/daily-advice" t (post (JObj []))])%list.
Proof.
  intros Ht Ha Hanswer Hstatus.
  destruct (loadDailyAdvice_run token s w t Ht) as (request & Hreq & Hrun).
  subst request. rewrite Hrun. cbn [fst snd].
  rewrite aiCoachFetch_run, Hanswer. cbn [fst].
  assert (Hok : Response_ok r = false)
    by (unfold Response_ok; rewrite Hstatus; reflexivity).
  assert (Hauth : isAuthError (CoachError (error_for Number_toString r)) = true)
    by (unfold error_for; rewrite Hstatus; reflexivity).
  rewrite Hok, Hauth.
  split; [reflexivity |]. split; [reflexivity |].
  assert (Hfocus : forall x w0,
             truthy (advice x) = false -> adviceLoading x = false ->
             adviceError x = JNull ->
             onFocus token x w0 = loadDailyAdvice token x w0).
  { intros x w0 H1 H2 H3. unfold CoachScreen.onFocus. rewrite H1, H2, H3. reflexivity. }
  rewrite Hfocus by (try reflexivity; exact Ha).
  split; [reflexivity |].
  match goal with
  | |- context [loadDailyAdvice token ?x ?w0] =>
      destruct (loadDailyAdvice_run token x w0 t Ht) as (request & Hreq & Hrun')
  end.
  rewrite Hrun'. subst request. cbn [snd after_request sent].
  rewrite <- List.app_assoc. reflexivity.
Qed.

(** How [loadMotivation] ends, by the answer to its one request. *)
Lemma loadMotivation_run (token : option string) (cause : option MotivationTrigger)
    (note : option string) (s : Screen) (w : World) (t : string) :
  usable token = Some t ->
  exists doc : json,
    doc = JObj (("trigger",
                 JStr (MotivationTrigger_text
                         (match cause with Some c => c | None => user_request end)))
                :: match note with
                   | Some n => [("user_note", JStr n)]
                   | None => []
                   end)
    /\ loadMotivation token cause note s w
       = (Fulfilled tt,
          (let s0 := setMotivation JNull
                       (setMotivationVisible true
                          (setMotivationError JNull (setMotivationLoading true s))) in
           setMotivationLoading false
             (match fst (aiCoachFetch "/motivation" t (post doc) w) with
              | Fulfilled data => setMotivation data s0
              | RejectedWith e =>
                  if isAuthError e
                  then setAlerts (alerts s0 ++ [SessionExpired])%list s0
                  else setMotivationError (getAIErrorMessage e) s0
              end)),
          after_request w (aiCoachRequest "/motivation" t (post doc))).
Proof.
  intro Ht. eexists. split; [reflexivity |].
  unfold CoachScreen.loadMotivation. rewrite Ht.
  unfold getMotivation, CoachScreen.bind, try_finally, CoachScreen.try_catch,
    update, await, CoachScreen.ret, CoachScreen.handleAuthError.
  destruct note as [n |];
    (match goal with
     | |- context [JSON_stringify ?o] =>
         let d := eval cbv in (JSON_stringify o) in
         change (JSON_stringify o) with d
     end) || idtac;
    rewrite !aiCoachFetch_run; cbn [fst snd];
    (destruct (answer w (sent w) _) as [r | reason]; [| reflexivity]);
    (destruct (Response_ok r);
     [ unfold Response_json; destruct (body r); reflexivity
     | cbn beta iota zeta;
       destruct (isAuthError (CoachError (error_for Number_toString r)));
       reflexivity ]).
Qed.

(** X20. Without a token, loading a motivation does nothing and sends
    nothing.  With one, the request always names a trigger: the one given,
    or user_request when none is given; the note is sent when there is one
    and left out of the body otherwise.  The load then shows the
    motivation card, clears the loading flag, and puts the answer's
    document or nothing on the screen. *)
Theorem loadMotivation_outcome (token : option string)
    (cause : option MotivationTrigger) (note : option string) (s : Screen)
    (w : World) :
  match usable token with
  | None => loadMotivation token cause note s w = (Fulfilled tt, s, w)
  | Some t =>
      exists (request : HttpRequest) (doc : json),
        let s1 := snd (fst (loadMotivation token cause note s w)) in
        sent (snd (loadMotivation token cause note s w)) = (sent w ++ [request])%list
        /\ request = aiCoachRequest "/motivation" t (post doc)
        /\ request_url request = API_BASE_URL ++ "/api/ai" ++ "/motivation"
        /\ init_body (request_init request) = Some doc
        /\ member "trigger" doc
           = Some (JStr (MotivationTrigger_text
                           (match cause with Some c => c | None => user_request end)))
        /\ member "user_note" doc
           = match note with Some n => Some (JStr n) | None => None end
        /\ motivationVisible s1 = true
        /\ motivationLoading s1 = false
        /\ motivation s1
           = match document_of (answer w (sent w) request) with
             | Some data => data
             | None => JNull
             end
  end.
Proof.
  destruct (usable token) as [t |] eqn:Ht;
    [| unfold CoachScreen.loadMotivation; rewrite Ht; reflexivity].
  destruct (loadMotivation_run token cause note s w t Ht) as (doc & Hdoc & Hrun).
  exists (aiCoachRequest "/motivation" t (post doc)), doc.
  rewrite Hrun. cbn [fst snd after_request sent].
  split; [reflexivity |]. split; [reflexivity |]. split; [reflexivity |].
  split; [reflexivity |].
  split; [subst doc; reflexivity |].
  split; [subst doc; destruct note; reflexivity |].
  rewrite aiCoachFetch_run. cbn [fst]. unfold document_of.
  destruct (answer w (sent w) _) as [r | reason]; [| repeat split].
  destruct (Response_ok r).
  - unfold Response_json. destruct (body r); repeat split.
  - destruct (isAuthError (CoachError (error_for Number_toString r)));
      repeat split.
Qed.

(** How [loadWeeklyReport] ends, by the answer to its one request. *)
Lemma loadWeeklyReport_run (token : option string) (s : Screen) (w : World)
    (t : string) :
  usable token = Some t ->
  loadWeeklyReport token s w
  = (Fulfilled tt,
     (let s0 := setReport JNull
                  (setReportVisible true
                     (setReportError JNull (setReportLoading true s))) in
      setReportLoading false
        (match fst (aiCoachFetch "/weekly-report" t
                      (post (JObj [("days", JNum 7)])) w) with
         | Fulfilled data => setReport data s0
         | RejectedWith e =>
             if isAuthError e
             then setAlerts (alerts s0 ++ [SessionExpired])%list s0
             else setReportError (getAIErrorMessage e) s0
         end)),
     after_request w (aiCoachRequest "/weekly-report" t
                        (post (JObj [("days", JNum 7)])))).
Proof.
  intro Ht.
  unfold CoachScreen.loadWeeklyReport. rewrite Ht.
  unfold getWeeklyReport, CoachScreen.bind, try_finally, CoachScreen.try_catch,
    update, await, CoachScreen.ret, CoachScreen.handleAuthError.
  change (JSON_stringify (WeeklyReportRequest_object {| days := Given 7%Q |}))
    with (JObj [("days", JNum 7)]).
  rewrite !aiCoachFetch_run. cbn [fst snd].
  destruct (answer w (sent w) _) as [r | reason]; [| reflexivity].
  destruct (Response_ok r).
  - unfold Response_json. destruct (body r); reflexivity.
  - cbn beta iota zeta.
    destruct (isAuthError (CoachError (error_for Number_toString r))); reflexivity.
Qed.


(** [onRefresh] is the load of the daily advice between its resets. *)
Lemma onRefresh_run (token : option string) (s : Screen) (w : World) :
  onRefresh token s w
  = match loadDailyAdvice token
            (setReportVisible false
               (setReport JNull
                  (setMotivationVisible false
                     (setMotivation JNull (setAdvice JNull (setRefreshing true s))))))
            w with
    | (Fulfilled _, s1, w1) => (Fulfilled tt, setRefreshing false s1, w1)
    | (RejectedWith e, s1, w1) => (RejectedWith e, s1, w1)
    end.
Proof. reflexivity. Qed.

(** X22. A pull-to-refresh always ends with the refreshing flag cleared
    and the motivation and the report removed and hidden.  Without a token
    it sends nothing and leaves no advice; with one it sends the one
    request of the daily advice, and the advice is the answer's document:
    when that load fails, the advice shown before the refresh is gone. *)
Theorem onRefresh_outcome (token : option string) (s : Screen) (w : World) :
  let s1 := snd (fst (onRefresh token s w)) in
  fst (fst (onRefresh token s w)) = Fulfilled tt
  /\ refreshing s1 = false
  /\ motivation s1 = JNull
  /\ motivationVisible s1 = false
  /\ report s1 = JNull
  /\ reportVisible s1 = false
  /\ match usable token with
     | None => snd (onRefresh token s w) = w /\ advice s1 = JNull
     | Some t =>
         let request := aiCoachRequest "/daily-advice" t (post (JObj [])) in
         sent (snd (onRefresh token s w)) = (sent w ++ [request])%list
         /\ advice s1
            = match document_of (answer w (sent w) request) with
              | Some data => data
              | None => JNull
              end
     end.
Proof.
  cbn zeta. rewrite onRefresh_run.
  destruct (usable token) as [t |] eqn:Ht.
  - match goal with
    | |- context [CoachScreen.loadDailyAdvice _ _ token ?x ?w0] =>
        destruct (loadDailyAdvice_run token x w0 t Ht) as (request & Hreq & Hrun)
    end.
    rewrite Hrun. subst request. cbn [fst snd after_request sent].
    rewrite aiCoachFetch_run. cbn [fst]. unfold document_of.
    destruct (answer w (sent w) _) as [r | reason]; [| repeat split].
    destruct (Response_ok r).
    + unfold Response_json. destruct (body r); repeat split.
    + destruct (isAuthError (CoachError (error_for Number_toString r)));
        repeat split.
  - unfold CoachScreen.loadDailyAdvice. rewrite Ht.
    unfold CoachScreen.ret, update. cbn [fst snd]. repeat split.
Qed.

End CoachScreenFacts.

(** ** Properties of the daily bar chart *)

Section ChartFacts.

Import WeeklyReportCard.

Variable getDay : string -> option Z.
Variable today : string.
Variable Number_toString : Q -> string.

Local Abbreviation DailyBarChart :=
  (WeeklyReportCard.DailyBarChart getDay today Number_toString).

Lemma Math_max_ge_l (a b : Q) : (a <= Math_max a b)%Q.
Proof.
  unfold Math_max. destruct (Num.ltb a b) eqn:E.
  - apply NumFacts.ltb_lt in E. apply Qlt_le_weak. exact E.
  - apply Qle_refl.
Qed.

Lemma Math_max_ge_r (a b : Q) : (b <= Math_max a b)%Q.
Proof.
  unfold Math_max. destruct (Num.ltb a b) eqn:E.
  - apply Qle_refl.
  - unfold Num.ltb in E. apply negb_false_iff in E.
    apply Qle_bool_iff in E. exact E.
Qed.

Lemma Math_max_le (a b c : Q) : (a <= c)%Q -> (b <= c)%Q -> (Math_max a b <= c)%Q.
Proof. intros Ha Hb. unfold Math_max. destruct (Num.ltb a b); assumption. Qed.

Lemma maxMinutes_ge_1 (entries : list (string * Q)) : (1 <= maxMinutes entries)%Q.
Proof.
  unfold maxMinutes. induction entries as [| e rest IH]; cbn [map fold_right].
  - apply Qle_refl.
  - eapply Qle_trans; [exact IH | apply Math_max_ge_r].
Qed.

Lemma maxMinutes_ge (entries : list (string * Q)) (e : string * Q) :
  In e entries -> (snd e <= maxMinutes entries)%Q.
Proof.
  unfold maxMinutes. induction entries as [| x rest IH]; cbn [map fold_right In].
  - intros [].
  - intros [E | H].
    + subst x. apply Math_max_ge_l.
    + eapply Qle_trans; [exact (IH H) | apply Math_max_ge_r].
Qed.

Lemma slice_last_length {A : Type} (n : nat) (l : list A) :
  List.length (slice_last n l) = Nat.min n (List.length l).
Proof. unfold slice_last. rewrite List.length_skipn. lia. Qed.

(** The height of a bar is within the track. *)
Lemma bar_height_bounds (minutes top : Q) :
  (1 <= top)%Q -> (minutes <= top)%Q ->
  (4 <= Math_max (minutes / top * 100) 4)%Q
  /\ (Math_max (minutes / top * 100) 4 <= 100)%Q.
Proof.
  intros Htop Hle. split; [apply Math_max_ge_r |].
  apply Math_max_le; [| discriminate].
  assert (Hpos : (0 < top)%Q) by (eapply Qlt_le_trans; [| exact Htop]; reflexivity).
  assert (H1 : (minutes / top <= 1)%Q).
  { apply NumFacts.div_le_iff; [exact Hpos |]. rewrite Qmult_1_l. exact Hle. }
  setoid_replace 100%Q with (1 * 100)%Q at 2 by reflexivity.
  apply Qmult_le_compat_r; [exact H1 | discriminate].
Qed.

(** X23. The chart has no bars exactly for an empty breakdown.  Otherwise
    it has one bar per entry for the last seven entries at most, in their
    order, and every bar is between 4 and 100 percent high, whatever the
    minutes are; a bar of the largest value is 100 percent high once that
    value is at least one minute. *)
Theorem DailyBarChart_bars (data : list (string * Q)) :
  match DailyBarChart data with
  | None => data = []
  | Some bars =>
      data <> []
      /\ List.length bars = Nat.min 7 (List.length data)
      /\ map bar_key bars = map fst (slice_last 7 data)
      /\ Forall (fun b => (4 <= bar_height b)%Q /\ (bar_height b <= 100)%Q) bars
      /\ forall i key minutes,
           nth_error (slice_last 7 data) i = Some (key, minutes) ->
           (1 <= minutes)%Q ->
           (forall e, In e (slice_last 7 data) -> (snd e <= minutes)%Q) ->
           exists b, nth_error bars i = Some b /\ (bar_height b == 100)%Q
  end.
Proof.
  unfold WeeklyReportCard.DailyBarChart. cbn zeta.
  pose proof (slice_last_length 7 data) as Hlen.
  destruct (slice_last 7 data) as [| e rest] eqn:Hslice.
  - cbn [List.length] in Hlen. destruct data; [reflexivity |].
    cbn [List.length] in Hlen. lia.
  - split; [intro E; subst data; discriminate Hslice |].
    split; [rewrite List.length_map; exact Hlen |].
    split.
    { rewrite map_map. apply map_ext. intros [k m]. reflexivity. }
    split.
    { apply Forall_forall. intros b Hb. apply in_map_iff in Hb.
      destruct Hb as ([k m] & Eb & Hin). subst b. cbn [bar_height].
      apply bar_height_bounds; [apply maxMinutes_ge_1 |].
      exact (maxMinutes_ge (e :: rest) (k, m) Hin). }
    intros i key minutes Hnth Hone Htop.
    rewrite nth_error_map, Hnth. cbn [option_map].
    eexists. split; [reflexivity |]. cbn [bar_height].
    assert (Hmax : (maxMinutes (e :: rest) == minutes)%Q).
    { apply Qle_antisym.
      - unfold maxMinutes.
        assert (Hall : forall l : list (string * Q),
                   (forall x, In x l -> (snd x <= minutes)%Q) ->
                   (fold_right Math_max 1 (map snd l) <= minutes)%Q).
        { induction l as [| x l IH]; cbn [map fold_right]; intro H.
          - exact Hone.
          - apply Math_max_le; [apply H; left; reflexivity |].
            apply IH. intros y Hy. apply H. right. exact Hy. }
        apply Hall. exact Htop.
      - apply (maxMinutes_ge (e :: rest) (key, minutes)).
        eapply nth_error_In. exact Hnth. }
    assert (Hpos : (0 < minutes)%Q)
      by (eapply Qlt_le_trans; [| exact Hone]; reflexivity).
    assert (Hq : (minutes / maxMinutes (e :: rest) * 100 == 100)%Q).
    { rewrite Hmax. field. intro Hz. rewrite Hz in Hpos. discriminate Hpos. }
    unfold Math_max.
    destruct (Num.ltb (minutes / maxMinutes (e :: rest) * 100) 4) eqn:E.
    + apply NumFacts.ltb_lt in E. rewrite Hq in E. discriminate E.
    + exact Hq.
Qed.

End ChartFacts.

(** ** Properties of the redirect *)

(** X24. The redirect settles: at the route it sends the user to, the
    same effect with the same session redirects no further.  While the
    session is loading it never redirects, and a user who is not
    authenticated is sent to /login from every place outside the group
    (auth). *)
Theorem redirect_settles (isLoading isAuthenticated : bool) (user : json)
    (segments : list string) :
  match RootLayout.redirect isLoading isAuthenticated user segments with
  | Some route =>
      isLoading = false
      /\ In route ["/login"; "/complete-profile"; "/(tabs)"]
      /\ RootLayout.redirect isLoading isAuthenticated user
           (RootLayout.segments_at route) = None
  | None =>
      isLoading = false -> isAuthenticated = false ->
      RootLayout.first_segment_is "(auth)" segments = true
  end.
Proof.
  unfold RootLayout.redirect.
  destruct isLoading; [intro H; discriminate H |].
  destruct isAuthenticated; cbn [negb].
  - destruct (truthy user
              && negb (match member "is_profile_complete" user with
                       | Some complete => truthy complete
                       | None => false
                       end)).
    + destruct (RootLayout.first_segment_is "complete-profile" segments);
        cbn [negb]; [intros _ H; discriminate H |].
      split; [reflexivity |]. split; [right; left; reflexivity | reflexivity].
    + destruct (RootLayout.first_segment_is "(auth)" segments
                || RootLayout.first_segment_is "complete-profile" segments);
        [| intros _ H; discriminate H].
      split; [reflexivity |].
      split; [right; right; left; reflexivity | reflexivity].
  - destruct (RootLayout.first_segment_is "(auth)" segments); cbn [negb];
      [intros _ _; reflexivity |].
    split; [reflexivity |]. split; [left; reflexivity | reflexivity].
Qed.

(** ** Properties of the session context *)

Section AuthFacts.

Import Auth.

Variable JSON_text : json -> string.
Variable JSON_parse : string -> Settled json.

Local Abbreviation loadStoredAuth := (Auth.loadStoredAuth JSON_parse).
Local Abbreviation login := (Auth.login JSON_text).

Lemma present_true (text : string) : text <> EmptyString -> present (Some text) = true.
Proof.
  intro H. cbn [present]. destruct (String.eqb_spec text EmptyString) as [E | _];
    [contradiction | reflexivity].
Qed.

(** How [loadStoredAuth] runs when the two reads succeed. *)
Lemma loadStoredAuth_run (s : Session) (d : Device) :
  failure d (calls d) (GetItem TOKEN) = None ->
  failure d (calls d ++ [GetItem TOKEN])%list (GetItem USER) = None ->
  loadStoredAuth s d
  = (Fulfilled tt,
     setIsLoading false
       (if present (assoc TOKEN (items d)) && present (assoc USER (items d))
        then
          match JSON_parse (match assoc USER (items d) with
                            | Some text => text
                            | None => EmptyString
                            end) with
          | Fulfilled parsed => setUser parsed (setToken (assoc TOKEN (items d)) s)
          | RejectedWith _ => setToken (assoc TOKEN (items d)) s
          end
        else s),
     {| items := items d;
        calls := (calls d ++ [GetItem TOKEN; GetItem USER])%list;
        failure := failure d |}).
Proof.
  intros H1 H2.
  unfold Auth.loadStoredAuth, try_finally, Auth.try_catch, Auth.bind, getItem,
    storage, update, Auth.ret.
  cbn [items calls failure]. rewrite H1. cbn [items calls failure]. rewrite H2.
  rewrite <- List.app_assoc. cbn [List.app].
  destruct (present (assoc TOKEN (items d)) && present (assoc USER (items d)));
    [| reflexivity].
  destruct (JSON_parse _); reflexivity.
Qed.

(** X25. A login survives a restart: when the two writes succeed, [login]
    sets the token and the user, and [loadStoredAuth], run from the
    provider's first state on the device as the login left it, restores
    the same token and the user, for a token that is not empty and a user
    whose text parses back to it. *)
Theorem login_then_restart (access_token : string) (userData : json) (s : Session)
    (d : Device) :
  reliable d ->
  access_token <> EmptyString ->
  JSON_text userData <> EmptyString ->
  JSON_parse (JSON_text userData) = Fulfilled userData ->
  let after := login access_token userData s d in
  fst (fst after) = Fulfilled tt
  /\ snd (fst after) = setUser userData (setToken (Some access_token) s)
  /\ fst (fst (loadStoredAuth initial (snd after))) = Fulfilled tt
  /\ snd (fst (loadStoredAuth initial (snd after)))
     = {| user := userData; token := Some access_token; isLoading := false |}.
Proof.
  intros Hd Ht Hu Hparse. cbn zeta.
  assert (Hlogin :
            login access_token userData s d
            = (Fulfilled tt, setUser userData (setToken (Some access_token) s),
               {| items := define_property USER (JSON_text userData)
                             (define_property TOKEN access_token (items d));
                  calls := (calls d ++ [SetItem TOKEN access_token;
                                        SetItem USER (JSON_text userData)])%list;
                  failure := failure d |})).
  { unfold Auth.login, Auth.try_catch, Auth.bind, setItem, storage, update.
    cbn [items calls failure]. rewrite !Hd. cbn [items calls failure].
    rewrite !Hd. rewrite <- List.app_assoc. reflexivity. }
  rewrite Hlogin. cbn [fst snd].
  split; [reflexivity |]. split; [reflexivity |].
  rewrite loadStoredAuth_run by apply Hd. cbn [fst snd items].
  rewrite !assoc_define_property.
  change (String.eqb USER TOKEN) with false.
  change (String.eqb USER USER) with true.
  change (String.eqb TOKEN TOKEN) with true.
  cbv beta iota.
  rewrite !present_true by assumption. cbn [andb].
  rewrite Hparse. split; reflexivity.
Qed.

(** X26. [loadStoredAuth] never rejects and always clears the loading
    flag, also when the storage fails, and it leaves the stored items as
    they are.  When a stored user does not parse, the token has been set
    before the parse throws: the session ends with the stored token and
    no new user. *)
Theorem loadStoredAuth_outcome (s : Session) (d : Device) :
  fst (fst (loadStoredAuth s d)) = Fulfilled tt
  /\ isLoading (snd (fst (loadStoredAuth s d))) = false
  /\ items (snd (loadStoredAuth s d)) = items d
  /\ forall (storedToken storedUser : string) (e : Thrown),
       failure d (calls d) (GetItem TOKEN) = None ->
       failure d (calls d ++ [GetItem TOKEN])%list (GetItem USER) = None ->
       assoc TOKEN (items d) = Some storedToken ->
       storedToken <> EmptyString ->
       assoc USER (items d) = Some storedUser ->
       storedUser <> EmptyString ->
       JSON_parse storedUser = RejectedWith e ->
       token (snd (fst (loadStoredAuth s d))) = Some storedToken
       /\ user (snd (fst (loadStoredAuth s d))) = user s.
Proof.
  destruct (failure d (calls d) (GetItem TOKEN)) as [e1 |] eqn:H1.
  { unfold Auth.loadStoredAuth, try_finally, Auth.try_catch, Auth.bind, getItem,
      storage, update, Auth.ret.
    cbn [items calls failure]. rewrite H1. cbn [fst snd items isLoading setIsLoading].
    split; [reflexivity |]. split; [reflexivity |]. split; [reflexivity |].
    intros ? ? ? C. discriminate C. }
  destruct (failure d (calls d ++ [GetItem TOKEN])%list (GetItem USER))
    as [e2 |] eqn:H2.
  { unfold Auth.loadStoredAuth, try_finally, Auth.try_catch, Auth.bind, getItem,
      storage, update, Auth.ret.
    cbn [items calls failure]. rewrite H1. cbn [items calls failure]. rewrite H2.
    cbn [fst snd items isLoading setIsLoading].
    split; [reflexivity |]. split; [reflexivity |]. split; [reflexivity |].
    intros ? ? ? _ C. discriminate C. }
  rewrite (loadStoredAuth_run s d H1 H2). cbn [fst snd items].
  split; [reflexivity |]. split; [reflexivity |]. split; [reflexivity |].
  intros storedToken storedUser e _ _ Ht Hnt Hu Hnu Hparse.
  rewrite Ht, Hu, !present_true by assumption. cbn [andb].
  rewrite Hparse. split; reflexivity.
Qed.

(** X27. [logout] never rejects.  When the removal succeeds the session
    has no token and no user, neither is stored any more, every other item
    is kept, and a restart restores nothing; when the removal fails the
    session and the stored items stay as they were. *)
Theorem logout_outcome (s : Session) (d : Device) :
  fst (fst (logout s d)) = Fulfilled tt
  /\ match failure d (calls d) (MultiRemove [TOKEN; USER]) with
     | None =>
         snd (fst (logout s d)) = setUser JNull (setToken None s)
         /\ assoc TOKEN (items (snd (logout s d))) = None
         /\ assoc USER (items (snd (logout s d))) = None
         /\ (forall key, key <> TOKEN -> key <> USER ->
                         assoc key (items (snd (logout s d))) = assoc key (items d))
         /\ (reliable d ->
             snd (fst (loadStoredAuth initial (snd (logout s d))))
             = {| user := JNull; token := None; isLoading := false |})
     | Some _ =>
         snd (fst (logout s d)) = s /\ items (snd (logout s d)) = items d
     end.
Proof.
  unfold logout, Auth.try_catch, Auth.bind, multiRemove, storage, update, Auth.ret.
  destruct (failure d (calls d) (MultiRemove [TOKEN; USER])) as [e |] eqn:Hf;
    cbn [fst snd items]; (split; [reflexivity |]); [split; reflexivity |].
  split; [reflexivity |].
  assert (Hremoved : forall key,
             assoc key (filter (fun kv : string * string =>
                                  negb (existsb (String.eqb (fst kv)) [TOKEN; USER]))
                          (items d))
             = if existsb (String.eqb key) [TOKEN; USER] then None
               else assoc key (items d)).
  { intro key. induction (items d) as [| [k v] rest IH]; cbn [filter assoc fst].
    - destruct (existsb (String.eqb key) [TOKEN; USER]); reflexivity.
    - destruct (existsb (String.eqb k) [TOKEN; USER]) eqn:Hk; cbn [negb assoc].
      + rewrite IH. destruct (String.eqb_spec k key) as [E | _]; [| reflexivity].
        subst k. rewrite Hk. reflexivity.
      + destruct (String.eqb_spec k key) as [E | _]; [| exact IH].
        subst k. rewrite Hk. reflexivity. }
  split; [rewrite Hremoved; reflexivity |].
  split; [rewrite Hremoved; reflexivity |].
  split.
  { intros key H1 H2. rewrite Hremoved. cbn [existsb].
    destruct (String.eqb_spec key TOKEN) as [E | _]; [contradiction |].
    destruct (String.eqb_spec key USER) as [E | _]; [contradiction |].
    reflexivity. }
  intro Hd. rewrite loadStoredAuth_run by apply Hd. cbn [fst snd items].
  rewrite !Hremoved. reflexivity.
Qed.

(** X28. A login whose second write fails rejects with the storage's
    error and leaves the session as it was, but the new token is stored
    already, beside the user that was stored before. *)
Theorem login_failure_leaves_token (access_token : string) (userData : json)
    (s : Session) (d : Device) (e : Thrown) :
  failure d (calls d) (SetItem TOKEN access_token) = None ->
  failure d (calls d ++ [SetItem TOKEN access_token])%list
    (SetItem USER (JSON_text userData)) = Some e ->
  fst (fst (login access_token userData s d)) = RejectedWith e
  /\ snd (fst (login access_token userData s d)) = s
  /\ assoc TOKEN (items (snd (login access_token userData s d))) = Some access_token
  /\ assoc USER (items (snd (login access_token userData s d)))
     = assoc USER (items d).
Proof.
  intros H1 H2.
  unfold Auth.login, Auth.try_catch, Auth.bind, setItem, storage, update, Auth.throw.
  cbn [items calls failure]. rewrite H1. cbn [items calls failure]. rewrite H2.
  cbn [fst snd items]. rewrite !assoc_define_property.
  change (String.eqb TOKEN TOKEN) with true.
  change (String.eqb TOKEN USER) with false.
  repeat split.
Qed.

End AuthFacts.

(** ** Properties of the Pomodoro timer *)

Module PomodoroFacts.

Import Pomodoro.

(** The state [s] with another time on the display. *)
Local Abbreviation showing s m sec ms :=
  (setMilliseconds ms (setSeconds sec (setMinutes m s))).

(** One callback while time is left takes one tenth off the display and
    changes nothing else. *)
Lemma tick_counts_down (s : Timer) :
  shows_a_time s -> (0 < remaining s)%Z ->
  exists m sec ms : Z,
    tick s s = (showing s m sec ms, false)
    /\ (0 <= ms <= 9)%Z /\ (0 <= sec <= 59)%Z /\ (0 <= m)%Z
    /\ (600 * m + 10 * sec + ms = remaining s - 1)%Z.
Proof.
  unfold shows_a_time, remaining, tick. intros (Hms & Hsec & Hmin) Hpos.
  destruct s as [m sec ms active md locked done streak work short breaks long
                   interval longs auto].
  cbn [minutes seconds milliseconds] in *.
  destruct (Z.gtb_spec ms 0) as [H1 | H1].
  - exists m, sec, (ms - 1)%Z. split; [reflexivity | lia].
  - destruct (Z.gtb_spec sec 0) as [H2 | H2].
    + exists m, (sec - 1)%Z, 9%Z. split; [reflexivity | lia].
    + destruct (Z.gtb_spec m 0) as [H3 | H3].
      * exists (m - 1)%Z, 59%Z, 9%Z. split; [reflexivity | lia].
      * lia.
Qed.

Lemma remaining_showing (s : Timer) (m sec ms : Z) :
  remaining (showing s m sec ms) = (600 * m + 10 * sec + ms)%Z.
Proof. destruct s; reflexivity. Qed.

Lemma showing_showing (s : Timer) (m1 sec1 ms1 m sec ms : Z) :
  showing (showing s m1 sec1 ms1) m sec ms = showing s m sec ms.
Proof. destruct s; reflexivity. Qed.

Lemma shows_a_time_showing (s : Timer) (m sec ms : Z) :
  (0 <= ms <= 9)%Z -> (0 <= sec <= 59)%Z -> (0 <= m)%Z ->
  shows_a_time (showing s m sec ms).
Proof. intros H1 H2 H3. destruct s. unfold shows_a_time. repeat split; tauto. Qed.

(** The callbacks while time is left. *)
Lemma ticks_count_down (n : nat) (s : Timer) :
  shows_a_time s -> (Z.of_nat n <= remaining s)%Z ->
  exists m sec ms : Z,
    ticks n s = showing s m sec ms
    /\ (0 <= ms <= 9)%Z /\ (0 <= sec <= 59)%Z /\ (0 <= m)%Z
    /\ (600 * m + 10 * sec + ms = remaining s - Z.of_nat n)%Z.
Proof.
  revert s. induction n as [| n IH]; intros s Hs Hn.
  - exists (minutes s), (seconds s), (milliseconds s).
    split; [destruct s; reflexivity |].
    unfold shows_a_time, remaining in *. lia.
  - destruct (tick_counts_down s Hs) as (m1 & sec1 & ms1 & Htick & H1 & H2 & H3 & Hr);
      [lia |].
    change (ticks (S n) s) with (ticks n (fst (tick s s))).
    rewrite Htick. cbn [fst].
    destruct (IH (showing s m1 sec1 ms1)) as (m & sec & ms & Hticks & H4 & H5 & H6 & Hr').
    + apply shows_a_time_showing; assumption.
    + rewrite remaining_showing. lia.
    + exists m, sec, ms. rewrite Hticks, showing_showing.
      split; [reflexivity |].
      rewrite remaining_showing in Hr'. lia.
Qed.

(** X29. The countdown is exact: on a display that shows a time, [n]
    callbacks of the interval, for [n] up to the tenths of a second left,
    take exactly [n] tenths off, keep the display a time, and change
    nothing else: no mode, counter or setting.  So the display reaches
    zero after as many callbacks as there were tenths, and not before. *)
Theorem countdown_is_exact (n : nat) (s : Timer) :
  shows_a_time s ->
  (Z.of_nat n <= remaining s)%Z ->
  shows_a_time (ticks n s)
  /\ remaining (ticks n s) = (remaining s - Z.of_nat n)%Z
  /\ (remaining (ticks n s) = 0%Z <-> Z.of_nat n = remaining s)
  /\ ticks n s
     = showing s (minutes (ticks n s)) (seconds (ticks n s))
                 (milliseconds (ticks n s)).
Proof.
  intros Hs Hn.
  destruct (ticks_count_down n s Hs Hn) as (m & sec & ms & Hticks & H1 & H2 & H3 & Hr).
  rewrite Hticks.
  assert (Hrem : remaining (showing s m sec ms) = (remaining s - Z.of_nat n)%Z)
    by (rewrite remaining_showing; exact Hr).
  split; [apply shows_a_time_showing; assumption |].
  split; [exact Hrem |].
  split; [rewrite Hrem; lia |].
  destruct s; reflexivity.
Qed.

(** X30. A session ends one callback after its last tenth.  On a display
    that shows a time, the callback that follows the countdown completes
    the session: after work it counts one more pomodoro and streak and
    shows the break, the long one exactly when long breaks are on and the
    interval divides the new count, or work again when breaks are off;
    after a break it shows work and counts nothing.  The display then
    shows the full duration of the new mode, and the timer is stopped
    unless auto start is on, in which case the timeout is set. *)
Theorem session_completes (s : Timer) :
  shows_a_time s ->
  let last := ticks (Z.to_nat (remaining s)) s in
  let s' := fst (tick last last) in
  let next :=
    match mode s with
    | WORK =>
        if breaksEnabled s
        then if longBreaksEnabled s
                && divides (longBreakInterval s) (completedPomodoros s + 1)
             then LONG_BREAK else SHORT_BREAK
        else WORK
    | _ => WORK
    end in
  remaining last = 0%Z
  /\ mode s' = next
  /\ minutes s' = match next with
                  | WORK => workDuration s
                  | SHORT_BREAK => shortBreakDuration s
                  | LONG_BREAK => longBreakDuration s
                  end
  /\ seconds s' = 0%Z
  /\ milliseconds s' = 0%Z
  /\ completedPomodoros s'
     = (match mode s with
        | WORK => completedPomodoros s + 1
        | _ => completedPomodoros s
        end)%Z
  /\ currentStreak s'
     = (match mode s with
        | WORK => currentStreak s + 1
        | _ => currentStreak s
        end)%Z
  /\ snd (tick last last) = autoStart s
  /\ isActive s'
     = (autoStart s
        && match mode s with
           | WORK => breaksEnabled s && isActive s
           | _ => isActive s
           end).
Proof.
  intro Hs. cbn zeta.
  assert (Hn : (Z.of_nat (Z.to_nat (remaining s)) <= remaining s)%Z).
  { unfold shows_a_time, remaining in *. lia. }
  destruct (ticks_count_down _ s Hs Hn) as (m & sec & ms & Hticks & H1 & H2 & H3 & Hr).
  assert (Hz : m = 0%Z /\ sec = 0%Z /\ ms = 0%Z).
  { unfold shows_a_time, remaining in *. lia. }
  destruct Hz as (-> & -> & ->). rewrite Hticks.
  destruct s as [m sec ms active md locked done streak work short breaks long
                   interval longs auto].
  unfold tick, handleTimerComplete, remaining.
  cbn [minutes seconds milliseconds mode breaksEnabled longBreaksEnabled
       longBreakInterval completedPomodoros autoStart setMilliseconds setSeconds
       setMinutes workDuration shortBreakDuration longBreakDuration currentStreak
       isActive isInteractionLocked Z.gtb Z.compare].
  split; [reflexivity |].
  destruct md; cbn [mode].
  - destruct breaks; cbn [andb].
    + destruct (longs && divides interval (done + 1)); destruct auto;
        repeat split; cbn; try reflexivity; destruct active; reflexivity.
    + destruct auto; repeat split.
  - destruct auto; repeat split; cbn; destruct active; reflexivity.
  - destruct auto; repeat split; cbn; destruct active; reflexivity.
Qed.

End PomodoroFacts.

(** ** The further statements on concrete inputs *)

Lemma failure_text_depends_on_status_only_witness :
  exists e1 e2 : AICoachError,
    fst
      (aiCoachFetch Sample.base_url Sample.number_text "/daily-advice" "token"
         (post (JObj [])) (Sample.replying Sample.schema_violation)) =
    RejectedWith (CoachError e1) /\
    fst
      (aiCoachFetch Sample.base_url Sample.number_text "/feedback" "other"
         (post (JObj [])) (Sample.replying Sample.proxy_error_page)) =
    RejectedWith (CoachError e2) /\
    getAIErrorMessage (CoachError e1) = getAIErrorMessage (CoachError e2) /\
    class e1 = class e2 /\ In (getAIErrorMessage (CoachError e1)) fixed_user_messages.
Proof.
  apply (failure_text_depends_on_status_only
           Sample.base_url Sample.number_text "/daily-advice" "token"
           (post (JObj [])) (Sample.replying Sample.schema_violation)
           Sample.schema_violation "/feedback" "other" (post (JObj []))
           (Sample.replying Sample.proxy_error_page) Sample.proxy_error_page).
  - reflexivity.
  - reflexivity.
  - reflexivity.
  - reflexivity.
  - discriminate.
Defined.

Lemma isAuthError_iff_status_401_witness :
  exists request : HttpRequest,
    sent
      (snd
         (invoke Sample.base_url Sample.number_text (Call_getDailyAdvice "token" None)
            (Sample.replying Example.unauthorized))) =
    (sent (Sample.replying Example.unauthorized) ++ [request])%list /\
    (isAuthError (CoachError new_AICoachAuthError) = true <->
     exists r : Response,
       answer (Sample.replying Example.unauthorized)
         (sent (Sample.replying Example.unauthorized)) request =
       Resolved r /\ status r = 401%Z).
Proof.
  apply (isAuthError_iff_status_401
           Sample.base_url Sample.number_text
           (Call_getDailyAdvice "token" None)
           (Sample.replying Example.unauthorized)
           (CoachError new_AICoachAuthError)).
  - reflexivity.
Defined.

Lemma checkAIHealth_ignores_status_witness :
  fst (checkAIHealth Sample.base_url (Sample.replying Sample.schema_violation)) =
  Fulfilled (JObj [("detail", JStr "model output: {technique: 42}")]) /\
  sent (snd (checkAIHealth Sample.base_url (Sample.replying Sample.schema_violation))) =
  (sent (Sample.replying Sample.schema_violation) ++
   [{|
      request_url := Sample.base_url ++ "/api/ai/health";
      request_init :=
        {| init_method := Some "GET"; init_headers := None; init_body := None |}
    |}])%list.
Proof.
  apply (checkAIHealth_ignores_status
           Sample.base_url (Sample.replying Sample.schema_violation)
           Sample.schema_violation
           (JObj [("detail", JStr "model output: {technique: 42}")])).
  - reflexivity.
  - reflexivity.
Defined.

Lemma one_feedback_per_advice_witness :
  exists request : HttpRequest,
    sent
      (snd
         (CoachScreen.handleFeedback Sample.base_url Sample.number_text
            Example.null_complaint Example.token false Example.with_advice
            (Sample.replying Example.feedback_saved))) =
    (sent (Sample.replying Example.feedback_saved) ++ [request])%list /\
    (forall doc : json,
     CoachScreen.document_of
       (answer (Sample.replying Example.feedback_saved)
          (sent (Sample.replying Example.feedback_saved)) request) =
     Some doc ->
     let s1 :=
       snd
         (fst
            (CoachScreen.handleFeedback Sample.base_url Sample.number_text
               Example.null_complaint Example.token false Example.with_advice
               (Sample.replying Example.feedback_saved)))
       in
     let w1 :=
       snd
         (CoachScreen.handleFeedback Sample.base_url Sample.number_text
            Example.null_complaint Example.token false Example.with_advice
            (Sample.replying Example.feedback_saved))
       in
     CoachScreen.feedbackState s1 = Some CoachScreen.disliked_feedback /\
     CoachScreen.feedbackLoading s1 = false /\
     (forall again : bool,
      CoachScreen.handleFeedback Sample.base_url Sample.number_text Example.null_complaint
        Example.token again s1 w1 =
      (Fulfilled tt, s1, w1))).
Proof.
  apply (one_feedback_per_advice
           Sample.base_url Sample.number_text Example.null_complaint
           Example.token false Example.with_advice
           (Sample.replying Example.feedback_saved) Example.token_text).
  - reflexivity.
  - reflexivity.
  - reflexivity.
Defined.

Lemma failed_feedback_can_be_retried_witness :
  exists request : HttpRequest,
    sent
      (snd
         (CoachScreen.handleFeedback Sample.base_url Sample.number_text
            Example.null_complaint Example.token true Example.with_advice
            (Sample.replying Example.unavailable))) =
    (sent (Sample.replying Example.unavailable) ++ [request])%list /\
    (CoachScreen.document_of
       (answer (Sample.replying Example.unavailable)
          (sent (Sample.replying Example.unavailable)) request) =
     None ->
     let s1 :=
       snd
         (fst
            (CoachScreen.handleFeedback Sample.base_url Sample.number_text
               Example.null_complaint Example.token true Example.with_advice
               (Sample.replying Example.unavailable)))
       in
     CoachScreen.feedbackState s1 = None /\
     CoachScreen.feedbackLoading s1 = false /\
     CoachScreen.advice s1 = CoachScreen.advice Example.with_advice /\
     CoachScreen.alternative s1 = CoachScreen.alternative Example.with_advice /\
     exists raised : CoachScreen.Alert,
       CoachScreen.alerts s1 = (CoachScreen.alerts Example.with_advice ++ [raised])%list /\
       (raised = CoachScreen.SessionExpired <->
        exists r : Response,
          answer (Sample.replying Example.unavailable)
            (sent (Sample.replying Example.unavailable)) request =
          Resolved r /\ status r = 401%Z)).
Proof.
  apply (failed_feedback_can_be_retried
           Sample.base_url Sample.number_text Example.null_complaint
           Example.token true Example.with_advice
           (Sample.replying Example.unavailable) Example.token_text).
  - reflexivity.
  - reflexivity.
  - reflexivity.
Defined.

Lemma alternative_only_after_dislike_witness :
  exists request : HttpRequest,
    sent
      (snd
         (CoachScreen.handleFeedback Sample.base_url Sample.number_text
            Example.null_complaint Example.token false Example.with_advice
            (Sample.replying Example.feedback_saved))) =
    (sent (Sample.replying Example.feedback_saved) ++ [request])%list /\
    CoachScreen.alternative
      (snd
         (fst
            (CoachScreen.handleFeedback Sample.base_url Sample.number_text
               Example.null_complaint Example.token false Example.with_advice
               (Sample.replying Example.feedback_saved)))) =
    match
      CoachScreen.document_of
        (answer (Sample.replying Example.feedback_saved)
           (sent (Sample.replying Example.feedback_saved)) request)
    with
    | Some doc =>
        match member "alternative" doc with
        | Some a => if truthy a then a else CoachScreen.alternative Example.with_advice
        | None => CoachScreen.alternative Example.with_advice
        end
    | None => CoachScreen.alternative Example.with_advice
    end.
Proof.
  apply (alternative_only_after_dislike
           Sample.base_url Sample.number_text Example.null_complaint
           Example.token false Example.with_advice
           (Sample.replying Example.feedback_saved) Example.token_text).
  - reflexivity.
  - reflexivity.
  - reflexivity.
Defined.


Lemma focus_does_not_reload_after_error_witness :
  exists request : HttpRequest,
    let s1 :=
      snd
        (fst
           (CoachScreen.loadDailyAdvice Sample.base_url Sample.number_text Example.token
              CoachScreen.initial Sample.offline))
      in
    let w1 :=
      snd
        (CoachScreen.loadDailyAdvice Sample.base_url Sample.number_text Example.token
           CoachScreen.initial Sample.offline)
      in
    sent w1 = (sent Sample.offline ++ [request])%list /\
    (CoachScreen.document_of (answer Sample.offline (sent Sample.offline) request) = None ->
     (forall r : Response,
      answer Sample.offline (sent Sample.offline) request = Resolved r ->
      status r <> 401%Z) ->
     CoachScreen.onFocus Sample.base_url Sample.number_text Example.token s1 w1 =
     (Fulfilled tt, s1, w1)).
Proof.
  apply (focus_does_not_reload_after_error
           Sample.base_url Sample.number_text Example.token CoachScreen.initial
           Sample.offline Example.token_text).
  - reflexivity.
Defined.

Lemma focus_reloads_after_401_witness :
  let s1 :=
    snd
      (fst
         (CoachScreen.loadDailyAdvice Sample.base_url Sample.number_text Example.token
            CoachScreen.initial (Sample.replying Example.unauthorized)))
    in
  let w1 :=
    snd
      (CoachScreen.loadDailyAdvice Sample.base_url Sample.number_text Example.token
         CoachScreen.initial (Sample.replying Example.unauthorized))
    in
  CoachScreen.alerts s1 =
  (CoachScreen.alerts CoachScreen.initial ++ [CoachScreen.SessionExpired])%list /\
  CoachScreen.adviceError s1 = JNull /\
  CoachScreen.onFocus Sample.base_url Sample.number_text Example.token s1 w1 =
  CoachScreen.loadDailyAdvice Sample.base_url Sample.number_text Example.token s1 w1 /\
  sent (snd (CoachScreen.onFocus Sample.base_url Sample.number_text Example.token s1 w1)) =
  (sent (Sample.replying Example.unauthorized) ++
   [aiCoachRequest Sample.base_url "/daily-advice" Example.token_text (post (JObj []));
    aiCoachRequest Sample.base_url "/daily-advice" Example.token_text (post (JObj []))])%list.
Proof.
  apply (focus_reloads_after_401
           Sample.base_url Sample.number_text Example.token CoachScreen.initial
           (Sample.replying Example.unauthorized) Example.token_text
           Example.unauthorized).
  - reflexivity.
  - reflexivity.
  - reflexivity.
  - reflexivity.
Defined.

Lemma loadMotivation_outcome_witness :
  match CoachScreen.usable Example.token with
  | Some t =>
      exists (request : HttpRequest) (doc : json),
        let s1 :=
          snd
            (fst
               (CoachScreen.loadMotivation Sample.base_url Sample.number_text
                  Example.token (Some high_cancel_rate) None CoachScreen.initial
                  (Sample.replying Example.unavailable)))
          in
        sent
          (snd
             (CoachScreen.loadMotivation Sample.base_url Sample.number_text Example.token
                (Some high_cancel_rate) None CoachScreen.initial
                (Sample.replying Example.unavailable))) =
        (sent (Sample.replying Example.unavailable) ++ [request])%list /\
        request = aiCoachRequest Sample.base_url "/motivation" t (post doc) /\
        request_url request = Sample.base_url ++ "/api/ai" ++ "/motivation" /\
        init_body (request_init request) = Some doc /\
        member "trigger" doc = Some (JStr (MotivationTrigger_text high_cancel_rate)) /\
        member "user_note" doc = None /\
        CoachScreen.motivationVisible s1 = true /\
        CoachScreen.motivationLoading s1 = false /\
        CoachScreen.motivation s1 =
        match
          CoachScreen.document_of
            (answer (Sample.replying Example.unavailable)
               (sent (Sample.replying Example.unavailable)) request)
        with
        | Some data => data
        | None => JNull
        end
  | None =>
      CoachScreen.loadMotivation Sample.base_url Sample.number_text Example.token
        (Some high_cancel_rate) None CoachScreen.initial
        (Sample.replying Example.unavailable) =
      (Fulfilled tt, CoachScreen.initial, Sample.replying Example.unavailable)
  end.
Proof.
  apply (loadMotivation_outcome
           Sample.base_url Sample.number_text Example.token
           (Some high_cancel_rate) None CoachScreen.initial
           (Sample.replying Example.unavailable)).
Defined.


Lemma login_then_restart_witness :
  let after :=
    Auth.login ExampleSession.JSON_text Example.token_text ExampleSession.user_document
      Auth.initial ExampleSession.empty_device
    in
  fst (fst after) = Fulfilled tt /\
  snd (fst after) =
  Auth.setUser ExampleSession.user_document
    (Auth.setToken (Some Example.token_text) Auth.initial) /\
  fst (fst (Auth.loadStoredAuth ExampleSession.JSON_parse Auth.initial (snd after))) =
  Fulfilled tt /\
  snd (fst (Auth.loadStoredAuth ExampleSession.JSON_parse Auth.initial (snd after))) =
  {|
    Auth.user := ExampleSession.user_document;
    Auth.token := Some Example.token_text;
    Auth.isLoading := false
  |}.
Proof.
  apply (login_then_restart
           ExampleSession.JSON_text ExampleSession.JSON_parse
           Example.token_text ExampleSession.user_document Auth.initial
           ExampleSession.empty_device).
  - intros before call; reflexivity.
  - discriminate.
  - discriminate.
  - reflexivity.
Defined.

Lemma login_failure_leaves_token_witness :
  fst
    (fst
       (Auth.login ExampleSession.JSON_text Example.token_text
          ExampleSession.user_document Auth.initial ExampleSession.full_device)) =
  RejectedWith (OtherError "Error" "database or disk is full") /\
  snd
    (fst
       (Auth.login ExampleSession.JSON_text Example.token_text
          ExampleSession.user_document Auth.initial ExampleSession.full_device)) =
  Auth.initial /\
  assoc Auth.TOKEN
    (Auth.items
       (snd
          (Auth.login ExampleSession.JSON_text Example.token_text
             ExampleSession.user_document Auth.initial ExampleSession.full_device))) =
  Some Example.token_text /\
  assoc Auth.USER
    (Auth.items
       (snd
          (Auth.login ExampleSession.JSON_text Example.token_text
             ExampleSession.user_document Auth.initial ExampleSession.full_device))) =
  assoc Auth.USER (Auth.items ExampleSession.full_device).
Proof.
  apply (login_failure_leaves_token
           ExampleSession.JSON_text Example.token_text
           ExampleSession.user_document Auth.initial ExampleSession.full_device
           (OtherError "Error" "database or disk is full")).
  - reflexivity.
  - reflexivity.
Defined.

Lemma countdown_is_exact_witness :
  Pomodoro.shows_a_time (Pomodoro.ticks 10 Pomodoro.initial) /\
  Pomodoro.remaining (Pomodoro.ticks 10 Pomodoro.initial) =
  (Pomodoro.remaining Pomodoro.initial - Z.of_nat 10)%Z /\
  (Pomodoro.remaining (Pomodoro.ticks 10 Pomodoro.initial) = 0%Z <->
   Z.of_nat 10 = Pomodoro.remaining Pomodoro.initial) /\
  Pomodoro.ticks 10 Pomodoro.initial =
  Pomodoro.setMilliseconds (Pomodoro.milliseconds (Pomodoro.ticks 10 Pomodoro.initial))
    (Pomodoro.setSeconds (Pomodoro.seconds (Pomodoro.ticks 10 Pomodoro.initial))
       (Pomodoro.setMinutes (Pomodoro.minutes (Pomodoro.ticks 10 Pomodoro.initial))
          Pomodoro.initial)).
Proof.
  apply (PomodoroFacts.countdown_is_exact
           10%nat Pomodoro.initial).
  - unfold Pomodoro.shows_a_time; cbn; lia.
  - cbn; lia.
Defined.

Lemma session_completes_witness :
  let last :=
    Pomodoro.ticks (Z.to_nat (Pomodoro.remaining Pomodoro.initial)) Pomodoro.initial in
  let s' := fst (Pomodoro.tick last last) in
  let next :=
    match Pomodoro.mode Pomodoro.initial with
    | Pomodoro.WORK =>
        if Pomodoro.breaksEnabled Pomodoro.initial
        then
         if
          Pomodoro.longBreaksEnabled Pomodoro.initial &&
          Pomodoro.divides (Pomodoro.longBreakInterval Pomodoro.initial)
            (Pomodoro.completedPomodoros Pomodoro.initial + 1)
         then Pomodoro.LONG_BREAK
         else Pomodoro.SHORT_BREAK
        else Pomodoro.WORK
    | _ => Pomodoro.WORK
    end in
  Pomodoro.remaining last = 0%Z /\
  Pomodoro.mode s' = next /\
  Pomodoro.minutes s' =
  match next with
  | Pomodoro.WORK => Pomodoro.workDuration Pomodoro.initial
  | Pomodoro.SHORT_BREAK => Pomodoro.shortBreakDuration Pomodoro.initial
  | Pomodoro.LONG_BREAK => Pomodoro.longBreakDuration Pomodoro.initial
  end /\
  Pomodoro.seconds s' = 0%Z /\
  Pomodoro.milliseconds s' = 0%Z /\
  Pomodoro.completedPomodoros s' =
  match Pomodoro.mode Pomodoro.initial with
  | Pomodoro.WORK => (Pomodoro.completedPomodoros Pomodoro.initial + 1)%Z
  | _ => Pomodoro.completedPomodoros Pomodoro.initial
  end /\
  Pomodoro.currentStreak s' =
  match Pomodoro.mode Pomodoro.initial with
  | Pomodoro.WORK => (Pomodoro.currentStreak Pomodoro.initial + 1)%Z
  | _ => Pomodoro.currentStreak Pomodoro.initial
  end /\
  snd (Pomodoro.tick last last) = Pomodoro.autoStart Pomodoro.initial /\
  Pomodoro.isActive s' =
  Pomodoro.autoStart Pomodoro.initial &&
  match Pomodoro.mode Pomodoro.initial with
  | Pomodoro.WORK =>
      Pomodoro.breaksEnabled Pomodoro.initial && Pomodoro.isActive Pomodoro.initial
  | _ => Pomodoro.isActive Pomodoro.initial
  end.
Proof.
  apply (PomodoroFacts.session_completes
           Pomodoro.initial).
  - unfold Pomodoro.shows_a_time; cbn; lia.
Defined.

Lemma high_cancel_rate_iff_witness :
  detectMotivationTrigger (F64.of_nat 2) (F64.of_nat 0) 10 60 = Some high_cancel_rate <->
  (0 < 2 <= 2 + 0)%nat.
Proof.
  apply (high_cancel_rate_iff
           2%nat 0%nat 10%float 60%float).
  - lia.
  - lia.
Defined.

Lemma zero_target_is_never_achieved_witness :
  (forall x : float, detectMotivationTrigger 0 1 x 0 <> Some goal_achieved) /\
  (detectMotivationTrigger 0 1 (F64.of_nat 10) 0 = Some high_cancel_rate \/
   detectMotivationTrigger 0 1 (F64.of_nat 10) 0 = Some low_performance).
Proof.
  apply (zero_target_is_never_achieved
           0%float 1%float 10%nat).
  - lia.
  - lia.
Defined.

Lemma loadStoredAuth_outcome_witness :
  Auth.token
    (snd (fst (Auth.loadStoredAuth ExampleSession.JSON_parse Auth.initial
                 ExampleSession.corrupt_device)))
  = Some Example.token_text
  /\ Auth.user
       (snd (fst (Auth.loadStoredAuth ExampleSession.JSON_parse Auth.initial
                    ExampleSession.corrupt_device)))
     = Auth.user Auth.initial.
Proof.
  apply (proj2 (proj2 (proj2
           (loadStoredAuth_outcome ExampleSession.JSON_parse Auth.initial
              ExampleSession.corrupt_device)))
           Example.token_text "{"
           (OtherError "SyntaxError" "JSON Parse error: Unexpected end of input")).
  - reflexivity.
  - reflexivity.
  - reflexivity.
  - discriminate.
  - reflexivity.
  - discriminate.
  - reflexivity.
Defined.
